(** * Boss notifier: spawn-time resolution and notification de-duplication

    A shallow embedding of the two variants of the notifier,
    [boss_notifier_app.py] (module [BossNotifierApp]) and [app.py]
    (module [App]), with the properties of the occurrence resolver, the
    notification gate and the de-duplication ledger. *)

From Stdlib Require Import ZArith List String Ascii Lia Bool.
From stdpp Require Import gmap strings list pretty sorting.

Open Scope Z_scope.

(** ** Exceptions and the result monad *)

Inductive exn := ValueError | OverflowError | KeyError.

Inductive result (A : Type) :=
  | Ok (a : A)
  | Raise (e : exn).
Arguments Ok {A} a.
Arguments Raise {A} e.

#[global] Instance result_ret : MRet result := λ A, Ok.
#[global] Instance result_bind : MBind result :=
  λ A B f r, match r with Ok a => f a | Raise e => Raise e end.

(** A state that survives an exception: what was recorded or emitted before
    a [raise] stays recorded and emitted. *)
Definition stM (S A : Type) : Type := S → S * result A.

#[global] Instance stM_ret {S} : MRet (stM S) := λ A a s, (s, Ok a).
#[global] Instance stM_bind {S} : MBind (stM S) :=
  λ A B f m s,
    match m s with
    | (s', Ok a) => f a s'
    | (s', Raise e) => (s', Raise e)
    end.

Definition lift {S A} (r : result A) : stM S A := λ s, (s, r).
Definition gets {S A} (f : S → A) : stM S A := λ s, (s, Ok (f s)).
Definition modify {S} (f : S → S) : stM S unit := λ s, (f s, Ok tt).

(** [for x in l: body(x)] *)
Fixpoint for_each {S A} (l : list A) (body : A → stM S unit) : stM S unit :=
  match l with
  | [] => mret tt
  | x :: l' => body x ;; for_each l' body
  end.

(** A loop over [l] that threads an accumulator and may raise. *)
Fixpoint fold_result {A B} (f : B → A → result B) (acc : B) (l : list A)
  : result B :=
  match l with
  | [] => Ok acc
  | x :: l' => acc' ← f acc x; fold_result f acc' l'
  end.

(** ** Python's naive [datetime] and [timedelta]

    A naive [datetime] is a date of the proleptic Gregorian calendar and a
    time of day; it is represented by the number of microseconds since
    0001-01-01T00:00:00.  A [timedelta] is a number of microseconds.
    Comparison of datetimes is comparison of these numbers, and arithmetic
    raises [OverflowError] when the date leaves years 1..9999. *)
Module PyDatetime.

Abbreviation datetime := Z (only parsing).
Abbreviation timedelta := Z (only parsing).

Definition US_PER_SECOND : Z := 1000000.
Definition US_PER_MINUTE : Z := 60 * US_PER_SECOND.
Definition US_PER_HOUR : Z := 3600 * US_PER_SECOND.
Definition US_PER_DAY : Z := 86400 * US_PER_SECOND.

(** [date.max.toordinal()] *)
Definition MAXORDINAL : Z := 3652059.

Definition td_seconds (n : Z) : timedelta := n * US_PER_SECOND.
Definition td_minutes (n : Z) : timedelta := n * US_PER_MINUTE.
Definition td_days (n : Z) : timedelta := n * US_PER_DAY.
Definition td_weeks (n : Z) : timedelta := n * (7 * US_PER_DAY).

(** The date part, counted in days from 0001-01-01 ([toordinal() - 1]). *)
Definition date (t : datetime) : Z := t / US_PER_DAY.
Definition toordinal (t : datetime) : Z := date t + 1.
(** [weekday()]: Monday is 0, Sunday is 6. *)
Definition weekday (t : datetime) : Z := (toordinal t + 6) mod 7.
(** Microseconds since midnight. *)
Definition time_of_day (t : datetime) : Z := t mod US_PER_DAY.

Definition representable (t : Z) : Prop := 0 ≤ t < MAXORDINAL * US_PER_DAY.
Definition representableb (t : Z) : bool :=
  (0 <=? t) && (t <? MAXORDINAL * US_PER_DAY).

(** [t + d] and [t - d] for a datetime [t] and a timedelta [d]. *)
Definition dt_add (t : datetime) (d : timedelta) : result datetime :=
  if representableb (t + d) then Ok (t + d) else Raise OverflowError.
Definition dt_sub (t : datetime) (d : timedelta) : result datetime :=
  dt_add t (- d).

(** A number that a C [int] holds. *)
Definition fits_int (n : Z) : bool :=
  (-2147483648 <=? n) && (n <=? 2147483647).

(** [t.replace(hour=h, minute=m, second=0, microsecond=0)]: an hour or a
    minute that a C [int] does not hold raises [OverflowError], one out of
    range [ValueError]. *)
Definition replace_hm (t : datetime) (h m : Z) : result datetime :=
  if (0 <=? h) && (h <? 24) && (0 <=? m) && (m <? 60)
  then Ok (date t * US_PER_DAY + h * US_PER_HOUR + m * US_PER_MINUTE)
  else if fits_int h && fits_int m then Raise ValueError
  else Raise OverflowError.

(** A [datetime.time] with seconds and microseconds zero. *)
Record time := mk_time { hour : Z; minute : Z }.
Definition time_valid (tm : time) : Prop :=
  0 ≤ hour tm < 24 ∧ 0 ≤ minute tm < 60.
Definition time_us (tm : time) : Z :=
  hour tm * US_PER_HOUR + minute tm * US_PER_MINUTE.
(** [datetime.combine(d, tm)] *)
Definition combine (d : Z) (tm : time) : datetime :=
  d * US_PER_DAY + time_us tm.

(** Calendar dates, for writing concrete instants. *)
Definition is_leap (y : Z) : bool :=
  ((y mod 4 =? 0) && negb (y mod 100 =? 0)) || (y mod 400 =? 0).
Definition days_before_year (y : Z) : Z :=
  let p := y - 1 in p * 365 + p / 4 - p / 100 + p / 400.
Definition days_in_month (y mo : Z) : Z :=
  if mo =? 2 then (if is_leap y then 29 else 28)
  else if (mo =? 4) || (mo =? 6) || (mo =? 9) || (mo =? 11) then 30 else 31.
Fixpoint days_before_month (y : Z) (mo : nat) : Z :=
  match mo with
  | O => 0
  | S k => days_before_month y k + days_in_month y (Z.of_nat (S k))
  end.
Definition ymd2ord (y mo d : Z) : Z :=
  days_before_year y + days_before_month y (Z.to_nat (mo - 1)) + d.
(** [datetime(y, mo, d, h, mi, s, us)] *)
Definition mk_datetime (y mo d h mi s us : Z) : datetime :=
  (ymd2ord y mo d - 1) * US_PER_DAY
  + h * US_PER_HOUR + mi * US_PER_MINUTE + s * US_PER_SECOND + us.

End PyDatetime.
Import PyDatetime.

(** ** Strings: [str.split(':')] and [int(str)]

    The model covers ASCII text: a string with a non-ASCII digit or space is
    rejected here, where Python would read it. *)
Module PyStr.

(** [s.split(':')] *)
Fixpoint split_colon (s : string) : list string :=
  match s with
  | EmptyString => [EmptyString]
  | String c s' =>
      match split_colon s' with
      | [] => [EmptyString]
      | p :: ps =>
          if Ascii.eqb c ":" then EmptyString :: p :: ps
          else String c p :: ps
      end
  end.

Definition is_space (c : ascii) : bool :=
  let n := Z.of_N (N_of_ascii c) in
  ((9 <=? n) && (n <=? 13)) || ((28 <=? n) && (n <=? 32)).

Definition digit_of (c : ascii) : option Z :=
  let n := Z.of_N (N_of_ascii c) in
  if (48 <=? n) && (n <=? 57) then Some (n - 48) else None.

Fixpoint lstrip (l : list ascii) : list ascii :=
  match l with
  | c :: l' => if is_space c then lstrip l' else l
  | [] => []
  end.
Definition strip (l : list ascii) : list ascii :=
  rev (lstrip (rev (lstrip l))).

(** Decimal digits, single underscores allowed between two digits. *)
Fixpoint digits_val (acc : Z) (after_digit : bool) (l : list ascii)
  : option Z :=
  match l with
  | [] => if after_digit then Some acc else None
  | c :: l' =>
      if Ascii.eqb c "_"
      then (if after_digit then digits_val acc false l' else None)
      else match digit_of c with
           | Some d => digits_val (10 * acc + d) true l'
           | None => None
           end
  end.

(** [int(s)] *)
Definition py_int (s : string) : result Z :=
  let body := strip (list_ascii_of_string s) in
  let signed :=
    match body with
    | c :: r =>
        if Ascii.eqb c "-" then Z.opp <$> digits_val 0 false r
        else if Ascii.eqb c "+" then digits_val 0 false r
        else digits_val 0 false body
    | [] => None
    end in
  match signed with
  | Some n => Ok n
  | None => Raise ValueError
  end.

(** [hour, minute = map(int, s.split(':'))] *)
Definition parse_hour_minute (s : string) : result (Z * Z) :=
  match split_colon s with
  | [a; b] => h ← py_int a; m ← py_int b; Ok (h, m)
  | _ => Raise ValueError
  end.

End PyStr.
Import PyStr.

(** ** [boss_notifier_app.py] *)
Module BossNotifierApp.

Definition DAY_MAPPING : gmap string Z :=
  list_to_map
    [("Monday"%string, 0); ("Tuesday"%string, 1); ("Wednesday"%string, 2);
     ("Thursday"%string, 3); ("Friday"%string, 4); ("Saturday"%string, 5);
     ("Sunday"%string, 6)].
Arguments DAY_MAPPING : simpl never.

(** One entry of a boss's [spawn_times]. *)
Record spawn := mk_spawn { day : string; time : string }.

(** The body of the loop of [get_next_spawn_time] below the day lookup:
    the candidate of one entry whose day maps to [day_of_week_int]. *)
Definition spawn_candidate (sp : spawn) (day_of_week_int : Z)
    (current_time : datetime) : result datetime :=
  '(hour, minute) ← parse_hour_minute (time sp);
  let days_diff := (day_of_week_int - weekday current_time + 7) mod 7 in
  c ← dt_add current_time (td_days days_diff);
  c ← replace_hm c hour minute;
  if c <=? current_time then dt_add c (td_weeks 1) else Ok c.

Definition spawn_step (current_time : datetime)
    (next_spawn : option datetime) (sp : spawn) : result (option datetime) :=
  match DAY_MAPPING !! day sp with
  | None => Ok next_spawn
  | Some day_of_week_int =>
      c ← spawn_candidate sp day_of_week_int current_time;
      match next_spawn with
      | None => Ok (Some c)
      | Some n => if c <? n then Ok (Some c) else Ok (Some n)
      end
  end.

Fixpoint spawn_loop (current_time : datetime)
    (next_spawn : option datetime) (spawn_times : list spawn)
  : result (option datetime) :=
  match spawn_times with
  | [] => Ok next_spawn
  | sp :: rest =>
      n ← spawn_step current_time next_spawn sp;
      spawn_loop current_time n rest
  end.

Definition get_next_spawn_time (boss_name : string)
    (spawn_times : list spawn) (current_time : datetime)
  : result (option datetime) :=
  spawn_loop current_time None spawn_times.

(** *** [NotificationWorker] *)

Record boss := mk_boss {
  id : string;
  name : string;
  (** [None]: the entry has no ['spawn_times'] key. *)
  spawn_times : option (list spawn)
}.

Definition notification_key : Type := string * datetime * Z.

(** A [send_notification_signal] emission.  The message text (its rounded
    minute count and clock time) is left out; the key identifies it. *)
Record notification := mk_notification {
  n_boss_name : string;
  n_key : notification_key
}.

Record worker := mk_worker {
  notified_spawn_times : gset notification_key;
  (** emissions of [send_notification_signal], oldest first *)
  sent : list notification;
  (** emissions of [live_info_updated]: the [closest_bosses_info] lists *)
  live_info : list (list (string * datetime))
}.

(** [NotificationWorker.__init__] *)
Definition init_worker : worker := mk_worker ∅ [] [].

(** What one iteration of [run] reads from the clock and the window. *)
Record tick_input := mk_tick_input {
  current_time : datetime;
  selected_boss_ids : list string;
  is_active : bool;
  selected_minutes : list Z
}.

(** [notification_minutes_options] of [create_widgets]; the selected
    minutes are the checked ones among these, in this order. *)
Definition notification_minutes_options : list Z := [1; 3; 5; 10; 15; 30].

(** [timedelta(minutes=1, seconds=5)] *)
Definition window_width : timedelta := td_minutes 1 + td_seconds 5.
(** [timedelta(minutes=15)] of the pruning step *)
Definition retention : timedelta := td_minutes 15.

(** [notification_threshold >= time_until_spawn >
     notification_threshold - timedelta(minutes=1, seconds=5)] *)
Definition in_window (minutes_before : Z) (time_until_spawn : timedelta)
  : bool :=
  let notification_threshold := td_minutes minutes_before in
  (time_until_spawn <=? notification_threshold)
  && (notification_threshold - window_width <? time_until_spawn).

(** The live-information pass, one boss. *)
Definition closest_step (now : datetime) (selected : list string)
    (acc : option datetime * list (string * datetime)) (b : boss)
  : result (option datetime * list (string * datetime)) :=
  if bool_decide (id b ∈ selected) then
    match spawn_times b with
    | None | Some [] => Ok acc
    | Some sts =>
        r ← get_next_spawn_time (name b) sts now;
        match r with
        | None => Ok acc
        | Some next_spawn_for_boss =>
            match acc.1 with
            | None => Ok (Some next_spawn_for_boss,
                          [(name b, next_spawn_for_boss)])
            | Some overall_earliest_spawn =>
                if next_spawn_for_boss <? overall_earliest_spawn
                then Ok (Some next_spawn_for_boss,
                         [(name b, next_spawn_for_boss)])
                else if next_spawn_for_boss =? overall_earliest_spawn
                then Ok (acc.1, acc.2 ++ [(name b, next_spawn_for_boss)])
                else Ok acc
            end
        end
    end
  else Ok acc.

Definition closest_bosses (boss_data : list boss) (now : datetime)
    (selected : list string)
  : result (option datetime * list (string * datetime)) :=
  fold_result (closest_step now selected) (None, []) boss_data.

(** The gate: one threshold of one boss. *)
Definition notify_threshold (boss_id boss_name : string)
    (next_spawn : datetime) (time_until_spawn : timedelta)
    (minutes_before : Z) : stM worker unit :=
  if in_window minutes_before time_until_spawn then
    let key := (boss_id, next_spawn, minutes_before) in
    ledger ← gets notified_spawn_times;
    if bool_decide (key ∉ ledger) then
      modify (λ w, mk_worker ({[key]} ∪ notified_spawn_times w)
                             (sent w ++ [mk_notification boss_name key])
                             (live_info w))
    else mret tt
  else mret tt.

(** The notification pass, one boss. *)
Definition notify_boss (now : datetime) (selected : list string)
    (minutes : list Z) (b : boss) : stM worker unit :=
  if bool_decide (id b ∈ selected) then
    match spawn_times b with
    | None | Some [] => mret tt
    | Some sts =>
        r ← lift (get_next_spawn_time (name b) sts now);
        match r with
        | None => mret tt
        | Some next_spawn =>
            let time_until_spawn := next_spawn - now in
            for_each minutes
              (notify_threshold (id b) (name b) next_spawn time_until_spawn)
        end
    end
  else mret tt.

(** The set comprehension that drops old keys; its condition, and with it
    the subtraction, is evaluated once per key. *)
Definition prune (now : datetime) : stM worker unit :=
  ledger ← gets notified_spawn_times;
  if bool_decide (ledger = ∅) then mret tt
  else
    limit ← lift (dt_sub now retention);
    modify (λ w, mk_worker
                   (filter (λ k : notification_key, limit < k.1.2)
                           (notified_spawn_times w))
                   (sent w) (live_info w)).

(** One iteration of the loop of [NotificationWorker.run]. *)
Definition tick (boss_data : list boss) (inp : tick_input)
  : stM worker unit :=
  let now := current_time inp in
  info ← lift (closest_bosses boss_data now (selected_boss_ids inp));
  modify (λ w, mk_worker (notified_spawn_times w) (sent w)
                         (live_info w ++ [info.2])) ;;
  (if is_active inp
   then for_each boss_data
          (notify_boss now (selected_boss_ids inp) (selected_minutes inp))
   else mret tt) ;;
  prune now.

(** The loop of [run], over the successive readings of the clock and of
    the window; an exception ends the thread. *)
Definition run (boss_data : list boss) (inputs : list tick_input)
  : stM worker unit :=
  for_each inputs (tick boss_data).

End BossNotifierApp.

(** ** [app.py] *)
Module App.

Definition NOTIFICATION_TIMES : gmap string Z :=
  list_to_map
    [("1_min"%string, 1); ("3_min"%string, 3); ("5_min"%string, 5);
     ("10_min"%string, 10); ("15_min"%string, 15); ("30_min"%string, 30);
     ("60_min"%string, 60)].
Arguments NOTIFICATION_TIMES : simpl never.

Definition WEEKDAY_MAP : gmap string Z :=
  list_to_map
    [("Monday"%string, 0); ("Tuesday"%string, 1); ("Wednesday"%string, 2);
     ("Thursday"%string, 3); ("Friday"%string, 4); ("Saturday"%string, 5);
     ("Sunday"%string, 6);
     ("monday"%string, 0); ("tuesday"%string, 1); ("wednesday"%string, 2);
     ("thursday"%string, 3); ("friday"%string, 4); ("saturday"%string, 5);
     ("sunday"%string, 6)].
Arguments WEEKDAY_MAP : simpl never.

(** A row of [df_schedule] after [load_boss_data]: the three columns of
    the sheet as text, and the two derived columns. *)
Record row := mk_row {
  Boss : string;
  Gun : string;
  Saat : string;
  Parsed_Time : PyDatetime.time;
  Normalized_Day : string
}.

Record toast := mk_toast {
  t_title : string;
  t_message : string;
  (** the key under which the toast was recorded *)
  t_key : string;
  (** the [event_datetime] it announces *)
  t_event : datetime
}.

(** The texts of [update_status_label], dates and times unformatted. *)
Inductive status :=
  | StReady
  | StNewDay (today_date : Z)
  | StNoActiveBosses
  | StSent (message : string)
  | StNextEvent (boss_name : string) (next_time : datetime)
  | StNoUpcoming.

Record app := mk_app {
  is_running : bool;
  df_schedule : option (list row);
  active_bosses : gmap string bool;
  (** a dict, in insertion order *)
  notification_settings : list (string * bool);
  notifications_sent_today : gmap string bool;
  last_reset_date : option Z;
  (** calls of [toast.show_toast], oldest first *)
  toasts : list toast;
  status_label : status
}.

(** The fields [__init__] sets before the sheet and the settings load. *)
Definition init_app : app :=
  mk_app false None ∅
    [("1_min"%string, false); ("3_min"%string, false);
     ("5_min"%string, false); ("10_min"%string, false);
     ("15_min"%string, false); ("30_min"%string, false);
     ("60_min"%string, false)]
    ∅ None [] StReady.

Definition set_ledger (l : gmap string bool) (s : app) : app :=
  mk_app (is_running s) (df_schedule s) (active_bosses s)
         (notification_settings s) l (last_reset_date s) (toasts s)
         (status_label s).
Definition set_last_reset_date (d : option Z) (s : app) : app :=
  mk_app (is_running s) (df_schedule s) (active_bosses s)
         (notification_settings s) (notifications_sent_today s) d
         (toasts s) (status_label s).
Definition add_toast (t : toast) (s : app) : app :=
  mk_app (is_running s) (df_schedule s) (active_bosses s)
         (notification_settings s) (notifications_sent_today s)
         (last_reset_date s) (toasts s ++ [t]) (status_label s).
Definition update_status_label (m : status) (s : app) : app :=
  mk_app (is_running s) (df_schedule s) (active_bosses s)
         (notification_settings s) (notifications_sent_today s)
         (last_reset_date s) (toasts s) m.

(** The daily reset at the head of [check_for_notifications]. *)
Definition daily_reset (now : datetime) : stM app unit :=
  let today_date := date now in
  last ← gets last_reset_date;
  if bool_decide (last ≠ Some today_date) then
    modify (set_ledger ∅) ;;
    modify (set_last_reset_date (Some today_date)) ;;
    modify (update_status_label (StNewDay today_date))
  else mret tt.

Definition active_bosses_list (s : app) : list string :=
  (filter (λ kv : string * bool, kv.2 = true)
          (map_to_list (active_bosses s))).*1.

Definition possible_day_names (current_weekday_num : Z) : list string :=
  (filter (λ kv : string * Z, kv.2 = current_weekday_num)
          (map_to_list WEEKDAY_MAP)).*1.

(** [[NOTIFICATION_TIMES[key] for key, active in settings.items() if active]] *)
Fixpoint active_notification_times (settings : list (string * bool))
  : result (list Z) :=
  match settings with
  | [] => Ok []
  | (key, active) :: rest =>
      if active then
        match NOTIFICATION_TIMES !! key with
        | Some minutes =>
            tl ← active_notification_times rest; Ok (minutes :: tl)
        | None => Raise KeyError
        end
      else active_notification_times rest
  end.

(** [sorted(l, reverse=True)] *)
Definition sorted_reverse (l : list Z) : list Z := merge_sort (flip Z.le) l.

(** The instant a row stands for at [now]: today at the row's time, moved
    to next week when it lies more than ten seconds back. *)
Definition event_datetime_of (now : datetime) (r : row) : result datetime :=
  let event_datetime := combine (date now) (Parsed_Time r) in
  limit ← dt_sub now (td_seconds 10);
  if event_datetime <? limit then dt_add event_datetime (td_weeks 1)
  else Ok event_datetime.

Definition event_id (r : row) : string :=
  Boss r +:+ "_" +:+ Gun r +:+ "_" +:+ Saat r.
Definition notification_key (r : row) (notify_minutes : Z) : string :=
  event_id r +:+ "_" +:+ pretty notify_minutes +:+ "min".

(** [notification_threshold >= time_diff >
     notification_threshold - timedelta(seconds=30)] *)
Definition in_window (notify_minutes : Z) (time_diff : timedelta) : bool :=
  let notification_threshold := td_minutes notify_minutes in
  (time_diff <=? notification_threshold)
  && (notification_threshold - td_seconds 30 <? time_diff).

Definition toast_of (r : row) (notify_minutes : Z)
    (event_datetime : datetime) : toast :=
  mk_toast ("Boss Notification: " +:+ Boss r)
           (Boss r +:+ " will spawn in " +:+ pretty notify_minutes
            +:+ " minutes, on " +:+ Gun r +:+ " at " +:+ Saat r +:+ "!")
           (notification_key r notify_minutes) event_datetime.

(** The loop over the thresholds of one row; it ends at the first one
    that fires ([break]). *)
Fixpoint notify_row (r : row) (event_datetime : datetime)
    (time_diff : timedelta) (thresholds : list Z) : stM app unit :=
  match thresholds with
  | [] => mret tt
  | notify_minutes :: rest =>
      ledger ← gets notifications_sent_today;
      let key := notification_key r notify_minutes in
      if in_window notify_minutes time_diff
         && bool_decide (ledger !! key = None)
      then
        let t := toast_of r notify_minutes event_datetime in
        modify (add_toast t) ;;
        modify (λ s, set_ledger (<[key := true]> (notifications_sent_today s)) s) ;;
        modify (update_status_label (StSent (t_message t)))
      else notify_row r event_datetime time_diff rest
  end.

(** The body of the loop over the rows; the accumulator is
    [(next_event_info, min_time_diff)]. *)
Definition row_step (now : datetime) (times : list Z)
    (acc : option (string * datetime) * timedelta) (r : row)
  : stM app (option (string * datetime) * timedelta) :=
  event_datetime ← lift (event_datetime_of now r);
  let time_diff := event_datetime - now in
  let acc' :=
    if (0 <? time_diff) && (time_diff <? acc.2)
    then (Some (Boss r, event_datetime), time_diff) else acc in
  notify_row r event_datetime time_diff (sorted_reverse times) ;;
  mret acc'.

Fixpoint rows_loop (now : datetime) (times : list Z)
    (acc : option (string * datetime) * timedelta) (rows : list row)
  : stM app (option (string * datetime) * timedelta) :=
  match rows with
  | [] => mret acc
  | r :: rest => acc' ← row_step now times acc r; rows_loop now times acc' rest
  end.

Definition filtered_df (s : app) (rows : list row) (now : datetime)
  : list row :=
  filter (λ r, Normalized_Day r ∈ possible_day_names (weekday now)
               ∧ Boss r ∈ active_bosses_list s) rows.

(** [check_for_notifications] below the daily reset. *)
Definition check_body (now : datetime) (rows : list row) : stM app unit :=
  actives ← gets active_bosses_list;
  match actives with
  | [] => modify (update_status_label StNoActiveBosses)
  | _ =>
      s ← gets (λ s, s);
      let filtered := filtered_df s rows now in
      settings ← gets notification_settings;
      times ← lift (active_notification_times settings);
      acc ← rows_loop now times (None, td_days 365) filtered;
      match acc.1 with
      | Some (boss_name, next_time) =>
          modify (update_status_label (StNextEvent boss_name next_time))
      | None => modify (update_status_label StNoUpcoming)
      end
  end.

Definition check_for_notifications (now : datetime) : stM app unit :=
  running ← gets is_running;
  schedule ← gets df_schedule;
  match schedule with
  | None | Some [] => mret tt
  | Some rows =>
      if negb running then mret tt
      else daily_reset now ;; check_body now rows
  end.

(** What the window changes between two checks. *)
Record ui_input := mk_ui_input {
  u_now : datetime;
  u_is_running : bool;
  u_active_bosses : gmap string bool;
  u_notification_settings : list (string * bool)
}.

Definition apply_ui (u : ui_input) (s : app) : app :=
  mk_app (u_is_running u) (df_schedule s) (u_active_bosses u)
         (u_notification_settings u) (notifications_sent_today s)
         (last_reset_date s) (toasts s) (status_label s).

(** The successive checks of the scheduler thread. *)
Definition run (inputs : list ui_input) : stM app unit :=
  for_each inputs
    (λ u, modify (apply_ui u) ;; check_for_notifications (u_now u)).

End App.

(** ** The spec's words, for comparison with the code *)
Module Spec.

(** The naive candidate of a rule: [now] shifted by
    [(dayOfWeek - now.dayOfWeek + 7) mod 7] days, with the time of day set
    to the rule's and seconds and microseconds zeroed. *)
Definition naive_candidate (dayOfWeek h m : Z) (now : datetime) : datetime :=
  let daysDiff := (dayOfWeek - weekday now + 7) mod 7 in
  (date now + daysDiff) * US_PER_DAY + h * US_PER_HOUR + m * US_PER_MINUTE.

(** The arming window [[occurrence - T, occurrence - T + W)] of a
    threshold of [T] minutes. *)
Definition arming_window (occurrence : datetime) (T : Z) (W : timedelta)
    (now : datetime) : Prop :=
  occurrence - td_minutes T ≤ now < occurrence - td_minutes T + W.

(** The minimum of a non-empty list of instants. *)
Definition minimum (l : list datetime) (m : datetime) : Prop :=
  m ∈ l ∧ ∀ x, x ∈ l → m ≤ x.

End Spec.

#[global] Instance arming_window_dec (occurrence : datetime) (T : Z)
    (W : timedelta) (now : datetime) :
  Decision (Spec.arming_window occurrence T W now).
Proof. unfold Spec.arming_window. apply _. Defined.

(** ** Notions used in the statements and in the proofs *)

Module BossNotifierAux.
Import BossNotifierApp.

(** The candidate of one entry, as the spec words it. *)
Definition resolved (d h m : Z) (now : datetime) : datetime :=
  let cand := Spec.naive_candidate d h m now in
  if cand <=? now then cand + td_weeks 1 else cand.

(** [if next_spawn is None or candidate < next_spawn: next_spawn = candidate] *)
Definition keep_earlier (next_spawn : option datetime) (c : datetime)
  : option datetime :=
  match next_spawn with
  | None => Some c
  | Some n => if c <? n then Some c else Some n
  end.

Definition fire (boss_name : string) (key : notification_key) (w : worker)
  : worker :=
  mk_worker ({[key]} ∪ notified_spawn_times w)
            (sent w ++ [mk_notification boss_name key]) (live_info w).

Definition fired_keys (w : worker) : list notification_key :=
  n_key <$> sent w.

(** Every key that fired and whose occurrence is still ahead of [now] is
    in the ledger, and no key fired twice. *)
Definition ledger_covers (now : datetime) (w : worker) : Prop :=
  NoDup (fired_keys w)
  ∧ ∀ k, k ∈ fired_keys w → now < k.1.2 → k ∈ notified_spawn_times w.

(** A threshold is due when its window is open and its key is not in the
    ledger. *)
Definition due (boss_id : string) (o : datetime) (tu : timedelta)
    (w : worker) (m : Z) : bool :=
  in_window m tu && bool_decide ((boss_id, o, m) ∉ notified_spawn_times w).

Definition known_day (sp : spawn) : Prop := is_Some (DAY_MAPPING !! day sp).

End BossNotifierAux.

Module AppAux.
Import App.

(** The instant of a row, in the spec's words: today at the row's time, a
    week later when that lies more than ten seconds back. *)
Definition resolved (now : datetime) (tm : PyDatetime.time) : datetime :=
  let cand := combine (date now) tm in
  if cand <? now - td_seconds 10 then cand + td_weeks 1 else cand.

(** A threshold is due when its window is open and its key is not in the
    ledger. *)
Definition due (r : row) (time_diff : timedelta) (s : app) (m : Z) : bool :=
  in_window m time_diff
  && bool_decide (notifications_sent_today s !! notification_key r m = None).

Definition fire (r : row) (e : datetime) (m : Z) (s : app) : app :=
  mk_app (is_running s) (df_schedule s) (active_bosses s)
         (notification_settings s)
         (<[notification_key r m := true]> (notifications_sent_today s))
         (last_reset_date s) (toasts s ++ [toast_of r m e])
         (StSent (t_message (toast_of r m e))).

(** A toast is identified by its key and the instant it announces. *)
Definition toast_ids (s : app) : list (string * Z) :=
  (λ t, (t_key t, t_event t)) <$> toasts s.

Definition df_valid (s : app) : Prop :=
  ∀ rows, df_schedule s = Some rows →
          Forall (λ r, time_valid (Parsed_Time r)) rows.

(** Inside a check, below the daily reset: the ledger holds the key of
    every toast of [today], and no toast is of a later day. *)
Definition today_inv (today : Z) (s : app) : Prop :=
  last_reset_date s = Some today
  ∧ NoDup (toast_ids s)
  ∧ (∀ t, t ∈ toasts s → date (t_event t) ≤ today)
  ∧ (∀ t, t ∈ toasts s → date (t_event t) = today →
          is_Some (notifications_sent_today s !! t_key t)).

(** Between two checks, the last one not after [lo]. *)
Definition between_inv (lo : datetime) (s : app) : Prop :=
  NoDup (toast_ids s)
  ∧ (∀ d, last_reset_date s = Some d → d ≤ date lo)
  ∧ (∀ t, t ∈ toasts s →
          ∃ d, last_reset_date s = Some d ∧ date (t_event t) ≤ d
               ∧ (date (t_event t) = d →
                  is_Some (notifications_sent_today s !! t_key t))).

(** Below the daily reset of a check that started in [s0]: the date of the
    reset is [today], and the ledger holds exactly the keys of the toasts
    sent since. *)
Definition fresh_ledger (today : Z) (s0 s : app) : Prop :=
  last_reset_date s = Some today
  ∧ ∃ new, toasts s = toasts s0 ++ new
           ∧ ∀ k, is_Some (notifications_sent_today s !! k)
                  ↔ k ∈ t_key <$> new.

End AppAux.

(** ** Concrete instants, entries and states

    2024-01-01 is a Monday. *)

Definition monday_0800 : datetime := mk_datetime 2024 1 1 8 0 0 0.
Definition monday_0800_05 : datetime := mk_datetime 2024 1 1 8 0 5 0.
Definition monday_0900 : datetime := mk_datetime 2024 1 1 9 0 0 0.
Definition next_monday_0745 : datetime := mk_datetime 2024 1 8 7 45 0 0.
Definition next_monday_0800 : datetime := mk_datetime 2024 1 8 8 0 0 0.
Definition wednesday_1400 : datetime := mk_datetime 2024 1 3 14 0 0 0.

Definition spawn_monday_0800 : BossNotifierApp.spawn :=
  BossNotifierApp.mk_spawn "Monday" "08:00".
Definition spawn_wednesday_1400 : BossNotifierApp.spawn :=
  BossNotifierApp.mk_spawn "Wednesday" "14:00".
Definition row_monday_0800 : App.row :=
  App.mk_row "Kzarka" "Monday" "08:00" (mk_time 8 0) "monday".

Definition kzarka : BossNotifierApp.boss :=
  BossNotifierApp.mk_boss "kzarka" "Kzarka" (Some [spawn_monday_0800]).

(** Three readings of the clock around 07:45 on a Monday, the 15-minute
    and the 5-minute warning selected. *)
Definition three_ticks : list BossNotifierApp.tick_input :=
  [BossNotifierApp.mk_tick_input (mk_datetime 2024 1 1 7 45 0 0)
     ["kzarka"%string] true [5; 15];
   BossNotifierApp.mk_tick_input (mk_datetime 2024 1 1 7 45 15 0)
     ["kzarka"%string] true [5; 15];
   BossNotifierApp.mk_tick_input (mk_datetime 2024 1 1 7 55 0 0)
     ["kzarka"%string] true [5; 15]].

(** [app.py] with the sheet loaded and nothing checked yet. *)
Definition loaded_app : App.app :=
  App.mk_app false (Some [row_monday_0800]) ∅
    (App.notification_settings App.init_app) ∅ None [] App.StReady.

Definition three_checks : list App.ui_input :=
  [App.mk_ui_input (mk_datetime 2024 1 1 7 45 0 0) true
     {["Kzarka"%string := true]}
     [("15_min"%string, true); ("5_min"%string, true)];
   App.mk_ui_input (mk_datetime 2024 1 1 7 45 20 0) true
     {["Kzarka"%string := true]}
     [("15_min"%string, true); ("5_min"%string, true)];
   App.mk_ui_input (mk_datetime 2024 1 8 7 45 0 0) true
     {["Kzarka"%string := true]}
     [("15_min"%string, true); ("5_min"%string, true)]].

Definition recorded_last_week : gmap string bool :=
  {[ App.notification_key row_monday_0800 15 := true ]}.

Definition fifteen_and_five : list Z := [5; 15].

(** The state of [app.py] at 07:45:10 on the Monday, nothing sent yet. *)
Definition monday_app : App.app :=
  App.mk_app true (Some [row_monday_0800]) {["Kzarka"%string := true]}
    [("15_min"%string, true); ("5_min"%string, true)]
    ∅ (Some (date monday_0800)) [] App.StReady.

(** The largest threshold the window offers. *)
Definition largest_threshold : Z :=
  foldr Z.max 0 BossNotifierApp.notification_minutes_options.

Definition quarter_past_eight : datetime := mk_datetime 2024 1 1 8 15 0 0.
Definition kzarka_key : BossNotifierApp.notification_key :=
  ("kzarka"%string, monday_0800, 15).
Definition worker_after_0800 : BossNotifierApp.worker :=
  BossNotifierApp.mk_worker {[kzarka_key]} [] [].

Definition two_spawns : list BossNotifierApp.spawn :=
  [spawn_monday_0800; spawn_wednesday_1400].

(** [app.py] running, with the 15-minute toast of the first Monday
    recorded. *)
Definition running_app : App.app :=
  App.mk_app true (Some [row_monday_0800]) {["Kzarka"%string := true]}
    [("15_min"%string, true)] recorded_last_week
    (Some (date monday_0800)) [] App.StReady.

Definition spawn_monday_1400 : BossNotifierApp.spawn :=
  BossNotifierApp.mk_spawn "Monday" "14:00".
Definition row_monday_1400 : App.row :=
  App.mk_row "Kzarka" "Monday" "14:00" (mk_time 14 0) "monday".
Definition row_monday_0810 : App.row :=
  App.mk_row "Kzarka" "Monday" "08:10" (mk_time 8 10) "monday".
Definition monday_0755 : datetime := mk_datetime 2024 1 1 7 55 0 0.
Definition monday_0810 : datetime := mk_datetime 2024 1 1 8 10 0 0.

(** [app.py] running on a sheet with two rows of the same boss on the
    Monday, the 15-minute and the 5-minute setting enabled. *)
Definition two_rows_app : App.app :=
  App.mk_app true (Some [row_monday_0800; row_monday_0810])
    {["Kzarka"%string := true]}
    [("15_min"%string, true); ("5_min"%string, true)]
    ∅ (Some (date monday_0800)) [] App.StReady.

Definition row_wednesday_1400 : App.row :=
  App.mk_row "Kzarka" "Wednesday" "14:00" (mk_time 14 0) "wednesday".
Definition monday_1400 : datetime := mk_datetime 2024 1 1 14 0 0 0.

(** [app.py] running on a sheet whose only row is that of Wednesday
    14:00. *)
Definition wednesday_app : App.app :=
  App.mk_app true (Some [row_wednesday_1400]) {["Kzarka"%string := true]}
    [("15_min"%string, true)] ∅ None [] App.StReady.

Definition spawn_funday : BossNotifierApp.spawn :=
  BossNotifierApp.mk_spawn "Funday" "25:61".
Definition funday_boss : BossNotifierApp.boss :=
  BossNotifierApp.mk_boss "vell" "Vell" (Some [spawn_funday]).

(** ** Further code and notions of [boss_notifier_app.py] *)

Module BossNotifierMore.
Import BossNotifierApp.

(** [get_selected_notification_minutes]: the options whose box is checked,
    in the order of the dict of boxes, which is that of the options. *)
Definition get_selected_notification_minutes (is_checked : Z → bool)
  : list Z :=
  filter (λ minute, is_checked minute = true) notification_minutes_options.

(** The entry reads as a day of the week and a time of day. *)
Definition well_formed (sp : spawn) : Prop :=
  ∃ d h m, DAY_MAPPING !! day sp = Some d
           ∧ parse_hour_minute (time sp) = Ok (h, m)
           ∧ 0 ≤ h < 24 ∧ 0 ≤ m < 60.

(** The instant [t] falls on the day of the week and at the time of day
    that the entry names. *)
Definition entry_matches (sp : spawn) (t : datetime) : Prop :=
  ∃ d h m, DAY_MAPPING !! day sp = Some d
           ∧ parse_hour_minute (time sp) = Ok (h, m)
           ∧ weekday t = d
           ∧ time_of_day t = h * US_PER_HOUR + m * US_PER_MINUTE.

(** The text holds ASCII characters only. *)
Definition is_ascii (s : string) : Prop :=
  Forall (λ c, (N_of_ascii c < 128)%N) (list_ascii_of_string s).

(** The entry has a day of the mapping and a time, written in ASCII, that
    does not read as an hour in 0..23 and a minute in 0..59. *)
Definition unreadable_time (sp : spawn) : Prop :=
  is_Some (DAY_MAPPING !! day sp)
  ∧ is_ascii (time sp)
  ∧ ∀ h m, parse_hour_minute (time sp) = Ok (h, m) →
           ¬ (0 ≤ h < 24 ∧ 0 ≤ m < 60).

(** The next spawn of a boss as the two passes of a tick see it: that of
    a selected boss with entries. *)
Definition next_spawn_of (now : datetime) (selected : list string) (b : boss)
  : option (string * datetime) :=
  if bool_decide (id b ∈ selected) then
    match spawn_times b with
    | Some sts =>
        match get_next_spawn_time (name b) sts now with
        | Ok (Some t) => Some (name b, t)
        | _ => None
        end
    | None => None
    end
  else None.

Definition next_spawns (boss_data : list boss) (now : datetime)
    (selected : list string) : list (string * datetime) :=
  omap (next_spawn_of now selected) boss_data.

(** What holds of a notification that a tick sends from the state [w]. *)
Definition sent_in_tick (boss_data : list boss) (inp : tick_input)
    (w : worker) (n : notification) : Prop :=
  let boss_id := (n_key n).1.1 in
  let next_spawn := (n_key n).1.2 in
  let minutes_before := (n_key n).2 in
  is_active inp = true
  ∧ boss_id ∈ selected_boss_ids inp
  ∧ minutes_before ∈ selected_minutes inp
  ∧ current_time inp < next_spawn
  ∧ Spec.arming_window next_spawn minutes_before window_width
      (current_time inp)
  ∧ (n_key n ∉ notified_spawn_times w)
  ∧ ∃ b sts, b ∈ boss_data ∧ id b = boss_id ∧ name b = n_boss_name n
             ∧ spawn_times b = Some sts
             ∧ get_next_spawn_time (name b) sts (current_time inp)
               = Ok (Some next_spawn).

(** What holds of the next occurrence [o] of the entry [sp] alone. *)
Definition first_match (boss_name : string) (now : datetime) (sp : spawn)
    (o : datetime) : Prop :=
  get_next_spawn_time boss_name [sp] now = Ok (Some o)
  ∧ now < o ≤ now + td_weeks 1
  ∧ entry_matches sp o
  ∧ ∀ t', now < t' → entry_matches sp t' → o ≤ t'.

(** What the live-information pass holds after the bosses whose next
    spawns are [seen]: the earliest of them, and those that attain it. *)
Definition earliest_of (seen : list (string * datetime))
    (acc : option datetime * list (string * datetime)) : Prop :=
  acc.2 = filter (λ p, acc.1 = Some p.2) seen
  ∧ (∀ p, p ∈ seen → ∃ t, acc.1 = Some t ∧ t ≤ p.2)
  ∧ (∀ t, acc.1 = Some t → ∃ p, p ∈ seen ∧ p.2 = t)
  ∧ (acc.1 = None → seen = []).

(** Since the state [w]: the ledger has grown, and what was sent
    satisfies [good]. *)
Definition sent_since (good : notification → Prop) (w w' : worker) : Prop :=
  notified_spawn_times w ⊆ notified_spawn_times w'
  ∧ ∃ new, sent w' = sent w ++ new ∧ Forall good new.

(** The ledger holds only keys of notifications that were sent. *)
Definition ledger_sent (w : worker) : Prop :=
  ∀ k, k ∈ notified_spawn_times w → k ∈ BossNotifierAux.fired_keys w.

(** What one entry of [boss_data] may send in a tick: nothing, or one
    notification in its own name and under its own id. *)
Definition own_part (b : boss) (part : list notification) : Prop :=
  (length part ≤ 1)%nat
  ∧ ∀ n, n ∈ part → n_boss_name n = name b ∧ (n_key n).1.1 = id b.

(** What an entry of [boss_data] sends in a tick at [now] that begins with
    the ledger [ledger]: nothing unless it is selected and has a next
    spawn; else one notification for each of the minutes, in their order,
    whose window contains [now] and whose key is not in the ledger. *)
Definition due_notifications (now : datetime) (selected : list string)
    (minutes : list Z) (ledger : gset notification_key) (b : boss)
  : list notification :=
  match next_spawn_of now selected b with
  | Some (boss_name, next_spawn) =>
      (λ m, mk_notification boss_name (id b, next_spawn, m)) <$>
        filter (λ m, Spec.arming_window next_spawn m window_width now
                     ∧ (id b, next_spawn, m) ∉ ledger) minutes
  | None => []
  end.

End BossNotifierMore.

Definition vell : BossNotifierApp.boss :=
  BossNotifierApp.mk_boss "vell" "Vell" (Some [spawn_wednesday_1400]).
Definition two_bosses : list BossNotifierApp.boss := [kzarka; vell].
Definition both_selected : list string := ["kzarka"%string; "vell"%string].

Definition spawn_monday_2400 : BossNotifierApp.spawn :=
  BossNotifierApp.mk_spawn "Monday" "24:00".
Definition garmoth : BossNotifierApp.boss :=
  BossNotifierApp.mk_boss "garmoth" "Garmoth"
    (Some [spawn_wednesday_1400; spawn_monday_2400]).
Definition garmoth_tick : BossNotifierApp.tick_input :=
  BossNotifierApp.mk_tick_input monday_0900 ["garmoth"%string] false [].
Definition quarter_to_eight_tick : BossNotifierApp.tick_input :=
  BossNotifierApp.mk_tick_input (mk_datetime 2024 1 1 7 45 0 0)
    ["kzarka"%string] true [5; 15].

(** ** Further notions of [app.py] *)

Module AppMore.
Import App.

(** The ledger as the rows of a check at [now] find it: emptied when the
    recorded date is not today's. *)
Definition ledger_at (now : datetime) (s : app) : gmap string bool :=
  if bool_decide (last_reset_date s ≠ Some (date now)) then ∅
  else notifications_sent_today s.

(** What holds of a toast that a check at [now] shows from the state [s],
    [rows] being the sheet. *)
Definition toast_in_check (rows : list row) (now : datetime) (s : app)
    (t : toast) : Prop :=
  ∃ r notify_minutes setting,
    t = toast_of r notify_minutes (combine (date now) (Parsed_Time r))
    ∧ r ∈ rows
    ∧ active_bosses s !! Boss r = Some true
    ∧ WEEKDAY_MAP !! Normalized_Day r = Some (weekday now)
    ∧ (setting, true) ∈ notification_settings s
    ∧ NOTIFICATION_TIMES !! setting = Some notify_minutes
    ∧ Spec.arming_window (combine (date now) (Parsed_Time r)) notify_minutes
        (td_seconds 30) now
    ∧ ledger_at now s !! notification_key r notify_minutes = None.

(** What holds of the status a check at [now] leaves, [today_rows] being
    the rows it went through. *)
Definition status_in_check (today_rows : list row) (now : datetime)
    (st : status) : Prop :=
  match st with
  | StNextEvent boss_name next_time =>
      now < next_time
      ∧ (∃ r, r ∈ today_rows ∧ Boss r = boss_name
              ∧ event_datetime_of now r = Ok next_time)
      ∧ ∀ r e, r ∈ today_rows → event_datetime_of now r = Ok e →
               now < e → next_time ≤ e
  | StNoUpcoming =>
      ∀ r e, r ∈ today_rows → event_datetime_of now r = Ok e → e ≤ now
  | _ => False
  end.

(** Since the state [s0]: the ledger has grown, and the toasts shown
    satisfy [good]. *)
Definition shown_since (good : toast → Prop) (s0 s : app) : Prop :=
  notifications_sent_today s0 ⊆ notifications_sent_today s
  ∧ ∃ new, toasts s = toasts s0 ++ new ∧ Forall good new.

(** The accumulator of the loop over the rows after the rows [seen]:
    the nearest event ahead of [now] among them, if there is one. *)
Definition next_inv (now : datetime) (seen : list row)
    (acc : option (string * datetime) * timedelta) : Prop :=
  match acc.1 with
  | Some (boss_name, next_time) =>
      acc.2 = next_time - now ∧ now < next_time
      ∧ ∃ r, r ∈ seen ∧ Boss r = boss_name
             ∧ event_datetime_of now r = Ok next_time
  | None => acc.2 = td_days 365
  end
  ∧ ∀ r e, r ∈ seen → event_datetime_of now r = Ok e → now < e →
           acc.2 ≤ e - now.

(** The largest of [times] that satisfies [due], if one does. *)
Definition largest_due (due : Z → Prop) `{∀ m, Decision (due m)}
    (times : list Z) : option Z :=
  match filter due times with
  | [] => None
  | m :: ms => Some (foldr Z.max m ms)
  end.

(** What a row shows in a check at [now] whose rows find the ledger
    [ledger]: the toast of the largest of the minutes [times] whose window
    contains [now] and whose key is not in the ledger, if there is one. *)
Definition due_toast (now : datetime) (times : list Z)
    (ledger : gmap string bool) (r : row) : option toast :=
  match event_datetime_of now r with
  | Ok e =>
      (λ m, toast_of r m e) <$>
        largest_due (λ m, Spec.arming_window e m (td_seconds 30) now
                          ∧ ledger !! notification_key r m = None) times
  | Raise _ => None
  end.

(** The end of the key of a threshold, and the minutes of
    [NOTIFICATION_TIMES]. *)
Definition key_ending (m : Z) : list ascii :=
  list_ascii_of_string ("_" +:+ pretty m +:+ "min").

Definition table : list Z := [1; 3; 5; 10; 15; 30; 60].

End AppMore.

(** ** [get_next_spawn_time] over the objects it is handed

    The entries of a boss are a Python [list] of [dict]s that every call
    of every tick is handed anew, by reference, and [DAY_MAPPING] is a
    [dict] of the module.  Here the function is written over a store that
    holds these objects and what was printed: every read of the source is
    a read of the store, and a write would be a change of the store. *)
Module BossNotifierStore.

(** The identity of an object. *)
Definition loc : Type := positive.

Record store := mk_store {
  (** the [dict] that the global [DAY_MAPPING] names *)
  day_mapping : gmap string Z;
  (** the [list] objects: their items *)
  lists : gmap loc (list loc);
  (** the [dict] objects of the entries *)
  dicts : gmap loc (gmap string string);
  (** what was written to the standard output *)
  stdout : list string
}.

(** [DAY_MAPPING.get(key)] *)
Definition day_mapping_get (key : string) : stM store (option Z) :=
  gets (λ σ, day_mapping σ !! key).

(** [d[key]] for the dict [d] *)
Definition getitem (d : loc) (key : string) : stM store string :=
  λ σ, match (dicts σ !!! d) !! key with
       | Some v => (σ, Ok v)
       | None => (σ, Raise KeyError)
       end.

(** The next item of the iterator of the list [l] that has given [i]
    items; [None] when the list has no item at [i]. *)
Definition list_next (l : loc) (i : nat) : stM store (option loc) :=
  gets (λ σ, (lists σ !!! l) !! i).

(** The body of [for spawn in spawn_times]. *)
Definition spawn_body (current_time : datetime)
    (next_spawn : option datetime) (spawn : loc)
  : stM store (option datetime) :=
  day ← getitem spawn "day";
  day_of_week_int ← day_mapping_get day;
  match day_of_week_int with
  | None => mret next_spawn
  | Some d =>
      time ← getitem spawn "time";
      c ← lift (BossNotifierApp.spawn_candidate
                  (BossNotifierApp.mk_spawn day time) d current_time);
      match next_spawn with
      | None => mret (Some c)
      | Some n => if c <? n then mret (Some c) else mret (Some n)
      end
  end.

(** The loop, the iterator having given [i] items; [fuel] bounds the
    number of iterations, and [None] is a loop that did not end within
    it. *)
Fixpoint spawn_iter (fuel : nat) (spawn_times : loc)
    (current_time : datetime) (i : nat) (next_spawn : option datetime)
    (σ : store) : option (store * result (option datetime)) :=
  match fuel with
  | O => None
  | S fuel' =>
      match list_next spawn_times i σ with
      | (σ1, Ok None) => Some (σ1, Ok next_spawn)
      | (σ1, Ok (Some spawn)) =>
          match spawn_body current_time next_spawn spawn σ1 with
          | (σ2, Ok n) =>
              spawn_iter fuel' spawn_times current_time (S i) n σ2
          | (σ2, Raise e) => Some (σ2, Raise e)
          end
      | (σ1, Raise e) => Some (σ1, Raise e)
      end
  end.

Definition get_next_spawn_time (fuel : nat) (boss_name : string)
    (spawn_times : loc) (current_time : datetime) (σ : store)
  : option (store * result (option datetime)) :=
  spawn_iter fuel spawn_times current_time 0 None σ.

(** What a call can read of the store: the mapping, and the dicts of the
    items of the list it is handed, in their order. *)
Definition view (σ : store) (spawn_times : loc)
  : gmap string Z * list (gmap string string) :=
  (day_mapping σ, (λ d, dicts σ !!! d) <$> (lists σ !!! spawn_times)).

(** An entry as the record of its two keys. *)
Definition entry_of (d : gmap string string) : option BossNotifierApp.spawn :=
  day ← d !! "day"; time ← d !! "time";
  Some (BossNotifierApp.mk_spawn day time).

(** The body and the loop as functions of what is read. *)
Definition body_of_view (dm : gmap string Z) (current_time : datetime)
    (next_spawn : option datetime) (d : gmap string string)
  : result (option datetime) :=
  match d !! "day" with
  | None => Raise KeyError
  | Some day =>
      match dm !! day with
      | None => Ok next_spawn
      | Some dow =>
          match d !! "time" with
          | None => Raise KeyError
          | Some time =>
              c ← BossNotifierApp.spawn_candidate
                    (BossNotifierApp.mk_spawn day time) dow current_time;
              match next_spawn with
              | None => Ok (Some c)
              | Some n => if c <? n then Ok (Some c) else Ok (Some n)
              end
          end
      end
  end.

Definition result_of_view (v : gmap string Z * list (gmap string string))
    (current_time : datetime) : result (option datetime) :=
  fold_result (body_of_view v.1 current_time) None v.2.

End BossNotifierStore.

Definition monday_dict : gmap string string :=
  {[ "day"%string := "Monday"%string; "time"%string := "08:00"%string ]}.
Definition wednesday_dict : gmap string string :=
  {[ "day"%string := "Wednesday"%string; "time"%string := "14:00"%string ]}.

(** Two stores that hold the same entries in different objects, the second
    with an output already written. *)
Definition kzarka_store : BossNotifierStore.store :=
  BossNotifierStore.mk_store BossNotifierApp.DAY_MAPPING
    {[ 1%positive := [2%positive; 3%positive] ]}
    {[ 2%positive := monday_dict; 3%positive := wednesday_dict ]} [].
Definition kzarka_store' : BossNotifierStore.store :=
  BossNotifierStore.mk_store BossNotifierApp.DAY_MAPPING
    {[ 7%positive := [8%positive; 9%positive] ]}
    {[ 8%positive := monday_dict; 9%positive := wednesday_dict ]}
    ["started"%string].

(** ** [settings.txt] of [app.py] *)

(** Text files as Python reads and writes them in text mode, characters
    being ASCII. *)
Module PyText.

Definition LF : ascii := "010"%char.
Definition CR : ascii := "013"%char.

(** [f.write(s)] on a file opened with ['w']: every ["\n"] is written as
    [os.linesep]. *)
Definition write_text (linesep : list ascii) (s : list ascii) : list ascii :=
  flat_map (λ c, if Ascii.eqb c LF then linesep else [c]) s.

(** What a file opened with ['r'] gives back: ["\r\n"] and a lone ["\r"]
    read as ["\n"]. *)
Fixpoint universal_newlines (s : list ascii) : list ascii :=
  match s with
  | [] => []
  | c :: r =>
      if Ascii.eqb c CR then
        LF :: match r with
              | c' :: r' =>
                  if Ascii.eqb c' LF then universal_newlines r'
                  else universal_newlines r
              | [] => []
              end
      else c :: universal_newlines r
  end.

(** [for line in f]: the lines, each with its ["\n"]; a last line without
    one is a line too. *)
Fixpoint file_lines (s : list ascii) : list (list ascii) :=
  match s with
  | [] => []
  | c :: r =>
      if Ascii.eqb c LF then [c] :: file_lines r
      else match file_lines r with
           | [] => [[c]]
           | l :: ls => (c :: l) :: ls
           end
  end.

(** [s.split(sep, 1)] for a separator of one character *)
Fixpoint split_once (sep : ascii) (s : list ascii) : list (list ascii) :=
  match s with
  | [] => [[]]
  | c :: r =>
      if Ascii.eqb c sep then [[]; r]
      else match split_once sep r with
           | p :: ps => (c :: p) :: ps
           | [] => [[c]]
           end
  end.

(** [s.startswith(c)], [s.endswith(c)] and [c in s] for one character *)
Definition startswith (c : ascii) (s : list ascii) : bool :=
  match s with
  | x :: _ => Ascii.eqb x c
  | [] => false
  end.
Definition endswith (c : ascii) (s : list ascii) : bool :=
  startswith c (rev s).
Definition contains (c : ascii) (s : list ascii) : bool :=
  existsb (Ascii.eqb c) s.

(** [s.lower()] *)
Definition lower_char (c : ascii) : ascii :=
  let n := N_of_ascii c in
  if ((65 <=? n) && (n <=? 90))%N then ascii_of_N (n + 32) else c.
Definition lower (s : list ascii) : list ascii := lower_char <$> s.

(** [str(b)] of a [bool] *)
Definition str_bool (b : bool) : list ascii :=
  list_ascii_of_string (if b then "True" else "False").

End PyText.

Module AppSettings.
Import PyText.

(** A [dict] from [str] to [bool], its items in insertion order. *)
Abbreviation dict := (list (string * bool)) (only parsing).

(** [d[k] = v] *)
Fixpoint dict_set (k : string) (v : bool) (d : dict) : dict :=
  match d with
  | [] => [(k, v)]
  | (k', v') :: d' =>
      if String.eqb k k' then (k', v) :: d' else (k', v') :: dict_set k v d'
  end.

(** [d.get(k)] *)
Fixpoint dict_get (k : string) (d : dict) : option bool :=
  match d with
  | [] => None
  | (k', v') :: d' => if String.eqb k k' then Some v' else dict_get k d'
  end.

Definition active_bosses_header : list ascii :=
  list_ascii_of_string "[Active Bosses]".
Definition notification_settings_header : list ascii :=
  list_ascii_of_string "[Notification Settings]".

(** [f"{key}={active}\n"] *)
Definition setting_line (kv : string * bool) : list ascii :=
  list_ascii_of_string kv.1 ++ list_ascii_of_string "=" ++ str_bool kv.2
  ++ [LF].

(** What [save_settings] passes to [f.write], call after call, for the
    items of [self.active_bosses] and of [self.notification_settings]. *)
Definition save_settings (active_bosses notification_settings : dict)
  : list ascii :=
  (active_bosses_header ++ [LF])
  ++ flat_map setting_line active_bosses
  ++ (notification_settings_header ++ [LF])
  ++ flat_map setting_line notification_settings.

(** The variables of the loop of [load_settings]. *)
Record loading := mk_loading {
  current_section : option (list ascii);
  l_active_bosses : dict;
  l_notification_settings : dict
}.

(** The body of the loop over the lines of the file. *)
Definition load_line (st : loading) (raw : list ascii) : loading :=
  let line := strip raw in
  if startswith "[" line && endswith "]" line then
    mk_loading (Some line) (l_active_bosses st) (l_notification_settings st)
  else if bool_decide (current_section st = Some active_bosses_header)
          && contains "=" line then
    match split_once "=" line with
    | [boss; active] =>
        mk_loading (current_section st)
          (dict_set (string_of_list_ascii boss)
             (bool_decide (lower active = list_ascii_of_string "true"))
             (l_active_bosses st))
          (l_notification_settings st)
    | _ => st
    end
  else if bool_decide (current_section st = Some notification_settings_header)
          && contains "=" line then
    match split_once "=" line with
    | [setting; active] =>
        mk_loading (current_section st) (l_active_bosses st)
          (dict_set (string_of_list_ascii setting)
             (bool_decide (lower active = list_ascii_of_string "true"))
             (l_notification_settings st))
    | _ => st
    end
  else st.

(** [load_settings]: [file] is the content of [settings.txt], [None] when
    it does not exist; the result is the two dicts afterwards. *)
Definition load_settings (file : option (list ascii))
    (active_bosses notification_settings : dict) : dict * dict :=
  match file with
  | None => (active_bosses, notification_settings)
  | Some content =>
      let st := foldl load_line
                  (mk_loading None active_bosses notification_settings)
                  (file_lines (universal_newlines content)) in
      (l_active_bosses st, l_notification_settings st)
  end.

(** A key that a line of the file carries unchanged: no ["="], no line
    break, no white space in front. *)
Definition key_ok (k : string) : bool :=
  let l := list_ascii_of_string k in
  forallb (λ c, negb (Ascii.eqb c "=") && negb (Ascii.eqb c LF)
                && negb (Ascii.eqb c CR)
                && (N_of_ascii c <? 128)%N) l
  && match l with
     | c :: _ => negb (is_space c)
     | [] => true
     end.

(** The line of an item without its line break. *)
Definition line_body (kv : string * bool) : list ascii :=
  list_ascii_of_string kv.1 ++ "="%char :: str_bool kv.2.

(** The items of [items] assigned to [d], one after the other. *)
Definition assign (d : list (string * bool)) (items : list (string * bool))
  : list (string * bool) :=
  foldl (λ d kv, dict_set kv.1 kv.2 d) d items.

(** Assignments keep the keys a dict has, and keep them distinct. *)
Definition extends (base d : list (string * bool)) : Prop :=
  NoDup d.*1 ∧ ∀ k, k ∈ base.*1 → k ∈ d.*1.

End AppSettings.

Definition saved_bosses : list (string * bool) :=
  [("Kzarka"%string, true); ("Vell"%string, false)].
Definition saved_settings : list (string * bool) :=
  [("15_min"%string, true); ("5_min"%string, false)].
Definition fresh_bosses : list (string * bool) :=
  [("Kzarka"%string, false); ("Vell"%string, false)].
Definition fresh_settings : list (string * bool) :=
  [("15_min"%string, false); ("5_min"%string, false)].

(** ** Starting, stopping and selecting in [app.py] *)
Module AppMonitor.
Import PyText AppSettings.

(** The texts these methods give to [update_status_label]. *)
Inductive monitor_status :=
  | MsReady
  | MsAlreadyRunning
  | MsNoBossesSelected
  | MsNoTimesSelected
  | MsStarted
  | MsAlreadyStopped
  | MsStopped
  | MsTracking (boss_name : string) (checked : bool)
  | MsSetting (setting_text : string) (state : bool)
  | MsSaved.

(** The two calls of [QMessageBox.warning]. *)
Inductive warning :=
  | WarnSelectBoss
  | WarnSelectTime.

(** The part of the window that [start_monitoring], [stop_monitoring], the
    two [toggle_] methods and [save_settings] read and write. *)
Record monitor := mk_monitor {
  is_running : bool;
  active_bosses : list (string * bool);
  notification_settings : list (string * bool);
  (** the text of the checkbox of a setting key *)
  notification_checkboxes : gmap string string;
  (** [scheduler_thread.isRunning()] *)
  thread_running : bool;
  (** [scheduler_thread._is_paused] *)
  is_paused : bool;
  (** the three buttons, [True] when enabled *)
  start_btn : bool;
  stop_btn : bool;
  minimize_to_tray_btn : bool;
  status_label : monitor_status;
  (** the warnings shown, oldest first *)
  warnings : list warning;
  (** the content of [settings.txt], [None] when there is no file *)
  settings_txt : option (list ascii)
}.

Definition update_status_label (st : monitor_status) (m : monitor) : monitor :=
  mk_monitor (is_running m) (active_bosses m) (notification_settings m)
    (notification_checkboxes m) (thread_running m) (is_paused m)
    (start_btn m) (stop_btn m) (minimize_to_tray_btn m) st (warnings m)
    (settings_txt m).
Definition show_warning (w : warning) (m : monitor) : monitor :=
  mk_monitor (is_running m) (active_bosses m) (notification_settings m)
    (notification_checkboxes m) (thread_running m) (is_paused m)
    (start_btn m) (stop_btn m) (minimize_to_tray_btn m) (status_label m)
    (warnings m ++ [w]) (settings_txt m).
Definition set_active_bosses (d : list (string * bool)) (m : monitor)
  : monitor :=
  mk_monitor (is_running m) d (notification_settings m)
    (notification_checkboxes m) (thread_running m) (is_paused m)
    (start_btn m) (stop_btn m) (minimize_to_tray_btn m) (status_label m)
    (warnings m) (settings_txt m).
Definition set_notification_settings (d : list (string * bool)) (m : monitor)
  : monitor :=
  mk_monitor (is_running m) (active_bosses m) d
    (notification_checkboxes m) (thread_running m) (is_paused m)
    (start_btn m) (stop_btn m) (minimize_to_tray_btn m) (status_label m)
    (warnings m) (settings_txt m).
Definition set_settings_txt (f : option (list ascii)) (m : monitor)
  : monitor :=
  mk_monitor (is_running m) (active_bosses m) (notification_settings m)
    (notification_checkboxes m) (thread_running m) (is_paused m)
    (start_btn m) (stop_btn m) (minimize_to_tray_btn m) (status_label m)
    (warnings m) f.

(** [[boss for boss, active in self.active_bosses.items() if active]] *)
Definition active_selected_bosses (m : monitor) : list string :=
  (filter (λ kv : string * bool, kv.2 = true) (active_bosses m)).*1.

Definition start_monitoring : stM monitor unit := λ m,
  if is_running m then (update_status_label MsAlreadyRunning m, Ok tt)
  else
    match active_selected_bosses m with
    | [] =>
        (show_warning WarnSelectBoss
           (update_status_label MsNoBossesSelected m), Ok tt)
    | _ :: _ =>
        match App.active_notification_times (notification_settings m) with
        | Raise e => (m, Raise e)
        | Ok [] =>
            (show_warning WarnSelectTime
               (update_status_label MsNoTimesSelected m), Ok tt)
        | Ok (_ :: _) =>
            (** [is_running = True]; the label; the three buttons;
                [scheduler_thread.start()] unless it runs already;
                [resume_scheduling()] *)
            (mk_monitor true (active_bosses m) (notification_settings m)
               (notification_checkboxes m) true false
               false true true MsStarted (warnings m) (settings_txt m),
             Ok tt)
        end
    end.

Definition stop_monitoring : stM monitor unit := λ m,
  if negb (is_running m) then (update_status_label MsAlreadyStopped m, Ok tt)
  else
    (** [is_running = False]; the label; the three buttons;
        [pause_scheduling()] if the thread runs *)
    (mk_monitor false (active_bosses m) (notification_settings m)
       (notification_checkboxes m) (thread_running m)
       (if thread_running m then true else is_paused m)
       true false false MsStopped (warnings m) (settings_txt m),
     Ok tt).

Section platform.
(** [os.linesep] *)
Variable linesep : list ascii.

(** [save_settings], the file being writable. *)
Definition save_settings_file (m : monitor) : monitor :=
  update_status_label MsSaved
    (set_settings_txt
       (Some (write_text linesep
                (save_settings (active_bosses m) (notification_settings m))))
       m).

Definition toggle_boss_active (boss_name : string) (checked : bool)
  : stM monitor unit := λ m,
  let m := set_active_bosses (dict_set boss_name checked (active_bosses m)) m in
  let m := update_status_label (MsTracking boss_name checked) m in
  (save_settings_file m, Ok tt).

(** [state] is the [int] of the [stateChanged] signal. *)
Definition toggle_notification_setting (setting_key : string) (state : Z)
  : stM monitor unit := λ m,
  let checked := negb (state =? 0) in
  let m := set_notification_settings
             (dict_set setting_key checked (notification_settings m)) m in
  match notification_checkboxes m !! setting_key with
  | None => (m, Raise KeyError)
  | Some setting_text =>
      let m := update_status_label (MsSetting setting_text checked) m in
      (save_settings_file m, Ok tt)
  end.

(** What the user does in the window. *)
Inductive event :=
  | Start
  | Stop
  | ToggleBoss (boss_name : string) (checked : bool)
  | ToggleSetting (setting_key : string) (state : Z).

Definition step (ev : event) : stM monitor unit :=
  match ev with
  | Start => start_monitoring
  | Stop => stop_monitoring
  | ToggleBoss boss_name checked => toggle_boss_active boss_name checked
  | ToggleSetting setting_key state =>
      toggle_notification_setting setting_key state
  end.

(** The events of a session, until one raises. *)
Definition session (events : list event) : stM monitor unit :=
  for_each events step.

End platform.

(** The window when [__init__] has loaded the settings: [boss_buttons] are
    the bosses that have a button, [checkboxes] the setting keys that have
    a checkbox, [start_enabled] and [minimize_enabled] what the form says
    of the two buttons, [file] the content of [settings.txt].  The
    [stateChanged] signals that [apply_settings_to_ui] sets off are events
    of the session that follows. *)
Definition init_monitor (boss_buttons : list string)
    (checkboxes : gmap string string) (start_enabled minimize_enabled : bool)
    (file : option (list ascii)) : monitor :=
  let loaded :=
    load_settings file
      (foldl (λ d boss_name, dict_set boss_name false d) [] boss_buttons)
      (App.notification_settings App.init_app) in
  mk_monitor false loaded.1 loaded.2 checkboxes false true
    start_enabled false minimize_enabled MsReady [] file.

(** The scheduler is paused exactly when monitoring is off, the stop
    button is enabled exactly when it is on, and while it is on the thread
    runs, the start button is disabled and the tray button enabled. *)
Definition consistent (m : monitor) : Prop :=
  is_paused m = negb (is_running m)
  ∧ stop_btn m = is_running m
  ∧ (is_running m = true →
     thread_running m = true ∧ start_btn m = false
     ∧ minimize_to_tray_btn m = true).

(** Every enabled setting has its minutes in [NOTIFICATION_TIMES]. *)
Definition settings_known (d : list (string * bool)) : Prop :=
  ∀ k, (k, true) ∈ d → is_Some (App.NOTIFICATION_TIMES !! k).

(** The events that end in [save_settings]. *)
Definition is_toggle (ev : event) : bool :=
  match ev with
  | ToggleBoss _ _ | ToggleSetting _ _ => true
  | Start | Stop => false
  end.

(** [settings.txt] holds what [save_settings] writes for the two dicts as
    they are. *)
Definition file_current (linesep : list ascii) (m : monitor) : Prop :=
  settings_txt m
  = Some (write_text linesep
            (save_settings (active_bosses m) (notification_settings m))).

(** While monitoring is on, the enabled settings are known. *)
Definition running_known (m : monitor) : Prop :=
  is_running m = true → settings_known (notification_settings m).

End AppMonitor.

Definition two_checkboxes : gmap string string :=
  {[ "15_min"%string := "15 Minutes Before"%string;
     "5_min"%string := "5 Minutes Before"%string ]}.
Definition a_session : list AppMonitor.event :=
  [AppMonitor.ToggleBoss "Kzarka" true; AppMonitor.ToggleSetting "15_min" 2;
   AppMonitor.Start; AppMonitor.ToggleSetting "5_min" 2].
Definition mistyped_app : App.app :=
  App.mk_app true (Some [row_monday_0800]) {["Kzarka"%string := true]}
    [("2_min"%string, true)] ∅ None [] App.StReady.

(** * Properties *)

(** ** Dates and times *)
Section datetime_facts.

Lemma US_PER_DAY_eq : US_PER_DAY = 86400000000.
Proof. reflexivity. Qed.

Lemma date_bounds (t : datetime) :
  date t * US_PER_DAY ≤ t < date t * US_PER_DAY + US_PER_DAY.
Proof.
  unfold date. rewrite US_PER_DAY_eq.
  pose proof (Z.div_mod t 86400000000 ltac:(lia)).
  pose proof (Z.mod_pos_bound t 86400000000 ltac:(lia)). lia.
Qed.

Lemma date_add_days (t n : Z) : date (t + td_days n) = date t + n.
Proof.
  unfold date, td_days. rewrite Z.div_add by (rewrite US_PER_DAY_eq; lia).
  reflexivity.
Qed.

Lemma date_unique (t d : Z) :
  d * US_PER_DAY ≤ t < d * US_PER_DAY + US_PER_DAY → date t = d.
Proof.
  intros H. unfold date. symmetry.
  apply (Z.div_unique t US_PER_DAY d (t - d * US_PER_DAY));
    rewrite US_PER_DAY_eq in *; lia.
Qed.

Lemma date_mono (t u : Z) : t ≤ u → date t ≤ date u.
Proof.
  intros H. unfold date. apply Z.div_le_mono; [rewrite US_PER_DAY_eq|]; lia.
Qed.

Lemma time_us_bounds (tm : PyDatetime.time) :
  time_valid tm → 0 ≤ time_us tm < US_PER_DAY.
Proof.
  unfold time_valid, time_us, US_PER_HOUR, US_PER_MINUTE, US_PER_DAY,
    US_PER_SECOND. lia.
Qed.

Lemma date_combine (d : Z) (tm : PyDatetime.time) :
  time_valid tm → date (combine d tm) = d.
Proof.
  intros H. apply date_unique. pose proof (time_us_bounds tm H).
  unfold combine. lia.
Qed.

Lemma representableb_spec (t : Z) :
  representableb t = true ↔ representable t.
Proof. unfold representableb, representable. lia. Qed.

Lemma dt_add_Ok (t d r : Z) :
  dt_add t d = Ok r ↔ r = t + d ∧ representable (t + d).
Proof.
  unfold dt_add. rewrite <- representableb_spec.
  destruct (representableb (t + d)); split.
  - intros [= <-]. done.
  - intros [-> _]. done.
  - discriminate.
  - intros [_ ?]. discriminate.
Qed.

Lemma dt_add_representable (t d : Z) :
  representable (t + d) → dt_add t d = Ok (t + d).
Proof. intros H. by apply dt_add_Ok. Qed.

Lemma replace_hm_Ok (t h m c : Z) :
  replace_hm t h m = Ok c ↔
  (0 ≤ h < 24 ∧ 0 ≤ m < 60)
  ∧ c = date t * US_PER_DAY + h * US_PER_HOUR + m * US_PER_MINUTE.
Proof.
  unfold replace_hm.
  destruct ((0 <=? h) && (h <? 24) && (0 <=? m) && (m <? 60)) eqn:E; split.
  - intros [= <-]. split; [lia | done].
  - intros [_ ->]. done.
  - by destruct (fits_int h && fits_int m).
  - intros [? _]. lia.
Qed.

Lemma weekday_range (t : datetime) : 0 ≤ weekday t < 7.
Proof. unfold weekday. apply Z.mod_pos_bound. lia. Qed.

End datetime_facts.

(** ** The occurrence resolver of [boss_notifier_app.py] *)
Module BossNotifierResolver.
Import BossNotifierApp BossNotifierAux.

Lemma DAY_MAPPING_range (s : string) (d : Z) :
  DAY_MAPPING !! s = Some d → 0 ≤ d ≤ 6.
Proof.
  assert (H : map_Forall (λ _ v, 0 ≤ v ≤ 6) DAY_MAPPING).
  { eapply bool_decide_unpack. vm_compute. reflexivity. }
  intros Hs. exact (H s d Hs).
Qed.

Lemma naive_candidate_lower (d h m now : Z) :
  0 ≤ h → 0 ≤ m → now - US_PER_DAY < Spec.naive_candidate d h m now.
Proof.
  intros Hh Hm. unfold Spec.naive_candidate.
  pose proof (date_bounds now).
  pose proof (Z.mod_pos_bound (d - weekday now + 7) 7 ltac:(lia)).
  unfold US_PER_HOUR, US_PER_MINUTE, US_PER_SECOND in *.
  rewrite US_PER_DAY_eq in *. nia.
Qed.

Lemma naive_candidate_upper (d h m now : Z) :
  h < 24 → m < 60 → Spec.naive_candidate d h m now < now + td_days 7.
Proof.
  intros Hh Hm. unfold Spec.naive_candidate, td_days.
  pose proof (date_bounds now).
  pose proof (Z.mod_pos_bound (d - weekday now + 7) 7 ltac:(lia)).
  unfold US_PER_HOUR, US_PER_MINUTE, US_PER_SECOND in *.
  rewrite US_PER_DAY_eq in *. nia.
Qed.

Lemma resolved_future (d h m now : Z) :
  0 ≤ h → 0 ≤ m → now < resolved d h m now.
Proof.
  intros Hh Hm. unfold resolved.
  pose proof (naive_candidate_lower d h m now Hh Hm).
  unfold td_weeks. rewrite US_PER_DAY_eq in *.
  destruct (Z.leb_spec (Spec.naive_candidate d h m now) now); lia.
Qed.

(** Whenever the body of the loop yields a candidate, it is the one the
    spec describes. *)
Lemma spawn_candidate_Ok (sp : spawn) (d now c : Z) :
  spawn_candidate sp d now = Ok c →
  ∃ h m, parse_hour_minute (time sp) = Ok (h, m)
         ∧ (0 ≤ h < 24 ∧ 0 ≤ m < 60) ∧ c = resolved d h m now.
Proof.
  unfold spawn_candidate. intros H.
  destruct (parse_hour_minute (time sp)) as [[h m]|] eqn:Hp; [|discriminate].
  cbn in H.
  destruct (dt_add now _) as [c1|] eqn:H1; [|discriminate]. cbn in H.
  destruct (replace_hm c1 h m) as [c2|] eqn:H2; [|discriminate]. cbn in H.
  apply dt_add_Ok in H1 as [-> _].
  apply replace_hm_Ok in H2 as [Hr ->].
  rewrite date_add_days in H.
  exists h, m. split; [done|]. split; [done|].
  unfold resolved, Spec.naive_candidate. cbn zeta.
  destruct (_ <=? now) eqn:E.
  - apply dt_add_Ok in H as [-> _]. done.
  - by injection H as <-.
Qed.

(** The body yields that candidate whenever the entry reads as a time of
    day and the dates involved exist. *)
Lemma spawn_candidate_exact (sp : spawn) (d h m now : Z) :
  parse_hour_minute (time sp) = Ok (h, m) →
  0 ≤ h < 24 → 0 ≤ m < 60 →
  representable (now + td_days ((d - weekday now + 7) mod 7)) →
  representable (resolved d h m now) →
  spawn_candidate sp d now = Ok (resolved d h m now).
Proof.
  intros Hp Hh Hm Hn Hr. unfold spawn_candidate. rewrite Hp. cbn.
  rewrite dt_add_representable by done. cbn.
  assert (Hrep : replace_hm (now + td_days ((d - weekday now + 7) mod 7)) h m
                 = Ok (Spec.naive_candidate d h m now)).
  { apply replace_hm_Ok. split; [done|].
    rewrite date_add_days. reflexivity. }
  rewrite Hrep. cbn. unfold resolved in *. cbn zeta in *.
  destruct (Spec.naive_candidate d h m now <=? now); [|done].
  by apply dt_add_representable.
Qed.

Lemma spawn_candidate_total (sp : spawn) (d h m now : Z) :
  parse_hour_minute (time sp) = Ok (h, m) →
  0 ≤ h < 24 → 0 ≤ m < 60 →
  representable now → representable (now + td_weeks 2) →
  spawn_candidate sp d now = Ok (resolved d h m now).
Proof.
  intros Hp Hh Hm Hn Hn2.
  pose proof (Z.mod_pos_bound (d - weekday now + 7) 7 ltac:(lia)) as Hdd.
  pose proof (naive_candidate_lower d h m now ltac:(lia) ltac:(lia)).
  pose proof (naive_candidate_upper d h m now ltac:(lia) ltac:(lia)).
  apply spawn_candidate_exact; try done.
  - unfold representable, td_days, td_weeks in *.
    rewrite US_PER_DAY_eq in *. lia.
  - unfold resolved. cbn zeta.
    unfold representable, td_days, td_weeks in *.
    rewrite US_PER_DAY_eq in *.
    destruct (Z.leb_spec (Spec.naive_candidate d h m now) now); lia.
Qed.

Lemma spawn_candidate_future (sp : spawn) (d now c : Z) :
  spawn_candidate sp d now = Ok c → now < c.
Proof.
  intros (h & m & _ & [Hh Hm] & ->)%spawn_candidate_Ok.
  apply resolved_future; lia.
Qed.

Lemma spawn_loop_future (now : datetime) (sps : list spawn) :
  ∀ acc t,
    (∀ n, acc = Some n → now < n) →
    spawn_loop now acc sps = Ok (Some t) → now < t.
Proof.
  induction sps as [|sp sps IH]; intros acc t Hacc H; cbn in H.
  - injection H as ->. by apply Hacc.
  - destruct (spawn_step now acc sp) as [acc'|] eqn:Hs; [|discriminate].
    cbn in H. eapply IH; [|exact H].
    intros n ->. unfold spawn_step in Hs.
    destruct (DAY_MAPPING !! day sp); cycle 1.
    { injection Hs as ->. by apply Hacc. }
    destruct (spawn_candidate sp z now) as [c|] eqn:Hc; [|discriminate].
    cbn in Hs. apply spawn_candidate_future in Hc.
    destruct acc as [a|].
    + pose proof (Hacc a eq_refl).
      destruct (c <? a); injection Hs as <-; done.
    + by injection Hs as <-.
Qed.

(** Any instant the resolver returns lies strictly after [now]. *)
Lemma get_next_spawn_time_future (boss_name : string) (sps : list spawn)
    (now t : datetime) :
  get_next_spawn_time boss_name sps now = Ok (Some t) → now < t.
Proof.
  unfold get_next_spawn_time. apply spawn_loop_future. discriminate.
Qed.

(** One well-formed entry. *)
Lemma get_next_spawn_time_single (boss_name : string) (sp : spawn)
    (d h m now : Z) :
  DAY_MAPPING !! day sp = Some d →
  parse_hour_minute (time sp) = Ok (h, m) →
  0 ≤ h < 24 → 0 ≤ m < 60 →
  representable now → representable (now + td_weeks 2) →
  get_next_spawn_time boss_name [sp] now = Ok (Some (resolved d h m now)).
Proof.
  intros Hd Hp Hh Hm Hn Hn2.
  unfold get_next_spawn_time. cbn. unfold spawn_step. rewrite Hd.
  rewrite (spawn_candidate_total sp d h m now) by done. reflexivity.
Qed.

End BossNotifierResolver.

(** ** The minimum over the entries of a boss *)
Module BossNotifierMinimum.
Import BossNotifierApp BossNotifierAux BossNotifierResolver.

Lemma single_step (boss_name : string) (sp : spawn) (now : datetime) :
  get_next_spawn_time boss_name [sp] now = spawn_step now None sp.
Proof.
  unfold get_next_spawn_time. cbn.
  by destruct (spawn_step now None sp).
Qed.

Lemma spawn_step_resolved (now : datetime) (sp : spawn) (o : datetime)
    (acc : option datetime) :
  spawn_step now None sp = Ok (Some o) →
  spawn_step now acc sp = Ok (keep_earlier acc o).
Proof.
  unfold spawn_step. destruct (DAY_MAPPING !! day sp); [|discriminate].
  destruct (spawn_candidate sp z now); [|discriminate]. cbn.
  intros [= ->]. destruct acc as [n|]; cbn; [|done].
  by destruct (o <? n).
Qed.

Lemma spawn_step_skipped (now : datetime) (sp : spawn)
    (acc : option datetime) :
  spawn_step now None sp = Ok None → spawn_step now acc sp = Ok acc.
Proof.
  unfold spawn_step. destruct (DAY_MAPPING !! day sp); [|done].
  destruct (spawn_candidate sp z now); discriminate.
Qed.

Lemma spawn_loop_resolved (boss_name : string) (now : datetime)
    (sps : list spawn) (occs : list datetime) :
  Forall2 (λ sp o, get_next_spawn_time boss_name [sp] now = Ok (Some o))
          sps occs →
  ∀ acc, spawn_loop now acc sps = Ok (foldl keep_earlier acc occs).
Proof.
  induction 1 as [|sp o sps occs Hsp _ IH]; intros acc; cbn; [done|].
  rewrite single_step in Hsp.
  rewrite (spawn_step_resolved now sp o acc Hsp). cbn. apply IH.
Qed.

Lemma foldl_keep_earlier_Some (occs : list datetime) (a : datetime) :
  ∃ m, foldl keep_earlier (Some a) occs = Some m
       ∧ m ≤ a ∧ (m = a ∨ m ∈ occs) ∧ ∀ x, x ∈ occs → m ≤ x.
Proof.
  revert a. induction occs as [|o occs IH]; intros a; cbn.
  - exists a. repeat split; [lia | by left | by intros x ?%elem_of_nil].
  - destruct (Z.ltb_spec o a) as [Hlt|Hge].
    + destruct (IH o) as (m & -> & Hle & Hin & Hall).
      exists m. repeat split; [lia| |].
      * right. destruct Hin as [->|?]; [left | by right].
      * intros x [->|?]%elem_of_cons; [done | by apply Hall].
    + destruct (IH a) as (m & -> & Hle & Hin & Hall).
      exists m. repeat split; [lia| |].
      * destruct Hin as [->|?]; [by left | right; by right].
      * intros x [->|?]%elem_of_cons; [lia | by apply Hall].
Qed.

Lemma foldl_keep_earlier_minimum (occs : list datetime) :
  occs ≠ [] →
  ∃ m, foldl keep_earlier None occs = Some m ∧ Spec.minimum occs m.
Proof.
  destruct occs as [|o occs]; [done|]. intros _. cbn.
  destruct (foldl_keep_earlier_Some occs o) as (m & -> & Hle & Hin & Hall).
  exists m. split; [done|]. split.
  - destruct Hin as [->|?]; [left | by right].
  - intros x [->|?]%elem_of_cons; [done | by apply Hall].
Qed.

End BossNotifierMinimum.

(** ** Loops in the state monad *)

Ltac monad_unfold :=
  unfold mbind, mret, stM_bind, stM_ret, result_bind, result_ret,
    gets, modify, lift in *; cbn in *.

Section loops.
Context {S A : Type}.

Lemma for_each_cons (x : A) (l : list A) (body : A → stM S unit) (s : S) :
  for_each (x :: l) body s =
  match body x s with
  | (s', Ok _) => for_each l body s'
  | (s', Raise e) => (s', Raise e)
  end.
Proof. reflexivity. Qed.

(** A property of the state that every iteration keeps is kept by the
    loop, whether it ends or raises. *)
Lemma for_each_inv (P : S → Prop) (l : list A) (body : A → stM S unit) :
  (∀ x s, x ∈ l → P s → P (body x s).1) →
  ∀ s, P s → P (for_each l body s).1.
Proof.
  induction l as [|x l IH]; intros Hbody s Hs; [done|].
  rewrite for_each_cons.
  pose proof (Hbody x s ltac:(left) Hs) as Hx.
  destruct (body x s) as [s' [[]|e]]; [|done].
  apply IH; [|done]. intros y s0 Hy. apply Hbody. by right.
Qed.

(** A loop whose iterations all leave the state alone and end. *)
Lemma for_each_skip (l : list A) (body : A → stM S unit) (s : S) :
  (∀ x, x ∈ l → body x s = (s, Ok tt)) → for_each l body s = (s, Ok tt).
Proof.
  induction l as [|x l IH]; intros Hbody; [done|].
  rewrite for_each_cons, (Hbody x) by left.
  apply IH. intros y Hy. apply Hbody. by right.
Qed.

End loops.

(** ** The gate and the ledger of [boss_notifier_app.py] *)
Module BossNotifierGate.
Import BossNotifierApp BossNotifierAux BossNotifierResolver.

Lemma in_window_spec (m : Z) (o now : datetime) :
  in_window m (o - now) = true ↔ Spec.arming_window o m window_width now.
Proof.
  unfold in_window, Spec.arming_window. cbn zeta.
  rewrite andb_true_iff, Z.leb_le, Z.ltb_lt. lia.
Qed.

Lemma notify_threshold_eq (boss_id boss_name : string) (o : datetime)
    (tu : timedelta) (m : Z) (w : worker) :
  notify_threshold boss_id boss_name o tu m w =
  if in_window m tu
     && bool_decide ((boss_id, o, m) ∉ notified_spawn_times w)
  then (fire boss_name (boss_id, o, m) w, Ok tt)
  else (w, Ok tt).
Proof.
  unfold notify_threshold. destruct (in_window m tu); [|done].
  monad_unfold. destruct (bool_decide _); reflexivity.
Qed.

Lemma ledger_covers_mono (now now' : datetime) (w : worker) :
  now ≤ now' → ledger_covers now w → ledger_covers now' w.
Proof.
  intros Hle [Hnd Hin]. split; [done|].
  intros k Hk Hlt. apply Hin; [done | lia].
Qed.

Lemma notify_threshold_covers (now : datetime) (boss_id boss_name : string)
    (o : datetime) (tu : timedelta) (m : Z) (w : worker) :
  now < o → ledger_covers now w →
  ledger_covers now (notify_threshold boss_id boss_name o tu m w).1.
Proof.
  intros Ho [Hnd Hin]. rewrite notify_threshold_eq.
  destruct (in_window m tu); [|done]. cbn.
  case_bool_decide as Hk; [|done]. cbn.
  unfold ledger_covers, fired_keys, fire in *. cbn.
  rewrite fmap_app. cbn. split.
  - apply NoDup_app. split; [done|]. split; [|apply NoDup_singleton].
    intros k Hk1 ->%list_elem_of_singleton.
    apply Hk, Hin; done.
  - intros k [Hk1| ->%list_elem_of_singleton]%elem_of_app Hlt;
      [|set_solver].
    apply elem_of_union_r. by apply Hin.
Qed.

Lemma notify_boss_covers (now : datetime) (selected : list string)
    (minutes : list Z) (b : boss) (w : worker) :
  ledger_covers now w →
  ledger_covers now (notify_boss now selected minutes b w).1.
Proof.
  intros Hw. unfold notify_boss.
  case_bool_decide; [|done].
  destruct (spawn_times b) as [[|sp sts]|]; [done| |done].
  unfold mbind, stM_bind, lift.
  destruct (get_next_spawn_time (name b) (sp :: sts) now) as [[o|]|] eqn:Hg;
    [|done|done].
  apply get_next_spawn_time_future in Hg.
  apply (for_each_inv (ledger_covers now)); [|done].
  intros m w' _ Hw'. by apply notify_threshold_covers.
Qed.

Lemma prune_eq (now : datetime) (w : worker) :
  prune now w =
  if bool_decide (notified_spawn_times w = ∅) then (w, Ok tt)
  else match dt_sub now retention with
       | Ok limit =>
           (mk_worker (filter (λ k : notification_key, limit < k.1.2)
                              (notified_spawn_times w))
                      (sent w) (live_info w), Ok tt)
       | Raise e => (w, Raise e)
       end.
Proof.
  unfold prune. monad_unfold. destruct (bool_decide _); [done|].
  by destruct (dt_sub now retention).
Qed.

Lemma prune_covers (now : datetime) (w : worker) :
  ledger_covers now w → ledger_covers now (prune now w).1.
Proof.
  intros [Hnd Hin]. rewrite prune_eq.
  case_bool_decide; [done|].
  destruct (dt_sub now retention) as [limit|] eqn:Hl; [|done].
  apply dt_add_Ok in Hl as [-> _].
  split; [done|]. cbn. intros k Hk Hlt.
  apply elem_of_filter. split; [|by apply Hin].
  unfold retention, td_minutes, US_PER_MINUTE, US_PER_SECOND.
  cbn in Hlt |- *. lia.
Qed.

Lemma tick_covers (boss_data : list boss) (inp : tick_input) (w : worker) :
  ledger_covers (current_time inp) w →
  ledger_covers (current_time inp) (tick boss_data inp w).1.
Proof.
  intros Hw. unfold tick. unfold mbind, stM_bind, lift, modify.
  destruct (closest_bosses _ _ _) as [info|]; [|done].
  set (w1 := mk_worker _ _ _).
  assert (Hw1 : ledger_covers (current_time inp) w1) by done.
  clearbody w1.
  destruct (is_active inp).
  - pose proof (for_each_inv (ledger_covers (current_time inp)) boss_data
      (notify_boss (current_time inp) (selected_boss_ids inp)
                   (selected_minutes inp))
      (λ b s _ Hs, notify_boss_covers _ _ _ b s Hs) w1 Hw1) as H2.
    destruct (for_each _ _ w1) as [w2 [[]|e]]; [|done].
    by apply prune_covers.
  - cbn. by apply prune_covers.
Qed.

Lemma run_covers (boss_data : list boss) (inputs : list tick_input) :
  Sorted Z.le (current_time <$> inputs) →
  ∀ lo w,
    HdRel Z.le lo (current_time <$> inputs) →
    ledger_covers lo w →
    NoDup (fired_keys (run boss_data inputs w).1).
Proof.
  unfold run.
  induction inputs as [|inp inputs IH]; intros Hs lo w Hlo Hw.
  - apply Hw.
  - rewrite for_each_cons. rewrite fmap_cons in Hs, Hlo.
    apply Sorted_inv in Hs as [Hs Hhd]. apply HdRel_inv in Hlo.
    pose proof (tick_covers boss_data inp w
                  (ledger_covers_mono _ _ _ Hlo Hw)) as Ht.
    destruct (tick boss_data inp w) as [w' [[]|e]]; [|apply Ht].
    by apply (IH Hs (current_time inp)).
Qed.

Lemma init_covers (lo : datetime) : ledger_covers lo init_worker.
Proof. split; [apply NoDup_nil_2 | by intros k ?%elem_of_nil]. Qed.

End BossNotifierGate.

(** ** The resolver, the gate and the ledger of [app.py] *)
Module AppFacts.
Import App AppAux.

Lemma event_datetime_of_Ok (now : datetime) (r : row) (e : datetime) :
  event_datetime_of now r = Ok e → e = resolved now (Parsed_Time r).
Proof.
  unfold event_datetime_of, resolved, dt_sub. cbn zeta.
  destruct (dt_add now _) as [limit|] eqn:Hl; [|discriminate]. cbn.
  apply dt_add_Ok in Hl as [-> _].
  replace (now + - td_seconds 10) with (now - td_seconds 10) by lia.
  destruct (_ <? _).
  - by intros [-> _]%dt_add_Ok.
  - by intros [= <-].
Qed.

Lemma event_datetime_of_total (now : datetime) (r : row) :
  representable (now - td_seconds 10) → representable (now + td_weeks 2) →
  time_valid (Parsed_Time r) →
  event_datetime_of now r = Ok (resolved now (Parsed_Time r)).
Proof.
  intros H1 H2 Hv. unfold event_datetime_of, resolved, dt_sub. cbn zeta.
  assert (Hs : now + - td_seconds 10 = now - td_seconds 10) by lia.
  rewrite (dt_add_representable now (- td_seconds 10)) by (by rewrite Hs).
  cbn. rewrite Hs.
  destruct (Z.ltb_spec (combine (date now) (Parsed_Time r))
                       (now - td_seconds 10)); [|done].
  apply dt_add_representable.
  pose proof (time_us_bounds _ Hv). pose proof (date_bounds now).
  unfold representable, combine, td_weeks, td_seconds, US_PER_SECOND in *.
  rewrite US_PER_DAY_eq in *.
  assert (0 ≤ date now)
    by (unfold date; rewrite US_PER_DAY_eq; apply Z.div_pos; lia).
  nia.
Qed.

(** Thresholds come from [NOTIFICATION_TIMES]. *)
Lemma NOTIFICATION_TIMES_range (k : string) (m : Z) :
  NOTIFICATION_TIMES !! k = Some m → 1 ≤ m ≤ 60.
Proof.
  assert (H : map_Forall (λ _ v, 1 ≤ v ≤ 60) NOTIFICATION_TIMES).
  { eapply bool_decide_unpack. vm_compute. reflexivity. }
  intros Hk. exact (H k m Hk).
Qed.

Lemma active_notification_times_range (settings : list (string * bool))
    (times : list Z) :
  active_notification_times settings = Ok times →
  Forall (λ m, 1 ≤ m ≤ 60) times.
Proof.
  revert times. induction settings as [|[k a] settings IH]; intros times; cbn.
  - intros [= <-]. constructor.
  - destruct a; [|apply IH].
    destruct (NOTIFICATION_TIMES !! k) as [m|] eqn:Hk; [|done].
    destruct (active_notification_times settings) as [tl|]; cbn; [|done].
    intros [= <-]. constructor; [by eapply NOTIFICATION_TIMES_range|].
    by apply IH.
Qed.

#[local] Instance flip_le_total : Total (flip Z.le).
Proof. intros x y. unfold flip. lia. Qed.

Lemma sorted_reverse_elem (l : list Z) (x : Z) :
  x ∈ sorted_reverse l ↔ x ∈ l.
Proof. unfold sorted_reverse. by rewrite merge_sort_Permutation. Qed.

Lemma sorted_reverse_sorted (l : list Z) :
  StronglySorted (flip Z.le) (sorted_reverse l).
Proof.
  apply Sorted_StronglySorted.
  - intros x y z. unfold flip. lia.
  - apply (Sorted_merge_sort (flip Z.le)).
Qed.

(** A toast fires only for today's instant of the row. *)
Lemma in_window_today (now : datetime) (tm : PyDatetime.time) (m : Z) :
  time_valid tm → 1 ≤ m ≤ 60 →
  in_window m (resolved now tm - now) = true →
  resolved now tm = combine (date now) tm ∧ date (resolved now tm) = date now.
Proof.
  intros Hv Hm. unfold in_window, resolved. cbn zeta.
  rewrite andb_true_iff, Z.leb_le, Z.ltb_lt.
  pose proof (time_us_bounds _ Hv). pose proof (date_bounds now).
  destruct (Z.ltb_spec (combine (date now) tm) (now - td_seconds 10)).
  - unfold combine, td_weeks, td_seconds, td_minutes, US_PER_MINUTE,
      US_PER_SECOND in *. rewrite US_PER_DAY_eq in *. lia.
  - intros _. split; [done|]. by apply date_combine.
Qed.

(** *** The loop over the thresholds of a row *)

Lemma notify_row_eq (r : row) (e : datetime) (td : timedelta)
    (thresholds : list Z) (s : app) :
  notify_row r e td thresholds s =
  match find (due r td s) thresholds with
  | Some m => (fire r e m s, Ok tt)
  | None => (s, Ok tt)
  end.
Proof.
  induction thresholds as [|m thresholds IH]; [done|].
  cbn [notify_row find]. unfold due at 1.
  unfold mbind at 1, stM_bind at 1, gets at 1.
  destruct (in_window m td && bool_decide _); [reflexivity | apply IH].
Qed.

Lemma find_first {A} (f : A → bool) (l : list A) (x : A) :
  find f l = Some x →
  ∃ l1 l2, l = l1 ++ x :: l2 ∧ f x = true ∧ ∀ y, y ∈ l1 → f y = false.
Proof.
  induction l as [|a l IH]; [done|]. cbn.
  destruct (f a) eqn:Ha.
  - intros [= ->]. exists [], l. repeat split; [done|].
    by intros y ?%elem_of_nil.
  - intros (l1 & l2 & -> & Hx & Hl1)%IH.
    exists (a :: l1), l2. repeat split; [done|].
    intros y [->|?]%elem_of_cons; [done | by apply Hl1].
Qed.

Lemma find_none_elem {A} (f : A → bool) (l : list A) :
  find f l = None ↔ ∀ y, y ∈ l → f y = false.
Proof.
  induction l as [|a l IH]; cbn.
  - split; [by intros _ y ?%elem_of_nil | done].
  - destruct (f a) eqn:Ha.
    + split; [done|]. intros H. specialize (H a ltac:(left)). congruence.
    + rewrite IH. split.
      * intros H y [->|?]%elem_of_cons; [done | by apply H].
      * intros H y Hy. apply H. by right.
Qed.

(** The first due threshold of the descending list is the largest due one. *)
Lemma find_sorted_reverse_largest (f : Z → bool) (times : list Z) (M : Z) :
  find f (sorted_reverse times) = Some M →
  M ∈ times ∧ f M = true ∧ ∀ m, m ∈ times → f m = true → m ≤ M.
Proof.
  intros Hf. pose proof (sorted_reverse_sorted times) as Hs.
  apply find_first in Hf as (l1 & l2 & Hl & HM & Hl1).
  split; [|split; [done|]].
  - apply sorted_reverse_elem. rewrite Hl. set_solver.
  - intros m Hm Hfm. apply sorted_reverse_elem in Hm.
    rewrite Hl in Hm, Hs.
    apply elem_of_app in Hm as [Hm|Hm].
    { specialize (Hl1 m Hm). congruence. }
    apply elem_of_cons in Hm as [->|Hm]; [lia|].
    apply StronglySorted_app_1_r, StronglySorted_inv in Hs as [_ Hall].
    rewrite Forall_forall in Hall. by apply Hall.
Qed.

(** *** The ledger across checks *)

Lemma between_inv_mono (lo lo' : datetime) (s : app) :
  lo ≤ lo' → between_inv lo s → between_inv lo' s.
Proof.
  intros Hle (Hnd & Hd & Ht). split; [done|]. split; [|done].
  intros d Hl. pose proof (Hd d Hl). pose proof (date_mono lo lo' Hle). lia.
Qed.

Lemma today_between (now : datetime) (s : app) :
  today_inv (date now) s → between_inv now s.
Proof.
  intros (Hl & Hnd & Hle & Hin). split; [done|]. split.
  - intros d. rewrite Hl. intros [= <-]. lia.
  - intros t Ht. exists (date now). split; [done|]. split; [by apply Hle|].
    by apply Hin.
Qed.

Lemma daily_reset_eq (now : datetime) (s : app) :
  daily_reset now s =
  if bool_decide (last_reset_date s ≠ Some (date now))
  then (mk_app (is_running s) (df_schedule s) (active_bosses s)
               (notification_settings s) ∅ (Some (date now)) (toasts s)
               (StNewDay (date now)), Ok tt)
  else (s, Ok tt).
Proof.
  unfold daily_reset. monad_unfold. by destruct (bool_decide _).
Qed.

Lemma daily_reset_today (lo now : datetime) (s : app) :
  lo ≤ now → between_inv lo s → today_inv (date now) (daily_reset now s).1.
Proof.
  intros Hle (Hnd & Hd & Ht). rewrite daily_reset_eq.
  pose proof (date_mono lo now Hle) as Hdate.
  case_bool_decide as Hlast; cbn.
  - split; [done|]. split; [done|]. split.
    + intros t (d & Hl & Hdt & _)%Ht. specialize (Hd d Hl). lia.
    + intros t (d & Hl & Hdt & _)%Ht Heq. specialize (Hd d Hl).
      exfalso. apply Hlast. rewrite Hl. f_equal. lia.
  - split; [done|]. split; [done|]. split.
    + intros t (d & Hl & Hdt & _)%Ht. rewrite Hlast in Hl.
      injection Hl as <-. done.
    + intros t (d & Hl & Hdt & Hin)%Ht Heq. rewrite Hlast in Hl.
      injection Hl as <-. by apply Hin.
Qed.

Lemma fire_today (today : Z) (r : row) (e : datetime) (m : Z) (s : app) :
  date e = today →
  notifications_sent_today s !! notification_key r m = None →
  today_inv today s → today_inv today (fire r e m s).
Proof.
  intros He Hfresh (Hl & Hnd & Hle & Hin).
  split; [done|]. unfold toast_ids, fire. cbn. split; [|split].
  - rewrite fmap_app. cbn. apply NoDup_app. split; [done|].
    split; [|apply NoDup_singleton].
    intros [k e'] Hk [= -> ->]%list_elem_of_singleton.
    apply list_elem_of_fmap in Hk as (t & [= Hk He'] & Ht).
    destruct (Hin t Ht) as [v Hv]; [congruence|]. congruence.
  - intros t [Ht| ->%list_elem_of_singleton]%elem_of_app;
      [by apply Hle | cbn; lia].
  - intros t [Ht| ->%list_elem_of_singleton]%elem_of_app Hd.
    + destruct (decide (notification_key r m = t_key t)) as [<-|Hne].
      * rewrite lookup_insert_eq. by eexists.
      * rewrite lookup_insert_ne by done. by apply Hin.
    + cbn. rewrite lookup_insert_eq. by eexists.
Qed.

(** What a check may do to the state: fire a due threshold of a row of the
    sheet, or write the status label. *)
Section check_invariant.
Variable now : datetime.
Variable Q : row → Prop.
Variable P : app → Prop.
Hypothesis P_status : ∀ st s, P s → P (update_status_label st s).
Hypothesis P_fire : ∀ r e m s,
  Q r → event_datetime_of now r = Ok e → 1 ≤ m ≤ 60 →
  in_window m (e - now) = true →
  notifications_sent_today s !! notification_key r m = None →
  P s → P (fire r e m s).

Lemma notify_row_inv (r : row) (e : datetime) (thresholds : list Z)
    (s : app) :
  Q r → event_datetime_of now r = Ok e →
  Forall (λ m, 1 ≤ m ≤ 60) thresholds →
  P s → P (notify_row r e (e - now) thresholds s).1.
Proof.
  intros Hr He Hall Hs. rewrite notify_row_eq.
  destruct (find _ _) as [m|] eqn:Hf; [|done]. cbn.
  apply find_some in Hf as [Hm Hdue]. apply list_elem_of_In in Hm.
  rewrite Forall_forall in Hall.
  unfold due in Hdue. apply andb_true_iff in Hdue as [Hwin Hfresh].
  apply bool_decide_eq_true in Hfresh. apply P_fire; auto.
Qed.

Lemma sorted_reverse_Forall (R : Z → Prop) (times : list Z) :
  Forall R times → Forall R (sorted_reverse times).
Proof.
  rewrite !Forall_forall. intros H m Hm.
  apply (proj1 (sorted_reverse_elem _ _)) in Hm. by apply H.
Qed.

Lemma row_step_inv (times : list Z)
    (acc : option (string * datetime) * timedelta) (r : row) (s : app) :
  Q r → Forall (λ m, 1 ≤ m ≤ 60) times →
  P s → P (row_step now times acc r s).1.
Proof.
  intros Hr Hall Hs. unfold row_step. unfold mbind at 1, stM_bind at 1, lift.
  destruct (event_datetime_of now r) as [e|] eqn:He; [|done].
  unfold mbind, stM_bind.
  pose proof (notify_row_inv r e (sorted_reverse times) s Hr He
                (sorted_reverse_Forall _ _ Hall) Hs) as Hn.
  by destruct (notify_row r e (e - now) (sorted_reverse times) s)
    as [s' [[]|err]].
Qed.

Lemma rows_loop_inv (times : list Z) (rows : list row) :
  Forall Q rows → Forall (λ m, 1 ≤ m ≤ 60) times →
  ∀ acc s, P s → P (rows_loop now times acc rows s).1.
Proof.
  intros HQ Hall. induction rows as [|r rows IH]; intros acc s Hs; [done|].
  apply Forall_cons in HQ as [Hr HQ].
  cbn [rows_loop]. unfold mbind, stM_bind.
  pose proof (row_step_inv times acc r s Hr Hall Hs) as Hrs.
  destruct (row_step now times acc r s) as [s' [acc'|err]]; [|done].
  by apply IH.
Qed.

Lemma filtered_df_Forall (s : app) (rows : list row) :
  Forall Q rows → Forall Q (filtered_df s rows now).
Proof.
  rewrite !Forall_forall. intros H r Hr. apply H.
  unfold filtered_df in Hr. by apply list_elem_of_filter in Hr as [_ ?].
Qed.

Lemma check_body_inv (rows : list row) (s : app) :
  Forall Q rows → P s → P (check_body now rows s).1.
Proof.
  intros HQ Hs. unfold check_body.
  unfold mbind at 1, stM_bind at 1, gets at 1.
  destruct (active_bosses_list s); [by apply P_status|].
  unfold mbind at 1, stM_bind at 1, gets at 1.
  unfold mbind at 1, stM_bind at 1, gets at 1.
  unfold mbind at 1, stM_bind at 1, lift.
  destruct (active_notification_times (notification_settings s))
    as [times|] eqn:Ht; [|done].
  apply active_notification_times_range in Ht.
  unfold mbind, stM_bind.
  pose proof (rows_loop_inv times (filtered_df s rows now)
                (filtered_df_Forall s rows HQ) Ht
                (None, td_days 365) s Hs) as Hl.
  destruct (rows_loop now times _ _ s) as [s' [[[[b t]|] d]|err]];
    [by apply P_status | by apply P_status | done].
Qed.

End check_invariant.

Lemma event_today (now : datetime) (r : row) (e : datetime) (m : Z) :
  time_valid (Parsed_Time r) →
  event_datetime_of now r = Ok e → 1 ≤ m ≤ 60 →
  in_window m (e - now) = true → date e = date now.
Proof.
  intros Hv ->%event_datetime_of_Ok Hm Hw.
  by apply (in_window_today now (Parsed_Time r) m).
Qed.

Lemma check_for_notifications_eq (now : datetime) (s : app) :
  check_for_notifications now s =
  match df_schedule s with
  | None | Some [] => (s, Ok tt)
  | Some rows =>
      if negb (is_running s) then (s, Ok tt)
      else match daily_reset now s with
           | (s', Ok _) => check_body now rows s'
           | (s', Raise e) => (s', Raise e)
           end
  end.
Proof.
  unfold check_for_notifications.
  unfold mbind at 1, stM_bind at 1, gets at 1.
  unfold mbind at 1, stM_bind at 1, gets at 1.
  destruct (df_schedule s) as [[|r rows]|]; [done| |done].
  by destruct (negb (is_running s)).
Qed.

Lemma daily_reset_df (now : datetime) (s : app) :
  df_schedule (daily_reset now s).1 = df_schedule s
  ∧ (daily_reset now s).2 = Ok tt.
Proof. rewrite daily_reset_eq. by case_bool_decide. Qed.

Lemma check_df (now : datetime) (s : app) :
  df_schedule (check_for_notifications now s).1 = df_schedule s.
Proof.
  rewrite check_for_notifications_eq.
  destruct (df_schedule s) as [[|r rows]|] eqn:Hdf; [done| |done].
  destruct (negb (is_running s)); [done|].
  destruct (daily_reset_df now s) as [Hd Hok].
  destruct (daily_reset now s) as [s' [[]|e]]; [|done]. cbn in Hd.
  rewrite Hdf in Hd. rewrite <- Hd.
  by apply (check_body_inv now (λ _, True)
              (λ s0, df_schedule s0 = df_schedule s'));
    [| |apply Forall_true|].
Qed.

Lemma check_between (lo now : datetime) (s : app) :
  lo ≤ now → df_valid s → between_inv lo s →
  between_inv now (check_for_notifications now s).1.
Proof.
  intros Hle Hdf Hs. rewrite check_for_notifications_eq.
  pose proof (between_inv_mono lo now s Hle Hs) as Hs'.
  destruct (df_schedule s) as [[|r rows]|] eqn:Hrows; [done| |done].
  destruct (negb (is_running s)); [done|].
  pose proof (daily_reset_today lo now s Hle Hs) as Ht.
  destruct (daily_reset now s) as [s' [[]|e]]; [|by apply today_between].
  cbn in Ht. apply today_between.
  apply (check_body_inv now (λ r, time_valid (Parsed_Time r))
           (today_inv (date now))); [done| |by apply Hdf|done].
  intros r0 e m s0 Hv He Hm Hw Hfresh Hinv.
  apply fire_today; [|done|done]. by eapply event_today.
Qed.

Lemma apply_ui_between (lo : datetime) (u : ui_input) (s : app) :
  between_inv lo s → between_inv lo (apply_ui u s).
Proof. done. Qed.

Lemma run_step_eq (u : ui_input) (s : app) :
  (modify (apply_ui u) ;; check_for_notifications (u_now u)) s
  = check_for_notifications (u_now u) (apply_ui u s).
Proof. reflexivity. Qed.

Lemma run_ids_NoDup (inputs : list ui_input) :
  Sorted Z.le (u_now <$> inputs) →
  ∀ lo s,
    HdRel Z.le lo (u_now <$> inputs) →
    df_valid s → between_inv lo s →
    NoDup (toast_ids (run inputs s).1).
Proof.
  unfold run.
  induction inputs as [|u inputs IH]; intros Hs lo s Hlo Hdf Hinv.
  - apply Hinv.
  - rewrite for_each_cons, run_step_eq. rewrite fmap_cons in Hs, Hlo.
    apply Sorted_inv in Hs as [Hs Hhd]. apply HdRel_inv in Hlo.
    pose proof (check_between lo (u_now u) (apply_ui u s) Hlo Hdf
                  (apply_ui_between lo u s Hinv)) as Hc.
    pose proof (check_df (u_now u) (apply_ui u s)) as Hd.
    destruct (check_for_notifications (u_now u) (apply_ui u s))
      as [s' [[]|e]]; [|apply Hc].
    apply (IH Hs (u_now u)); [done| |done].
    intros rows Hrows. apply Hdf. cbn in Hd. by rewrite <- Hd.
Qed.

End AppFacts.

(** * The claims *)

Ltac by_computation := vm_compute; first [reflexivity | done].
Ltac in_range := apply representableb_spec; vm_compute; reflexivity.
Ltac by_decision := eapply bool_decide_unpack; vm_compute; done.

(** ** C1 *)




(** On Monday at 08:00:05 the entry of Monday 08:00 resolves to next
    Monday, in [boss_notifier_app.py]. *)
Example monday_just_passed :
  BossNotifierApp.get_next_spawn_time "Kzarka" [spawn_monday_0800]
    monday_0800_05 = Ok (Some next_monday_0800)
  ∧ BossNotifierApp.get_next_spawn_time "Kzarka" [spawn_monday_0800]
      monday_0800 = Ok (Some next_monday_0800).
Proof. split; by_computation. Qed.

(** ** C2 *)

Lemma notify_row_single (r : App.row) (e now : datetime) (m : Z)
    (s : App.app) :
  App.notify_row r e (e - now) [m] s =
  if AppAux.due r (e - now) s m then (AppAux.fire r e m s, Ok tt)
  else (s, Ok tt).
Proof.
  rewrite AppFacts.notify_row_eq. cbn. by destruct (AppAux.due _ _ _ _).
Qed.

Lemma app_in_window_spec (m : Z) (e now : datetime) :
  App.in_window m (e - now) = true
  ↔ Spec.arming_window e m (td_seconds 30) now.
Proof.
  unfold App.in_window, Spec.arming_window. cbn zeta.
  rewrite andb_true_iff, Z.leb_le, Z.ltb_lt. lia.
Qed.

(** C2, as amended.  For non-decreasing readings of the clock, no
    notification key fires twice in a run of the worker of
    [boss_notifier_app.py], and in a run of [app.py] no key fires twice for
    the same occurrence.  The gate fires exactly when [now] lies in the
    arming window [[occurrence - T, occurrence - T + W)] (W is 65 s in the
    first variant and 30 s in the second) and the key is not in the ledger;
    firing records the key, and a gate whose key is in the ledger does
    nothing.  In [app.py] a recorded key stays in the ledger through every
    check of the date of the last reset, and no longer: the key does not
    hold the occurrence, and the first check of a new date empties the
    ledger, so that what it shows does not depend on what the ledger
    held. *)
Theorem gate_fires_at_most_once
    (boss_data : list BossNotifierApp.boss)
    (inputs : list BossNotifierApp.tick_input)
    (checks : list App.ui_input) (s0 : App.app) :
  Sorted Z.le (BossNotifierApp.current_time <$> inputs) →
  Sorted Z.le (App.u_now <$> checks) →
  AppAux.df_valid s0 → App.toasts s0 = [] → App.last_reset_date s0 = None →
  NoDup (BossNotifierApp.n_key <$>
         BossNotifierApp.sent
           (BossNotifierApp.run boss_data inputs
              BossNotifierApp.init_worker).1)
  ∧ (∀ boss_id boss_name o now m w,
       let key := (boss_id, o, m) in
       let ledger := BossNotifierApp.notified_spawn_times w in
       let gate :=
         BossNotifierApp.notify_threshold boss_id boss_name o (o - now) m w in
       (Spec.arming_window o m BossNotifierApp.window_width now
        ∧ key ∉ ledger →
        gate = (BossNotifierApp.mk_worker ({[key]} ∪ ledger)
                  (BossNotifierApp.sent w
                   ++ [BossNotifierApp.mk_notification boss_name key])
                  (BossNotifierApp.live_info w), Ok tt))
       ∧ (¬ (Spec.arming_window o m BossNotifierApp.window_width now
             ∧ key ∉ ledger) → gate = (w, Ok tt)))
  ∧ NoDup ((λ t, (App.t_key t, App.t_event t)) <$>
           App.toasts (App.run checks s0).1)
  ∧ (∀ r e now m s,
       let key := App.notification_key r m in
       let ledger := App.notifications_sent_today s in
       let gate := App.notify_row r e (e - now) [m] s in
       (Spec.arming_window e m (td_seconds 30) now ∧ ledger !! key = None →
        App.toasts gate.1 = App.toasts s ++ [App.toast_of r m e]
        ∧ App.notifications_sent_today gate.1 = <[key := true]> ledger
        ∧ gate.2 = Ok tt)
       ∧ (¬ (Spec.arming_window e m (td_seconds 30) now
             ∧ ledger !! key = None) → gate = (s, Ok tt)))
  ∧ (∀ now s key,
       App.last_reset_date s = Some (date now) →
       is_Some (App.notifications_sent_today s !! key) →
       is_Some (App.notifications_sent_today
                  (App.check_for_notifications now s).1 !! key))
  ∧ (∀ now s (ledger : gmap string bool),
       App.last_reset_date s ≠ Some (date now) →
       App.toasts
         (App.check_for_notifications now (App.set_ledger ledger s)).1
       = App.toasts (App.check_for_notifications now s).1).
Proof.
  intros Hs1 Hs2 Hdf Ht Hl. split; [|split; [|split; [|split; [|split]]]].
  - destruct inputs as [|i inputs]; [apply NoDup_nil_2|].
    apply (BossNotifierGate.run_covers boss_data (i :: inputs) Hs1
             (BossNotifierApp.current_time i)).
    + constructor. lia.
    + apply BossNotifierGate.init_covers.
  - intros boss_id boss_name o now m w key ledger gate.
    subst gate ledger key.
    rewrite BossNotifierGate.notify_threshold_eq.
    rewrite <- BossNotifierGate.in_window_spec.
    destruct (BossNotifierApp.in_window m (o - now)); cbn.
    + case_bool_decide as Hk; split; [done | | intros [_ ?]; done | done].
      intros Hn. exfalso. by apply Hn.
    + split; [intros [[=] _] | done].
  - destruct checks as [|u checks].
    { cbn. rewrite Ht. apply NoDup_nil_2. }
    apply (AppFacts.run_ids_NoDup (u :: checks) Hs2 (App.u_now u));
      [constructor; lia | done |].
    split; [|split].
    + unfold AppAux.toast_ids. rewrite Ht. apply NoDup_nil_2.
    + rewrite Hl. discriminate.
    + rewrite Ht. by intros t ?%elem_of_nil.
  - intros r e now m s key ledger gate. subst gate ledger key.
    rewrite notify_row_single. unfold AppAux.due.
    rewrite <- app_in_window_spec.
    destruct (App.in_window m (e - now)); cbn.
    + case_bool_decide as Hk; split; [done | | intros [_ ?]; done | done].
      intros Hn. exfalso. by apply Hn.
    + split; [intros [[=] _] | done].
  - intros now s key Hlast Hkey.
    rewrite AppFacts.check_for_notifications_eq.
    destruct (App.df_schedule s) as [[|r rows]|]; [done| |done].
    destruct (negb (App.is_running s)); [done|].
    rewrite AppFacts.daily_reset_eq.
    rewrite bool_decide_eq_false_2 by (intros Hne; by apply Hne).
    eapply lookup_weaken_is_Some; [exact Hkey|].
    apply (AppFacts.check_body_inv now (λ _, True)
             (λ s', App.notifications_sent_today s
                    ⊆ App.notifications_sent_today s')).
    + done.
    + intros r0 e m s' _ _ _ _ Hfresh Hsub. cbn.
      apply insert_subseteq_r; [|done]. by eapply lookup_weaken_None.
    + by apply Forall_true.
    + done.
  - intros now s ledger Hnew.
    rewrite !AppFacts.check_for_notifications_eq. cbn.
    destruct (App.df_schedule s) as [[|r rows]|]; [done| |done].
    destruct (negb (App.is_running s)); [done|].
    rewrite !AppFacts.daily_reset_eq. cbn.
    by rewrite !bool_decide_eq_true_2.
Qed.

Lemma gate_fires_at_most_once_witness :
  NoDup (BossNotifierApp.n_key <$>
         BossNotifierApp.sent
           (BossNotifierApp.run [kzarka] three_ticks
              BossNotifierApp.init_worker).1)
  ∧ NoDup ((λ t, (App.t_key t, App.t_event t)) <$>
           App.toasts (App.run three_checks loaded_app).1).
Proof.
  assert (H1 : Sorted Z.le (BossNotifierApp.current_time <$> three_ticks)).
  { repeat constructor; by_computation. }
  assert (H2 : Sorted Z.le (App.u_now <$> three_checks)).
  { repeat constructor; by_computation. }
  assert (H3 : AppAux.df_valid loaded_app).
  { intros rows [= <-]. repeat constructor; cbn; lia. }
  pose proof (gate_fires_at_most_once [kzarka] three_ticks three_checks
                loaded_app H1 H2 H3 eq_refl eq_refl) as (Ha & _ & Hb & _).
  exact (conj Ha Hb).
Defined.

(** With the thresholds 15 and 5 selected and an occurrence at 08:00, the
    readings 07:45:00, 07:45:15 and 07:55:00 send the 15-minute warning
    once and then the 5-minute warning. *)
Example fifteen_then_five :
  BossNotifierApp.n_key <$>
    BossNotifierApp.sent
      (BossNotifierApp.run [kzarka] three_ticks BossNotifierApp.init_worker).1
  = [("kzarka"%string, monday_0800, 15); ("kzarka"%string, monday_0800, 5)].
Proof. by_computation. Qed.

(** In [app.py], over non-decreasing readings of the clock, the key
    recorded when the 15-minute toast of Monday 08:00 fires is in the ledger
    after the second check, and the same key fires again at the third
    check, a week later. *)
Lemma recorded_key_fires_again :
  Sorted Z.le (App.u_now <$> three_checks)
  ∧ App.notifications_sent_today
      (App.run (take 2 three_checks) loaded_app).1
      !! "Kzarka_Monday_08:00_15min"%string = Some true
  ∧ App.t_key <$> App.toasts (App.run three_checks loaded_app).1
    = ["Kzarka_Monday_08:00_15min"%string;
       "Kzarka_Monday_08:00_15min"%string].
Proof.
  split; [repeat constructor; by_computation|]. split; by_computation.
Qed.

(** ** C3 *)

Lemma check_ledger_irrelevant (now : datetime) (s : App.app)
    (l : gmap string bool) :
  App.last_reset_date s ≠ Some (date now) →
  App.toasts (App.check_for_notifications now (App.set_ledger l s)).1
  = App.toasts (App.check_for_notifications now s).1.
Proof.
  intros Hnew. rewrite !AppFacts.check_for_notifications_eq. cbn.
  destruct (App.df_schedule s) as [[|r rows]|]; [done| |done].
  destruct (negb (App.is_running s)); [done|].
  rewrite !AppFacts.daily_reset_eq. cbn.
  by rewrite !bool_decide_eq_true_2.
Qed.

(** C3, as amended.  In [boss_notifier_app.py] the key of a fired
    notification is [(boss_id, next_spawn, minutes_before)]: two occurrences
    of a boss give two keys, and the record of one occurrence does not keep
    the gate of another from firing.  In [app.py] the key is the text
    [Boss_Gun_Saat_Nmin], which does not hold the occurrence: this week's
    and next week's occurrence share their key, and a later occurrence is
    not suppressed because the first check of a new date empties the
    ledger, so that its toasts do not depend on what the ledger held. *)
Theorem occurrence_keys_and_suppression
    (boss_id boss_name : string) (o1 o2 now m : Z)
    (w : BossNotifierApp.worker) (s : App.app) (l : gmap string bool) :
  o1 ≠ o2 →
  App.last_reset_date s ≠ Some (date now) →
  let key1 : BossNotifierApp.notification_key := (boss_id, o1, m) in
  let key2 : BossNotifierApp.notification_key := (boss_id, o2, m) in
  let recorded :=
    BossNotifierApp.mk_worker
      ({[key1]} ∪ BossNotifierApp.notified_spawn_times w)
      (BossNotifierApp.sent w) (BossNotifierApp.live_info w) in
  key1 ≠ key2
  ∧ BossNotifierApp.notify_threshold boss_id boss_name o2 (o2 - now) m
      recorded
    = (if BossNotifierApp.in_window m (o2 - now)
          && bool_decide (key2 ∉ BossNotifierApp.notified_spawn_times w)
       then (BossNotifierApp.mk_worker
               ({[key2]} ∪ ({[key1]} ∪ BossNotifierApp.notified_spawn_times w))
               (BossNotifierApp.sent w
                ++ [BossNotifierApp.mk_notification boss_name key2])
               (BossNotifierApp.live_info w), Ok tt)
       else (recorded, Ok tt))
  ∧ App.toasts (App.check_for_notifications now (App.set_ledger l s)).1
    = App.toasts (App.check_for_notifications now s).1.
Proof.
  intros Ho Hnew key1 key2 recorded. split; [|split].
  - subst key1 key2. congruence.
  - rewrite BossNotifierGate.notify_threshold_eq.
    destruct (BossNotifierApp.in_window m (o2 - now)); [|done]. cbn.
    assert (Hiff : key2 ∉ {[key1]} ∪ BossNotifierApp.notified_spawn_times w
                   ↔ key2 ∉ BossNotifierApp.notified_spawn_times w).
    { subst key1 key2. rewrite not_elem_of_union, not_elem_of_singleton.
      split; [by intros [_ ?] | intros ?; split; [congruence | done]]. }
    case_bool_decide as H1; case_bool_decide as H2; try done; tauto.
  - by apply check_ledger_irrelevant.
Qed.

Lemma occurrence_keys_and_suppression_witness :
  ((("kzarka"%string, monday_0800, 15) : BossNotifierApp.notification_key)
   ≠ ("kzarka"%string, next_monday_0800, 15))
  ∧ App.toasts
      (App.check_for_notifications next_monday_0745
         (App.set_ledger ∅ running_app)).1
    = App.toasts (App.check_for_notifications next_monday_0745 running_app).1.
Proof.
  pose proof (occurrence_keys_and_suppression "kzarka" "Kzarka"
                monday_0800 next_monday_0800 next_monday_0745
                15 BossNotifierApp.init_worker running_app ∅) as H.
  cbn zeta in H.
  destruct H as (Ha & _ & Hb); [by_computation | by_computation |].
  exact (conj Ha Hb).
Defined.

(** The key recorded on the first Monday does not keep next Monday's toast
    from being sent. *)
Example next_week_is_announced :
  App.notifications_sent_today running_app
  = {[ "Kzarka_Monday_08:00_15min"%string := true ]}
  ∧ App.toasts (App.check_for_notifications next_monday_0745 running_app).1
    = [App.toast_of row_monday_0800 15 next_monday_0800].
Proof. split; by_computation. Qed.

(** In [app.py], checks at 07:45 on two successive Mondays announce two
    occurrences, a week apart, of the row of Monday 08:00 under one and the
    same key. *)
Lemma weekly_occurrences_share_key :
  (λ t, (App.t_key t, App.t_event t)) <$>
    App.toasts (App.run three_checks loaded_app).1
  = [("Kzarka_Monday_08:00_15min"%string, monday_0800);
     ("Kzarka_Monday_08:00_15min"%string, next_monday_0800)]
  ∧ monday_0800 ≠ next_monday_0800.
Proof. split; by_computation. Qed.

(** ** C4 *)

Module BossNotifierThresholds.
Import BossNotifierApp BossNotifierAux BossNotifierGate.

(** The windows of two distinct selectable thresholds do not meet. *)
Lemma windows_disjoint (m1 m2 : Z) (tu : timedelta) :
  m1 ∈ notification_minutes_options → m2 ∈ notification_minutes_options →
  in_window m1 tu = true → in_window m2 tu = true → m1 = m2.
Proof.
  unfold notification_minutes_options, in_window, window_width, td_minutes,
    td_seconds, US_PER_MINUTE, US_PER_SECOND. cbn zeta.
  rewrite !andb_true_iff, !Z.leb_le, !Z.ltb_lt.
  intros H1 H2.
  repeat (apply elem_of_cons in H1 as [->|H1]);
    try (by apply elem_of_nil in H1);
    repeat (apply elem_of_cons in H2 as [->|H2]);
    try (by apply elem_of_nil in H2); lia.
Qed.

(** Once a threshold has fired, the other selectable thresholds do
    nothing. *)
Lemma notify_threshold_after_fire (boss_id boss_name : string) (o : datetime)
    (tu : timedelta) (w : worker) (m0 m : Z) :
  m0 ∈ notification_minutes_options → m ∈ notification_minutes_options →
  in_window m0 tu = true →
  notify_threshold boss_id boss_name o tu m
    (fire boss_name (boss_id, o, m0) w)
  = (fire boss_name (boss_id, o, m0) w, Ok tt).
Proof.
  intros Hm0 Hm Hwin0. rewrite notify_threshold_eq.
  destruct (in_window m tu) eqn:Hwin; [|done]. cbn.
  rewrite (windows_disjoint m m0 tu Hm Hm0 Hwin Hwin0).
  rewrite bool_decide_eq_false_2; [done|].
  intros Hn. apply Hn. by apply elem_of_union_l, elem_of_singleton.
Qed.

(** The loop over the selected thresholds fires the first due one, and
    that one only. *)
Lemma thresholds_loop_eq (boss_id boss_name : string) (o : datetime)
    (tu : timedelta) (minutes : list Z) (w : worker) :
  Forall (λ m, m ∈ notification_minutes_options) minutes →
  for_each minutes (notify_threshold boss_id boss_name o tu) w
  = match find (due boss_id o tu w) minutes with
    | Some m => (fire boss_name (boss_id, o, m) w, Ok tt)
    | None => (w, Ok tt)
    end.
Proof.
  induction 1 as [|m minutes Hm Hrest IH]; [done|].
  rewrite for_each_cons, notify_threshold_eq. cbn [find]. unfold due at 1.
  destruct (in_window m tu && bool_decide _) eqn:Hdue; [|apply IH].
  apply andb_true_iff in Hdue as [Hwin _].
  apply for_each_skip. intros m' Hm'.
  apply notify_threshold_after_fire; [done| |done].
  rewrite Forall_forall in Hrest. by apply Hrest.
Qed.

Lemma due_unique (boss_id : string) (o : datetime) (tu : timedelta)
    (w : worker) (m1 m2 : Z) :
  m1 ∈ notification_minutes_options → m2 ∈ notification_minutes_options →
  due boss_id o tu w m1 = true → due boss_id o tu w m2 = true → m1 = m2.
Proof.
  unfold due. intros H1 H2 [Hw1 _]%andb_true_iff [Hw2 _]%andb_true_iff.
  by apply (windows_disjoint m1 m2 tu).
Qed.

(** The notification pass over a boss whose next occurrence is [o]. *)
Lemma notify_boss_eq (now o : datetime) (selected : list string)
    (minutes : list Z) (b : boss) (sts : list spawn) (w : worker) :
  id b ∈ selected → spawn_times b = Some sts → sts ≠ [] →
  get_next_spawn_time (name b) sts now = Ok (Some o) →
  notify_boss now selected minutes b w
  = for_each minutes (notify_threshold (id b) (name b) o (o - now)) w.
Proof.
  intros Hsel Hsp Hne Ho. unfold notify_boss.
  rewrite bool_decide_eq_true_2 by done. rewrite Hsp.
  destruct sts as [|sp sts]; [done|].
  unfold mbind, stM_bind, lift. by rewrite Ho.
Qed.

Lemma notify_boss_at_most_one (now : datetime) (selected : list string)
    (minutes : list Z) (b : boss) (w : worker) :
  Forall (λ m, m ∈ notification_minutes_options) minutes →
  (length (sent (notify_boss now selected minutes b w).1)
   ≤ length (sent w) + 1)%nat.
Proof.
  intros Hmin. unfold notify_boss.
  case_bool_decide; [|cbn; lia].
  destruct (spawn_times b) as [[|sp sts]|]; [cbn; lia| |cbn; lia].
  unfold mbind, stM_bind, lift.
  destruct (get_next_spawn_time (name b) (sp :: sts) now) as [[o|]|];
    [|cbn; lia|cbn; lia].
  rewrite thresholds_loop_eq by done.
  destruct (find _ minutes); cbn; [|lia].
  rewrite length_app. cbn. lia.
Qed.

End BossNotifierThresholds.

(** The thresholds of one row, and of one boss.  In [app.py] the
    thresholds of a row are tried from the largest to the smallest; the
    first one whose window contains [now] and whose key is not in the ledger
    fires and is recorded, it is the largest such threshold, and the loop
    ends there; when no threshold is due nothing changes.  In
    [boss_notifier_app.py] the windows of the selectable thresholds do not
    meet: at most one threshold of a boss is due in a tick, it fires and is
    recorded, and no other threshold fires. *)
Lemma thresholds_of_one_row_and_boss
    (r : App.row) (e now : datetime) (times : list Z) (s : App.app)
    (selected : list string) (minutes : list Z)
    (b : BossNotifierApp.boss) (w : BossNotifierApp.worker) :
  Forall (λ m, m ∈ BossNotifierApp.notification_minutes_options) minutes →
  let time_diff := e - now in
  let due m :=
    App.in_window m time_diff
    && bool_decide (App.notifications_sent_today s
                      !! App.notification_key r m = None) in
  let out := App.notify_row r e time_diff (App.sorted_reverse times) s in
  let out' := BossNotifierApp.notify_boss now selected minutes b w in
  (StronglySorted (flip Z.le) (App.sorted_reverse times)
   ∧ (∀ m, m ∈ App.sorted_reverse times ↔ m ∈ times)
   ∧ out.2 = Ok tt
   ∧ ((∀ m, m ∈ times → due m = false) → out.1 = s)
   ∧ (∀ m, m ∈ times → due m = true →
        ∃ M, M ∈ times ∧ due M = true
             ∧ (∀ m', m' ∈ times → due m' = true → m' ≤ M)
             ∧ App.toasts out.1 = App.toasts s ++ [App.toast_of r M e]
             ∧ App.notifications_sent_today out.1
               = <[App.notification_key r M := true]>
                   (App.notifications_sent_today s))
   ∧ (length (App.toasts out.1) ≤ length (App.toasts s) + 1)%nat)
  ∧ ((length (BossNotifierApp.sent out'.1)
      ≤ length (BossNotifierApp.sent w) + 1)%nat
     ∧ ∀ sts o,
         BossNotifierApp.id b ∈ selected →
         BossNotifierApp.spawn_times b = Some sts → sts ≠ [] →
         BossNotifierApp.get_next_spawn_time (BossNotifierApp.name b) sts now
         = Ok (Some o) →
         let key m : BossNotifierApp.notification_key :=
           (BossNotifierApp.id b, o, m) in
         let due' m :=
           BossNotifierApp.in_window m (o - now)
           && bool_decide (key m ∉ BossNotifierApp.notified_spawn_times w) in
         out'.2 = Ok tt
         ∧ ((∀ m, m ∈ minutes → due' m = false) → out'.1 = w)
         ∧ (∀ m, m ∈ minutes → due' m = true →
              (∀ m', m' ∈ minutes → due' m' = true → m' = m)
              ∧ BossNotifierApp.sent out'.1
                = BossNotifierApp.sent w
                  ++ [BossNotifierApp.mk_notification
                        (BossNotifierApp.name b) (key m)]
              ∧ BossNotifierApp.notified_spawn_times out'.1
                = {[key m]} ∪ BossNotifierApp.notified_spawn_times w)).
Proof.
  intros Hmin time_diff due out out'. split.
  - assert (Hout : out = match find due (App.sorted_reverse times) with
                         | Some M => (AppAux.fire r e M s, Ok tt)
                         | None => (s, Ok tt)
                         end).
    { subst out. by rewrite AppFacts.notify_row_eq. }
    split; [apply AppFacts.sorted_reverse_sorted|].
    split; [apply AppFacts.sorted_reverse_elem|].
    rewrite Hout. clear Hout.
    destruct (find due (App.sorted_reverse times)) as [M|] eqn:Hf.
    + apply AppFacts.find_sorted_reverse_largest in Hf as (HM & HdM & Hmax).
      split; [done|]. split.
      { intros Hnone. rewrite (Hnone M HM) in HdM. discriminate. }
      split.
      * intros m Hm Hdm. by exists M.
      * cbn. rewrite length_app. cbn. lia.
    + rewrite AppFacts.find_none_elem in Hf.
      split; [done|]. split; [done|]. split.
      * intros m Hm Hdm.
        rewrite (Hf m) in Hdm; [discriminate|].
        by apply AppFacts.sorted_reverse_elem.
      * cbn. lia.
  - split; [by apply BossNotifierThresholds.notify_boss_at_most_one|].
    intros sts o Hsel Hsp Hne Ho key due'. subst out'.
    rewrite (BossNotifierThresholds.notify_boss_eq now o selected minutes b
               sts w Hsel Hsp Hne Ho).
    rewrite BossNotifierThresholds.thresholds_loop_eq by done.
    change (BossNotifierAux.due (BossNotifierApp.id b) o (o - now) w)
      with due'.
    rewrite Forall_forall in Hmin.
    destruct (find due' minutes) as [M|] eqn:Hf.
    + apply find_some in Hf as [HM HdM]. apply list_elem_of_In in HM.
      split; [done|]. split.
      { intros Hnone. rewrite (Hnone M HM) in HdM. discriminate. }
      intros m Hm Hdm.
      assert (M = m) as ->.
      { apply (BossNotifierThresholds.due_unique (BossNotifierApp.id b) o
                 (o - now) w); auto. }
      split; [|done]. intros m' Hm' Hdm'.
      apply (BossNotifierThresholds.due_unique (BossNotifierApp.id b) o
               (o - now) w); auto.
    + rewrite AppFacts.find_none_elem in Hf.
      split; [done|]. split; [done|].
      intros m Hm Hdm. rewrite (Hf m Hm) in Hdm. discriminate.
Qed.

Example fifteen_minutes_fire_first :
  App.toasts
    (App.notify_row row_monday_0800 monday_0800
       (monday_0800 - mk_datetime 2024 1 1 7 45 10 0)
       (App.sorted_reverse fifteen_and_five) monday_app).1
  = [App.toast_of row_monday_0800 15 monday_0800]
  ∧ BossNotifierApp.sent
      (BossNotifierApp.notify_boss (mk_datetime 2024 1 1 7 45 10 0)
         ["kzarka"%string] fifteen_and_five kzarka
         BossNotifierApp.init_worker).1
    = [BossNotifierApp.mk_notification "Kzarka"
         ("kzarka"%string, monday_0800, 15)].
Proof.
  pose proof (thresholds_of_one_row_and_boss row_monday_0800 monday_0800
                (mk_datetime 2024 1 1 7 45 10 0) fifteen_and_five monday_app
                ["kzarka"%string] fifteen_and_five kzarka
                BossNotifierApp.init_worker) as H.
  cbn zeta in H.
  destruct H as ((_ & _ & _ & _ & Hfire & _) & _ & Hboss).
  { repeat constructor; by_decision. }
  split.
  - destruct (Hfire 15) as (M & HM & HdM & _ & Ht & _);
      [by_decision | by_computation |].
    rewrite Ht.
    assert (M = 15) as ->; [|reflexivity].
    apply elem_of_cons in HM as [->|HM]; [by vm_compute in HdM|].
    by apply list_elem_of_singleton in HM.
  - destruct (Hboss [spawn_monday_0800] monday_0800) as (_ & _ & Hone);
      [by_decision | reflexivity | done | by_computation |].
    destruct (Hone 15) as (_ & Hsent & _);
      [by_decision | by_computation |].
    exact Hsent.
Qed.

(** ** C5 *)

(** C5, as amended.  The pruning step of [boss_notifier_app.py] keeps
    exactly the keys whose occurrence lies after [now] minus 15 minutes, and
    so drops those whose occurrence is 15 minutes or more in the past; it
    sends nothing.  The retention of 15 minutes is counted from the
    occurrence and is shorter than the largest selectable threshold, 30
    minutes, plus the width of the window, 65 seconds.  A dropped key's
    occurrence has passed, and no window of it is open at or after the
    pruning. *)
Theorem prune_drops_passed_occurrences
    (now : datetime) (w : BossNotifierApp.worker) :
  representable (now - BossNotifierApp.retention) →
  let out := BossNotifierApp.prune now w in
  let kept := BossNotifierApp.notified_spawn_times out.1 in
  out.2 = Ok tt
  ∧ BossNotifierApp.sent out.1 = BossNotifierApp.sent w
  ∧ (∀ k : BossNotifierApp.notification_key,
       k ∈ kept ↔ k ∈ BossNotifierApp.notified_spawn_times w
                  ∧ now - BossNotifierApp.retention < k.1.2)
  ∧ (∀ k : BossNotifierApp.notification_key,
       k ∈ BossNotifierApp.notified_spawn_times w → k ∉ kept →
       k.1.2 + BossNotifierApp.retention ≤ now
       ∧ k.1.2 < now
       ∧ ∀ t m, now ≤ t → 0 ≤ m →
                BossNotifierApp.in_window m (k.1.2 - t) = false)
  ∧ BossNotifierApp.retention = td_minutes 15
  ∧ BossNotifierApp.retention
    < td_minutes largest_threshold + BossNotifierApp.window_width.
Proof.
  intros Hrep out kept.
  assert (Hkept : ∀ k : BossNotifierApp.notification_key,
            k ∈ kept ↔ k ∈ BossNotifierApp.notified_spawn_times w
                       ∧ now - BossNotifierApp.retention < k.1.2).
  { intros k. subst kept out. rewrite BossNotifierGate.prune_eq.
    case_bool_decide as He.
    - cbn. rewrite He. split; [by intros ?%elem_of_empty|].
      by intros [?%elem_of_empty _].
    - unfold dt_sub. rewrite dt_add_representable; cycle 1.
      { by replace (now + - BossNotifierApp.retention)
          with (now - BossNotifierApp.retention) by lia. }
      cbn. rewrite elem_of_filter. cbn.
      replace (now + - BossNotifierApp.retention)
        with (now - BossNotifierApp.retention) by lia. tauto. }
  split; [|split; [|split; [done|split; [|split]]]].
  - subst out. rewrite BossNotifierGate.prune_eq.
    case_bool_decide; [done|].
    unfold dt_sub. rewrite dt_add_representable; [done|].
    by replace (now + - BossNotifierApp.retention)
      with (now - BossNotifierApp.retention) by lia.
  - subst out. rewrite BossNotifierGate.prune_eq.
    case_bool_decide; [done|].
    by destruct (dt_sub now BossNotifierApp.retention).
  - intros k Hin Hout. rewrite Hkept in Hout.
    assert (Hk : k.1.2 + BossNotifierApp.retention ≤ now).
    { destruct (Z.le_gt_cases (k.1.2 + BossNotifierApp.retention) now);
        [done|]. exfalso. apply Hout. split; [done | lia]. }
    split; [done|].
    unfold BossNotifierApp.retention, td_minutes, US_PER_MINUTE,
      US_PER_SECOND in Hk.
    split; [lia|]. intros t m Ht Hm.
    unfold BossNotifierApp.in_window, BossNotifierApp.window_width,
      td_minutes, td_seconds, US_PER_MINUTE, US_PER_SECOND. cbn zeta.
    apply andb_false_iff. right. apply Z.ltb_ge. lia.
  - reflexivity.
  - by_computation.
Qed.

Lemma prune_drops_passed_occurrences_witness :
  (BossNotifierApp.prune quarter_past_eight worker_after_0800).2 = Ok tt
  ∧ (kzarka_key
       ∈ BossNotifierApp.notified_spawn_times
           (BossNotifierApp.prune quarter_past_eight worker_after_0800).1
     ↔ kzarka_key ∈ BossNotifierApp.notified_spawn_times worker_after_0800
       ∧ quarter_past_eight - BossNotifierApp.retention < kzarka_key.1.2).
Proof.
  pose proof (prune_drops_passed_occurrences quarter_past_eight
                worker_after_0800) as H.
  cbn zeta in H. destruct H as (Hok & _ & Hkept & _); [in_range|].
  exact (conj Hok (Hkept kzarka_key)).
Defined.

(** The retention is not at least the largest threshold plus the width of
    the window; and a key whose occurrence lies exactly 15 minutes back,
    which is not more than the retention, is dropped. *)
Lemma retention_below_largest_threshold :
  ¬ (td_minutes largest_threshold + BossNotifierApp.window_width
     ≤ BossNotifierApp.retention)
  ∧ largest_threshold = 30
  ∧ quarter_past_eight - monday_0800 = BossNotifierApp.retention
  ∧ BossNotifierApp.notified_spawn_times
      (BossNotifierApp.prune quarter_past_eight worker_after_0800).1 = ∅.
Proof.
  split; [by_computation|]. split; [reflexivity|].
  split; [reflexivity|]. by_decision.
Qed.

(** ** C6 *)



Example minimum_of_two_spawns :
  BossNotifierApp.get_next_spawn_time "Kzarka" two_spawns monday_0900
  = Ok (Some wednesday_1400).
Proof. by_computation. Qed.

(** ** C7 *)

Module AppReset.
Import App AppAux AppFacts.

Lemma fresh_ledger_fire (today : Z) (s0 s : app) (r : row) (e : datetime)
    (m : Z) :
  fresh_ledger today s0 s → fresh_ledger today s0 (fire r e m s).
Proof.
  intros (Hl & new & Ht & Hk). split; [done|].
  exists (new ++ [toast_of r m e]). cbn. split.
  - by rewrite Ht, app_assoc.
  - intros k. rewrite fmap_app, elem_of_app. cbn.
    rewrite list_elem_of_singleton, <- Hk.
    destruct (decide (notification_key r m = k)) as [<-|Hne].
    + rewrite lookup_insert_eq. split; [by right | by eexists].
    + rewrite lookup_insert_ne by done. split; [by left|].
      intros [?|?]; [done | congruence].
Qed.

Lemma check_body_fresh (now : datetime) (rows : list row) (s0 s : app) :
  fresh_ledger (date now) s0 s →
  fresh_ledger (date now) s0 (check_body now rows s).1.
Proof.
  intros Hs.
  apply (check_body_inv now (λ _, True) (fresh_ledger (date now) s0));
    [done | | apply Forall_true; done | done].
  intros r e m s1 _ _ _ _ _. apply fresh_ledger_fire.
Qed.

End AppReset.

(** C7.  The ledger of [app.py] is empty and no reset date is recorded when
    the application is built.  In a check that passes the guard (the
    application is running and the sheet has rows) and whose date differs
    from the recorded reset date, the reset empties the ledger and records
    today's date before any row is looked at; at the end of the check the
    recorded date is today's and the ledger holds only the keys of the
    toasts this check sent.  When the recorded date is today's the reset
    changes nothing. *)
Theorem ledger_cleared_on_new_day
    (s : App.app) (now : datetime) (r : App.row) (rows : list App.row) :
  App.is_running s = true →
  App.df_schedule s = Some (r :: rows) →
  App.last_reset_date s ≠ Some (date now) →
  let cleared :=
    App.mk_app (App.is_running s) (App.df_schedule s) (App.active_bosses s)
      (App.notification_settings s) ∅ (Some (date now)) (App.toasts s)
      (App.StNewDay (date now)) in
  let out := (App.check_for_notifications now s).1 in
  App.notifications_sent_today App.init_app = ∅
  ∧ App.last_reset_date App.init_app = None
  ∧ App.daily_reset now s = (cleared, Ok tt)
  ∧ App.check_for_notifications now s = App.check_body now (r :: rows) cleared
  ∧ App.last_reset_date out = Some (date now)
  ∧ (∃ new, App.toasts out = App.toasts s ++ new
            ∧ ∀ k, is_Some (App.notifications_sent_today out !! k)
                   ↔ k ∈ App.t_key <$> new)
  ∧ (∀ s', App.last_reset_date s' = Some (date now) →
           App.daily_reset now s' = (s', Ok tt)).
Proof.
  intros Hrun Hdf Hnew cleared out.
  assert (Hreset : App.daily_reset now s = (cleared, Ok tt)).
  { rewrite AppFacts.daily_reset_eq. by rewrite bool_decide_eq_true_2. }
  assert (Hcheck : App.check_for_notifications now s
                   = App.check_body now (r :: rows) cleared).
  { rewrite AppFacts.check_for_notifications_eq, Hdf, Hrun. cbn.
    by rewrite Hreset. }
  assert (Hfresh : AppAux.fresh_ledger (date now) s out).
  { subst out. rewrite Hcheck. apply AppReset.check_body_fresh.
    split; [done|]. exists []. split; [by rewrite app_nil_r|].
    intros k. cbn. rewrite lookup_empty. split; [by intros [? ?]|].
    by intros ?%elem_of_nil. }
  repeat split; try done; try apply Hfresh.
  intros s' Hs'. rewrite AppFacts.daily_reset_eq.
  by rewrite bool_decide_eq_false_2 by (intros ?; done).
Qed.

Lemma ledger_cleared_on_new_day_witness :
  App.daily_reset next_monday_0800 running_app
  = (App.mk_app true (Some [row_monday_0800]) {["Kzarka"%string := true]}
       [("15_min"%string, true)] ∅ (Some (date next_monday_0800)) []
       (App.StNewDay (date next_monday_0800)), Ok tt)
  ∧ App.last_reset_date
      (App.check_for_notifications next_monday_0800 running_app).1
    = Some (date next_monday_0800).
Proof.
  pose proof (ledger_cleared_on_new_day running_app next_monday_0800
                row_monday_0800 []) as H.
  cbn zeta in H.
  destruct H as (_ & _ & Hreset & _ & Hdate & _);
    [reflexivity | reflexivity | by_computation |].
  exact (conj Hreset Hdate).
Defined.

(** ** C8 *)




Example wednesday_from_monday :
  BossNotifierApp.get_next_spawn_time "Kzarka" [spawn_wednesday_1400]
    monday_0900 = Ok (Some wednesday_1400).
Proof. by_computation. Qed.

(** ** C9 *)

Module BossNotifierPure.
Import BossNotifierStore.

Lemma spawn_body_reads (now : datetime) (acc : option datetime) (d : loc)
    (σ : store) :
  spawn_body now acc d σ
  = (σ, body_of_view (day_mapping σ) now acc (dicts σ !!! d)).
Proof.
  unfold spawn_body, body_of_view.
  unfold mbind at 1, stM_bind at 1, getitem at 1.
  destruct ((dicts σ !!! d) !! "day"%string) as [day|]; [|done].
  unfold mbind at 1, stM_bind at 1, day_mapping_get, gets.
  destruct (day_mapping σ !! day) as [dow|]; [|done].
  unfold mbind at 1, stM_bind at 1, getitem.
  destruct ((dicts σ !!! d) !! "time"%string) as [time|]; [|done].
  unfold mbind at 1, stM_bind at 1, lift.
  destruct (BossNotifierApp.spawn_candidate _ _ _) as [c|e]; [|done].
  cbn. destruct acc as [n|]; [|done]. by destruct (c <? n).
Qed.

Lemma spawn_iter_reads (l : loc) (now : datetime) (σ : store) (fuel : nat) :
  ∀ i acc,
  (length (lists σ !!! l) - i < fuel)%nat →
  spawn_iter fuel l now i acc σ
  = Some (σ, fold_result (body_of_view (day_mapping σ) now) acc
               (drop i ((λ d, dicts σ !!! d) <$> (lists σ !!! l)))).
Proof.
  induction fuel as [|fuel IH]; intros i acc Hfuel; [lia|].
  cbn [spawn_iter]. unfold list_next, gets.
  destruct ((lists σ !!! l) !! i) as [d|] eqn:Hi.
  - rewrite spawn_body_reads.
    pose proof (lookup_lt_Some _ _ _ Hi) as Hlt.
    erewrite drop_S by (rewrite list_lookup_fmap, Hi; done).
    cbn [fold_result]. unfold mbind, result_bind.
    destruct (body_of_view _ _ _ _) as [n|e]; [|done].
    apply IH. lia.
  - apply lookup_ge_None in Hi.
    rewrite drop_ge by (rewrite length_fmap; lia). done.
Qed.

Lemma get_next_spawn_time_reads (fuel : nat) (boss_name : string) (l : loc)
    (now : datetime) (σ : store) :
  (length (lists σ !!! l) < fuel)%nat →
  get_next_spawn_time fuel boss_name l now σ
  = Some (σ, result_of_view (view σ l) now).
Proof.
  intros Hfuel. unfold get_next_spawn_time.
  rewrite spawn_iter_reads by lia. by rewrite drop_0.
Qed.

Lemma body_of_entry (now : datetime) (acc : option datetime)
    (d : gmap string string) (sp : BossNotifierApp.spawn) :
  entry_of d = Some sp →
  body_of_view BossNotifierApp.DAY_MAPPING now acc d
  = BossNotifierApp.spawn_step now acc sp.
Proof.
  unfold entry_of, body_of_view, BossNotifierApp.spawn_step.
  destruct (d !! "day"%string) as [day|]; [|done]. cbn.
  destruct (d !! "time"%string) as [time|]; [|done]. cbn.
  intros [= <-]. cbn.
  by destruct (BossNotifierApp.DAY_MAPPING !! day).
Qed.

Lemma loop_of_entries (now : datetime) (ds : list (gmap string string)) :
  ∀ sts acc, mapM entry_of ds = Some sts →
  fold_result (body_of_view BossNotifierApp.DAY_MAPPING now) acc ds
  = BossNotifierApp.spawn_loop now acc sts.
Proof.
  induction ds as [|d ds IH]; intros sts acc.
  { cbn. by intros [= <-]. }
  cbn. destruct (entry_of d) as [sp|] eqn:Hd; [|done]. cbn.
  destruct (mapM entry_of ds) as [sts'|] eqn:Hds; [|done]. cbn.
  intros [= <-]. cbn. rewrite (body_of_entry now acc d sp Hd).
  destruct (BossNotifierApp.spawn_step now acc sp); [|done]. cbn.
  by apply IH.
Qed.

End BossNotifierPure.



(** The call on the store of the two entries of Monday 08:00 and Wednesday
    14:00, on the Monday at 09:00. *)
Example store_call_on_monday :
  BossNotifierStore.get_next_spawn_time 3 "Kzarka" 1%positive monday_0900
    kzarka_store = Some (kzarka_store, Ok (Some wednesday_1400)).
Proof. by_computation. Qed.

(** ** C10 *)

Module BossNotifierSkip.
Import BossNotifierApp BossNotifierAux.

Lemma spawn_loop_unknown (now : datetime) (sps : list spawn)
    (acc : option datetime) :
  Forall (λ sp, DAY_MAPPING !! day sp = None) sps →
  spawn_loop now acc sps = Ok acc.
Proof.
  induction 1 as [|sp sps Hsp _ IH]; [done|].
  cbn. unfold spawn_step. by rewrite Hsp.
Qed.

Lemma spawn_loop_filter (now : datetime) (sps : list spawn) :
  ∀ acc, spawn_loop now acc (filter known_day sps) = spawn_loop now acc sps.
Proof.
  induction sps as [|sp sps IH]; intros acc; [done|].
  destruct (decide (known_day sp)) as [Hk|Hk].
  - rewrite filter_cons_True by done. cbn.
    destruct (spawn_step now acc sp); [apply IH | done].
  - rewrite filter_cons_False by done. rewrite IH. cbn.
    unfold spawn_step, known_day in *.
    destruct (DAY_MAPPING !! day sp); [|done].
    exfalso. apply Hk. by eexists.
Qed.

End BossNotifierSkip.

(** C10.  For a list of entries that is empty, or none of whose days is in
    [DAY_MAPPING], [get_next_spawn_time] returns [None]; entries whose day
    is not in the mapping can be left out without changing the result; and
    for a boss with such a list, or with no list, both passes of a tick go
    on to the next boss: nothing is sent, nothing is recorded and nothing
    is raised. *)
Theorem unresolvable_event_is_skipped
    (boss_name : string) (spawn_times : list BossNotifierApp.spawn)
    (now : datetime) (b : BossNotifierApp.boss) (selected : list string)
    (minutes : list Z) (w : BossNotifierApp.worker)
    (acc : option datetime * list (string * datetime)) :
  Forall (λ sp, BossNotifierApp.DAY_MAPPING !! BossNotifierApp.day sp = None)
         spawn_times →
  BossNotifierApp.spawn_times b = Some spawn_times
  ∨ BossNotifierApp.spawn_times b = None →
  BossNotifierApp.get_next_spawn_time boss_name spawn_times now = Ok None
  ∧ BossNotifierApp.get_next_spawn_time boss_name [] now = Ok None
  ∧ (∀ name all,
       BossNotifierApp.get_next_spawn_time name
         (filter BossNotifierAux.known_day all) now
       = BossNotifierApp.get_next_spawn_time name all now)
  ∧ BossNotifierApp.notify_boss now selected minutes b w = (w, Ok tt)
  ∧ BossNotifierApp.closest_step now selected acc b = Ok acc.
Proof.
  intros Hunk Hb.
  assert (Hnone : ∀ name,
            BossNotifierApp.get_next_spawn_time name spawn_times now
            = Ok None).
  { intros name. by apply BossNotifierSkip.spawn_loop_unknown. }
  split; [apply Hnone|]. split; [reflexivity|]. split; [|split].
  - intros name all. apply BossNotifierSkip.spawn_loop_filter.
  - unfold BossNotifierApp.notify_boss. case_bool_decide; [|done].
    destruct Hb as [-> | ->]; [|done].
    destruct spawn_times as [|sp sts]; [done|].
    unfold mbind, stM_bind, lift. by rewrite Hnone.
  - unfold BossNotifierApp.closest_step. case_bool_decide; [|done].
    destruct Hb as [-> | ->]; [|done].
    destruct spawn_times as [|sp sts]; [done|]. by rewrite Hnone.
Qed.

Lemma unresolvable_event_is_skipped_witness :
  BossNotifierApp.get_next_spawn_time "Vell" [spawn_funday] monday_0900
  = Ok None
  ∧ BossNotifierApp.notify_boss monday_0900 ["vell"%string] fifteen_and_five
      funday_boss worker_after_0800 = (worker_after_0800, Ok tt)
  ∧ BossNotifierApp.closest_step monday_0900 ["vell"%string] (None, [])
      funday_boss = Ok (None, []).
Proof.
  pose proof (unresolvable_event_is_skipped "Vell" [spawn_funday] monday_0900
                funday_boss ["vell"%string] fifteen_and_five
                worker_after_0800 (None, [])) as H.
  destruct H as (Hnone & _ & _ & Hnotify & Hclosest);
    [repeat constructor; by_computation | by left |].
  exact (conj Hnone (conj Hnotify Hclosest)).
Defined.


(** * Further properties of [boss_notifier_app.py] *)

Module BossNotifierWeek.
Import BossNotifierApp BossNotifierAux BossNotifierResolver BossNotifierMore.

Lemma split_datetime (t : Z) : t = date t * US_PER_DAY + time_of_day t.
Proof.
  unfold date, time_of_day. rewrite US_PER_DAY_eq.
  pose proof (Z.div_mod t 86400000000 ltac:(lia)). lia.
Qed.

Lemma time_of_day_range (t : Z) : 0 ≤ time_of_day t < US_PER_DAY.
Proof. unfold time_of_day. apply Z.mod_pos_bound. by rewrite US_PER_DAY_eq. Qed.

Lemma weekday_date (t : Z) : weekday t = date t mod 7.
Proof.
  unfold weekday, toordinal.
  replace (date t + 1 + 6) with (date t + 1 * 7) by lia.
  by rewrite Z.mod_add by lia.
Qed.

Lemma time_in_day (h m : Z) :
  0 ≤ h < 24 → 0 ≤ m < 60 →
  0 ≤ h * US_PER_HOUR + m * US_PER_MINUTE < US_PER_DAY.
Proof.
  unfold US_PER_HOUR, US_PER_MINUTE, US_PER_DAY, US_PER_SECOND. lia.
Qed.

(** The naive candidate falls on the day and at the time of the entry. *)
Lemma naive_candidate_date (d h m now : Z) :
  0 ≤ h < 24 → 0 ≤ m < 60 →
  date (Spec.naive_candidate d h m now)
  = date now + (d - weekday now + 7) mod 7
  ∧ time_of_day (Spec.naive_candidate d h m now)
    = h * US_PER_HOUR + m * US_PER_MINUTE.
Proof.
  intros Hh Hm. pose proof (time_in_day h m Hh Hm) as Ht.
  assert (Hd : date (Spec.naive_candidate d h m now)
               = date now + (d - weekday now + 7) mod 7).
  { apply date_unique. unfold Spec.naive_candidate. cbn zeta. lia. }
  split; [done|].
  pose proof (split_datetime (Spec.naive_candidate d h m now)) as Hs.
  rewrite Hd in Hs. unfold Spec.naive_candidate in Hs at 1. cbn zeta in Hs.
  lia.
Qed.

Lemma naive_candidate_weekday (d h m now : Z) :
  0 ≤ d ≤ 6 → 0 ≤ h < 24 → 0 ≤ m < 60 →
  weekday (Spec.naive_candidate d h m now) = d.
Proof.
  intros Hd Hh Hm. rewrite weekday_date.
  destruct (naive_candidate_date d h m now Hh Hm) as [-> _].
  rewrite weekday_date. Z.div_mod_to_equations. lia.
Qed.

Lemma resolved_matches (d h m now : Z) :
  0 ≤ d ≤ 6 → 0 ≤ h < 24 → 0 ≤ m < 60 →
  weekday (resolved d h m now) = d
  ∧ time_of_day (resolved d h m now) = h * US_PER_HOUR + m * US_PER_MINUTE
  ∧ now < resolved d h m now ≤ now + td_weeks 1.
Proof.
  intros Hd Hh Hm.
  pose proof (naive_candidate_weekday d h m now Hd Hh Hm) as Hw.
  destruct (naive_candidate_date d h m now Hh Hm) as [Hdate Htod].
  pose proof (resolved_future d h m now ltac:(lia) ltac:(lia)) as Hfut.
  pose proof (naive_candidate_upper d h m now ltac:(lia) ltac:(lia)) as Hup.
  unfold resolved in *. cbn zeta in *.
  set (c := Spec.naive_candidate d h m now) in *.
  destruct (Z.leb_spec c now) as [Hle|Hgt].
  - assert (Hweek : c + td_weeks 1 = c + td_days 7)
      by (unfold td_weeks, td_days; lia).
    rewrite Hweek. split; [|split].
    + rewrite weekday_date, date_add_days, <- Hw, weekday_date.
      by rewrite <- (Z.mod_add (date c) 1 7) by lia.
    + pose proof (split_datetime (c + td_days 7)) as Hs.
      rewrite date_add_days in Hs. pose proof (split_datetime c).
      unfold td_days in *. lia.
    + unfold td_weeks, td_days in *. lia.
  - split; [done|]. split; [done|]. unfold td_weeks, td_days in *. lia.
Qed.

(** No instant between [now] and the resolved one falls on that day at
    that time. *)
Lemma resolved_first (d h m now t' : Z) :
  0 ≤ d ≤ 6 → 0 ≤ h < 24 → 0 ≤ m < 60 →
  now < t' → weekday t' = d →
  time_of_day t' = h * US_PER_HOUR + m * US_PER_MINUTE →
  resolved d h m now ≤ t'.
Proof.
  intros Hd Hh Hm Hnow Hw Htod.
  destruct (naive_candidate_date d h m now Hh Hm) as [Hdate Hctod].
  pose proof (naive_candidate_weekday d h m now Hd Hh Hm) as Hcw.
  unfold resolved. cbn zeta.
  set (c := Spec.naive_candidate d h m now) in *.
  pose proof (split_datetime c) as Hc. pose proof (split_datetime t') as Ht.
  pose proof (split_datetime now) as Hn.
  pose proof (time_of_day_range now) as Hnr.
  pose proof (time_in_day h m Hh Hm) as Hhm.
  rewrite weekday_date in Hw, Hcw.
  pose proof (Z.mod_pos_bound (d - weekday now + 7) 7 ltac:(lia)) as Hdd.
  assert (Hge : date now ≤ date t') by (apply date_mono; lia).
  rewrite US_PER_DAY_eq in *. unfold td_weeks.
  rewrite US_PER_DAY_eq.
  destruct (Z.leb_spec c now) as [Hle|Hgt];
    Z.div_mod_to_equations; lia.
Qed.

Lemma well_formed_single (boss_name : string) (sp : spawn) (now : Z) :
  well_formed sp → representable now → representable (now + td_weeks 2) →
  ∃ t, get_next_spawn_time boss_name [sp] now = Ok (Some t)
       ∧ now < t ≤ now + td_weeks 1
       ∧ entry_matches sp t
       ∧ ∀ t', now < t' → entry_matches sp t' → t ≤ t'.
Proof.
  intros (d & h & m & Hd & Hp & Hh & Hm) Hn Hn2.
  pose proof (DAY_MAPPING_range _ _ Hd) as Hdr.
  destruct (resolved_matches d h m now Hdr Hh Hm) as (Hw & Htod & Hrange).
  exists (resolved d h m now). split.
  { by apply get_next_spawn_time_single. }
  split; [done|]. split.
  - by exists d, h, m.
  - intros t' Hlt (d' & h' & m' & Hd' & Hp' & Hw' & Htod').
    rewrite Hd in Hd'. injection Hd' as <-.
    rewrite Hp in Hp'. injection Hp' as <- <-.
    by apply resolved_first.
Qed.

End BossNotifierWeek.

Module BossNotifierFirst.
Import BossNotifierApp BossNotifierAux BossNotifierMore BossNotifierWeek.

Lemma well_formed_first_matches (boss_name : string) (now : datetime)
    (sps : list spawn) :
  Forall well_formed sps →
  representable now → representable (now + td_weeks 2) →
  ∃ occs, Forall2 (first_match boss_name now) sps occs.
Proof.
  intros Hwf Hn Hn2. induction Hwf as [|sp sps Hsp _ [occs IH]].
  - exists []. constructor.
  - destruct (well_formed_single boss_name sp now Hsp Hn Hn2)
      as (o & Ho & Hr & Hm & Hfirst).
    exists (o :: occs). by constructor.
Qed.

End BossNotifierFirst.



(** ** The live information *)

Module BossNotifierLive.
Import BossNotifierApp BossNotifierAux BossNotifierMore.

Lemma filter_none {A} (P : A → Prop) `{∀ x, Decision (P x)} (l : list A) :
  (∀ x, x ∈ l → ¬ P x) → filter P l = [].
Proof.
  induction l as [|a l IH]; intros Hl; [done|].
  rewrite filter_cons_False by (apply Hl; left).
  apply IH. intros x Hx. apply Hl. by right.
Qed.

Lemma closest_step_eq (now : datetime) (selected : list string)
    (acc : option datetime * list (string * datetime)) (b : boss) acc' :
  closest_step now selected acc b = Ok acc' →
  match next_spawn_of now selected b with
  | None => acc' = acc
  | Some (n, t) =>
      acc' = match acc.1 with
             | None => (Some t, [(n, t)])
             | Some e => if t <? e then (Some t, [(n, t)])
                         else if t =? e then (acc.1, acc.2 ++ [(n, t)])
                         else acc
             end
  end.
Proof.
  unfold closest_step, next_spawn_of.
  case_bool_decide; [|by intros [= ->]].
  destruct (spawn_times b) as [[|sp sts]|]; [by intros [= ->]| |by intros [= ->]].
  destruct (get_next_spawn_time (name b) (sp :: sts) now) as [[t|]|];
    cbn; [|by intros [= ->]|done].
  destruct acc.1 as [e|]; [|by intros [= ->]].
  destruct (t <? e); [by intros [= ->]|].
  destruct (t =? e); by intros [= ->].
Qed.

Lemma closest_step_earliest (now : datetime) (selected : list string)
    (seen : list (string * datetime))
    (acc : option datetime * list (string * datetime)) (b : boss) acc' :
  closest_step now selected acc b = Ok acc' →
  earliest_of seen acc →
  earliest_of (seen ++ next_spawns [b] now selected) acc'.
Proof.
  intros Hstep%closest_step_eq (Hinfo & Hle & Hin & Hnone).
  unfold next_spawns. cbn [omap list_omap].
  destruct (next_spawn_of now selected b) as [[n t]|]; cycle 1.
  { subst acc'. rewrite app_nil_r. done. }
  destruct acc as [[e|] info]; cbn in *; subst acc'.
  - destruct (Z.ltb_spec t e) as [Hlt|Hge]; [|destruct (Z.eqb_spec t e) as [->|Hne]].
    + repeat split; cbn.
      * rewrite filter_app, filter_cons_True, filter_nil by done.
        rewrite (filter_none _ seen); [done|].
        intros p Hp [= Hpt].
        destruct (Hle p Hp) as (t0 & [= <-] & Ht0). lia.
      * intros p [Hp| ->%list_elem_of_singleton]%elem_of_app.
        -- destruct (Hle p Hp) as (t0 & [= <-] & Ht0).
           exists t. split; [done | lia].
        -- exists t. split; [done | cbn; lia].
      * intros t0 [= <-]. exists (n, t). split; [|done].
        apply elem_of_app. right. by apply list_elem_of_singleton.
      * done.
    + repeat split; cbn.
      * rewrite filter_app, filter_cons_True, filter_nil by done.
        by rewrite Hinfo.
      * intros p [Hp| ->%list_elem_of_singleton]%elem_of_app;
          [by apply Hle|].
        exists e. split; [done | cbn; lia].
      * intros t0 [= <-]. destruct (Hin e eq_refl) as (p & Hp & Hpe).
        exists p. split; [|done]. apply elem_of_app. by left.
      * done.
    + repeat split; cbn.
      * rewrite filter_app, filter_cons_False, filter_nil, app_nil_r;
          [done|]. cbn. intros [= <-]. done.
      * intros p [Hp| ->%list_elem_of_singleton]%elem_of_app;
          [by apply Hle|].
        exists e. split; [done | cbn; lia].
      * intros t0 [= <-]. destruct (Hin e eq_refl) as (p & Hp & Hpe).
        exists p. split; [|done]. apply elem_of_app. by left.
      * done.
  - rewrite (Hnone eq_refl), app_nil_l. repeat split; cbn [fst snd].
    + by rewrite filter_cons_True, filter_nil by done.
    + intros p ->%list_elem_of_singleton. exists t. split; [done | cbn; lia].
    + intros t0 [= <-]. exists (n, t). split; [|done].
      by apply list_elem_of_singleton.
    + done.
Qed.

Lemma next_spawns_app (l1 l2 : list boss) (now : datetime)
    (selected : list string) :
  next_spawns (l1 ++ l2) now selected
  = next_spawns l1 now selected ++ next_spawns l2 now selected.
Proof. unfold next_spawns. apply omap_app. Qed.

Lemma closest_loop_earliest (now : datetime) (selected : list string)
    (boss_data : list boss) :
  ∀ seen acc acc',
    fold_result (closest_step now selected) acc boss_data = Ok acc' →
    earliest_of seen acc →
    earliest_of (seen ++ next_spawns boss_data now selected) acc'.
Proof.
  induction boss_data as [|b boss_data IH]; intros seen acc acc' Hf Hacc.
  - injection Hf as <-. unfold next_spawns. cbn. by rewrite app_nil_r.
  - cbn in Hf.
    destruct (closest_step now selected acc b) as [acc1|] eqn:Hstep;
      [|done]. cbn in Hf.
    pose proof (closest_step_earliest now selected seen acc b acc1 Hstep Hacc)
      as H1.
    specialize (IH _ _ _ Hf H1).
    rewrite <- app_assoc in IH.
    by rewrite (next_spawns_app [b] boss_data).
Qed.

End BossNotifierLive.

(** X2.  When the live-information pass ends, the instant it holds is the
    earliest next spawn among the selected bosses that have one, and the
    list it displays holds exactly the bosses that attain it, in the order
    of [boss_data]; both are empty exactly when no selected boss has a next
    spawn. *)
Theorem live_information_is_earliest
    (boss_data : list BossNotifierApp.boss) (now : datetime)
    (selected : list string) (overall_earliest_spawn : option datetime)
    (closest_bosses_info : list (string * datetime)) :
  BossNotifierApp.closest_bosses boss_data now selected
  = Ok (overall_earliest_spawn, closest_bosses_info) →
  let spawns := BossNotifierMore.next_spawns boss_data now selected in
  closest_bosses_info
  = filter (λ p, overall_earliest_spawn = Some p.2) spawns
  ∧ (∀ p, p ∈ spawns → ∃ t, overall_earliest_spawn = Some t ∧ t ≤ p.2)
  ∧ (∀ t, overall_earliest_spawn = Some t → ∃ p, p ∈ spawns ∧ p.2 = t)
  ∧ (spawns = [] ↔ closest_bosses_info = []).
Proof.
  intros Hc spawns.
  pose proof (BossNotifierLive.closest_loop_earliest now selected boss_data
                [] (None, []) _ Hc) as (Hinfo & Hle & Hin & Hnone).
  { repeat split; cbn; try done. by intros p ?%elem_of_nil. }
  cbn in *. fold spawns in Hinfo, Hle, Hin, Hnone.
  split; [done|]. split; [done|]. split; [done|]. split.
  - intros He. rewrite Hinfo, He. done.
  - intros He. destruct overall_earliest_spawn as [t|]; [|by apply Hnone].
    destruct (Hin t eq_refl) as (p & Hp & Hpt).
    exfalso. assert (p ∈ closest_bosses_info) as Hp'.
    { rewrite Hinfo. apply list_elem_of_filter. split; [by rewrite Hpt|done]. }
    rewrite He in Hp'. by apply elem_of_nil in Hp'.
Qed.

Lemma live_information_is_earliest_witness :
  [("Vell"%string, wednesday_1400)]
  = filter (λ p, Some wednesday_1400 = Some p.2)
      (BossNotifierMore.next_spawns two_bosses monday_0900 both_selected)
  ∧ (∀ p, p ∈ BossNotifierMore.next_spawns two_bosses monday_0900
                both_selected →
          ∃ t, Some wednesday_1400 = Some t ∧ t ≤ p.2).
Proof.
  pose proof (live_information_is_earliest two_bosses monday_0900
                both_selected (Some wednesday_1400)
                [("Vell"%string, wednesday_1400)]) as H.
  cbn zeta in H. destruct H as (Ha & Hb & _); [by_computation|].
  exact (conj Ha Hb).
Defined.

(** ** What a tick sends and records *)

Module BossNotifierTick.
Import BossNotifierApp BossNotifierAux BossNotifierMore BossNotifierResolver
  BossNotifierGate.

Lemma tick_eq (boss_data : list boss) (inp : tick_input) (w : worker) :
  tick boss_data inp w =
  match closest_bosses boss_data (current_time inp) (selected_boss_ids inp)
  with
  | Raise e => (w, Raise e)
  | Ok info =>
      let w1 := mk_worker (notified_spawn_times w) (sent w)
                          (live_info w ++ [info.2]) in
      match (if is_active inp
             then for_each boss_data
                    (notify_boss (current_time inp) (selected_boss_ids inp)
                       (selected_minutes inp))
             else mret tt) w1 with
      | (w2, Ok _) => prune (current_time inp) w2
      | (w2, Raise e) => (w2, Raise e)
      end
  end.
Proof.
  unfold tick. unfold mbind at 1, stM_bind at 1, lift.
  by destruct (closest_bosses _ _ _).
Qed.

Lemma sent_since_refl (good : notification → Prop) (w : worker) :
  sent_since good w w.
Proof. split; [done|]. exists []. by rewrite app_nil_r. Qed.

Lemma notify_boss_sent (boss_data : list boss) (inp : tick_input)
    (w w' : worker) (b : boss) :
  is_active inp = true → b ∈ boss_data →
  sent_since (sent_in_tick boss_data inp w) w w' →
  sent_since (sent_in_tick boss_data inp w) w
    (notify_boss (current_time inp) (selected_boss_ids inp)
       (selected_minutes inp) b w').1.
Proof.
  intros Hact Hb Hw'. unfold notify_boss.
  case_bool_decide as Hsel; [|done].
  destruct (spawn_times b) as [[|sp sts]|] eqn:Hsts; [done| |done].
  unfold mbind, stM_bind, lift.
  destruct (get_next_spawn_time (name b) (sp :: sts) (current_time inp))
    as [[o|]|] eqn:Hg; [|done|done].
  apply (for_each_inv (sent_since (sent_in_tick boss_data inp w) w));
    [|done].
  intros m w2 Hm (Hsub & new & Hsent & Hgood).
  rewrite notify_threshold_eq.
  destruct (in_window m (o - current_time inp)) eqn:Hwin; cbn;
    [|by split; [|exists new]].
  case_bool_decide as Hk; cbn; [|by split; [|exists new]].
  split; [set_solver|].
  exists (new ++ [mk_notification (name b) (id b, o, m)]). split.
  { unfold fire. cbn. by rewrite Hsent, app_assoc. }
  apply Forall_app. split; [done|]. constructor; [|done].
  unfold sent_in_tick. cbn.
  split; [done|]. split; [done|]. split; [done|].
  split; [by eapply get_next_spawn_time_future|].
  split; [by apply in_window_spec|]. split; [set_solver|].
  by exists b, (sp :: sts).
Qed.

Lemma prune_sent (now : datetime) (w : worker) :
  sent (prune now w).1 = sent w
  ∧ notified_spawn_times (prune now w).1 ⊆ notified_spawn_times w.
Proof.
  rewrite prune_eq. case_bool_decide; [done|].
  destruct (dt_sub now retention); [|done]. cbn. split; [done|].
  intros k [_ ?]%elem_of_filter. done.
Qed.

Lemma tick_sends (boss_data : list boss) (inp : tick_input) (w : worker) :
  ∃ new, sent (tick boss_data inp w).1 = sent w ++ new
         ∧ Forall (sent_in_tick boss_data inp w) new
         ∧ (is_active inp = false → new = []).
Proof.
  rewrite tick_eq.
  destruct (closest_bosses _ _ _) as [info|].
  2:{ exists []. cbn. by rewrite app_nil_r. }
  cbn zeta. set (w1 := mk_worker _ _ _).
  destruct (is_active inp) eqn:Hact.
  - assert (H1 : sent_since (sent_in_tick boss_data inp w) w w1).
    { split; [done|]. exists []. by rewrite app_nil_r. }
    pose proof (for_each_inv
      (sent_since (sent_in_tick boss_data inp w) w) boss_data
      (notify_boss (current_time inp) (selected_boss_ids inp)
         (selected_minutes inp))
      (λ b w' Hb Hw', notify_boss_sent boss_data inp w w' b Hact Hb Hw')
      w1 H1) as (_ & new & Hsent & Hgood).
    destruct (for_each _ _ w1) as [w2 [[]|e]]; cbn in Hsent; cbn beta iota.
    + destruct (prune_sent (current_time inp) w2) as [Hp _].
      exists new. by rewrite Hp, Hsent.
    + exists new. cbn. by rewrite Hsent.
  - cbn beta iota. unfold mret, stM_ret. cbn beta iota.
    destruct (prune_sent (current_time inp) w1) as [Hp _].
    exists []. rewrite Hp. cbn. by rewrite app_nil_r.
Qed.

Lemma tick_ledger_sent (boss_data : list boss) (inp : tick_input)
    (w : worker) :
  ledger_sent w → ledger_sent (tick boss_data inp w).1.
Proof.
  intros Hw. rewrite tick_eq.
  destruct (closest_bosses _ _ _) as [info|]; [|done].
  cbn zeta. set (w1 := mk_worker _ _ _).
  assert (H1 : ledger_sent w1) by done. clearbody w1.
  assert (Hloop : ∀ w2, ledger_sent w2 →
            ledger_sent (for_each boss_data
              (notify_boss (current_time inp) (selected_boss_ids inp)
                 (selected_minutes inp)) w2).1).
  { apply for_each_inv. intros b w2 _ Hw2. unfold notify_boss.
    case_bool_decide; [|done].
    destruct (spawn_times b) as [[|sp sts]|]; [done| |done].
    unfold mbind, stM_bind, lift.
    destruct (get_next_spawn_time _ _ _) as [[o|]|]; [|done|done].
    apply for_each_inv; [|done]. intros m w3 _ Hw3.
    rewrite notify_threshold_eq.
    destruct (in_window m _ && bool_decide _); [|done]. cbn.
    intros k. unfold fire, fired_keys. cbn. rewrite fmap_app, elem_of_app.
    intros [->%elem_of_singleton|Hk]%elem_of_union.
    - right. by apply list_elem_of_singleton.
    - left. by apply Hw3. }
  assert (Hprune : ∀ w2, ledger_sent w2 →
            ledger_sent (prune (current_time inp) w2).1).
  { intros w2 Hw2 k Hk.
    destruct (prune_sent (current_time inp) w2) as [Hs Hl].
    unfold fired_keys. rewrite Hs. by apply Hw2, Hl. }
  destruct (is_active inp).
  - specialize (Hloop w1 H1).
    destruct (for_each _ _ w1) as [w2 [[]|e]]; [by apply Hprune | done].
  - cbn. by apply Hprune.
Qed.

Lemma prune_recent (now : datetime) (w : worker) (k : notification_key) :
  (prune now w).2 = Ok tt →
  k ∈ notified_spawn_times (prune now w).1 → now - retention < k.1.2.
Proof.
  rewrite prune_eq. case_bool_decide as He.
  - intros _. cbn. rewrite He. by intros ?%elem_of_empty.
  - destruct (dt_sub now retention) as [limit|] eqn:Hl; [|done].
    apply dt_add_Ok in Hl as [-> _]. cbn.
    intros _ [Hk _]%elem_of_filter. lia.
Qed.

Lemma tick_ledger_recent (boss_data : list boss) (inp : tick_input)
    (w : worker) (k : notification_key) :
  (tick boss_data inp w).2 = Ok tt →
  k ∈ notified_spawn_times (tick boss_data inp w).1 →
  current_time inp - retention < k.1.2.
Proof.
  rewrite tick_eq.
  destruct (closest_bosses _ _ _) as [info|]; [|done].
  cbn zeta. set (w1 := mk_worker _ _ _). clearbody w1.
  destruct (is_active inp).
  - destruct (for_each boss_data _ w1) as [w2 [[]|e]]; [|done].
    apply prune_recent.
  - apply prune_recent.
Qed.

End BossNotifierTick.

(** X3.  Whatever a tick of the worker sends is the warning of a selected
    boss for one of the selected minutes: notifications are active, the
    boss's next spawn lies after [now], [now] lies in the window of that
    threshold, and the key was not in the ledger when the tick began.  A
    tick with notifications switched off sends nothing. *)
Theorem tick_sends_only_due_warnings
    (boss_data : list BossNotifierApp.boss)
    (inp : BossNotifierApp.tick_input) (w : BossNotifierApp.worker) :
  ∃ new,
    BossNotifierApp.sent (BossNotifierApp.tick boss_data inp w).1
    = BossNotifierApp.sent w ++ new
    ∧ Forall (BossNotifierMore.sent_in_tick boss_data inp w) new
    ∧ (BossNotifierApp.is_active inp = false → new = []).
Proof. apply BossNotifierTick.tick_sends. Qed.

(** X4.  In a run of the worker from its initial state, every key of the
    ledger is the key of a notification that was sent; and after a tick
    that ends without an exception every key of the ledger has its
    occurrence later than [now] minus 15 minutes. *)
Theorem ledger_holds_recent_sent_keys
    (boss_data : list BossNotifierApp.boss)
    (inputs : list BossNotifierApp.tick_input) :
  (∀ k,
     k ∈ BossNotifierApp.notified_spawn_times
           (BossNotifierApp.run boss_data inputs
              BossNotifierApp.init_worker).1 →
     k ∈ BossNotifierApp.n_key <$>
           BossNotifierApp.sent
             (BossNotifierApp.run boss_data inputs
                BossNotifierApp.init_worker).1)
  ∧ (∀ inp w (k : BossNotifierApp.notification_key),
       (BossNotifierApp.tick boss_data inp w).2 = Ok tt →
       k ∈ BossNotifierApp.notified_spawn_times
             (BossNotifierApp.tick boss_data inp w).1 →
       BossNotifierApp.current_time inp - BossNotifierApp.retention
       < k.1.2).
Proof.
  split.
  - apply (for_each_inv BossNotifierMore.ledger_sent inputs
             (BossNotifierApp.tick boss_data)).
    + intros inp w _. apply BossNotifierTick.tick_ledger_sent.
    + by intros k ?%elem_of_empty.
  - intros inp w k. apply BossNotifierTick.tick_ledger_recent.
Qed.

Lemma ledger_holds_recent_sent_keys_witness :
  (BossNotifierApp.tick [kzarka] quarter_to_eight_tick
     BossNotifierApp.init_worker).2 = Ok tt
  ∧ kzarka_key ∈ BossNotifierApp.notified_spawn_times
                   (BossNotifierApp.tick [kzarka] quarter_to_eight_tick
                      BossNotifierApp.init_worker).1
  ∧ BossNotifierApp.current_time quarter_to_eight_tick
    - BossNotifierApp.retention < kzarka_key.1.2.
Proof.
  assert (H1 : (BossNotifierApp.tick [kzarka] quarter_to_eight_tick
                  BossNotifierApp.init_worker).2 = Ok tt)
    by by_computation.
  assert (H2 : kzarka_key ∈ BossNotifierApp.notified_spawn_times
                 (BossNotifierApp.tick [kzarka] quarter_to_eight_tick
                    BossNotifierApp.init_worker).1)
    by by_decision.
  split; [exact H1|]. split; [exact H2|].
  exact (proj2 (ledger_holds_recent_sent_keys [kzarka] [])
           quarter_to_eight_tick BossNotifierApp.init_worker kzarka_key
           H1 H2).
Defined.

(** ** Entries that cannot be read *)

Module BossNotifierRaise.
Import BossNotifierApp BossNotifierAux BossNotifierMore BossNotifierTick.

Lemma spawn_candidate_unreadable (sp : spawn) (d : Z) (now : datetime) :
  unreadable_time sp → ∃ e, spawn_candidate sp d now = Raise e.
Proof.
  intros (_ & _ & Hbad). unfold spawn_candidate.
  destruct (parse_hour_minute (time sp)) as [[h m]|e] eqn:Hp;
    [|by exists e].
  cbn. destruct (dt_add now _) as [c|e]; [|by exists e]. cbn.
  destruct (replace_hm c h m) as [c'|e] eqn:Hr; [|by exists e].
  apply replace_hm_Ok in Hr as [Hr _]. destruct (Hbad h m eq_refl Hr).
Qed.

Lemma spawn_loop_unreadable (now : datetime) (sps : list spawn)
    (sp : spawn) :
  sp ∈ sps → unreadable_time sp →
  ∀ acc, ∃ e, spawn_loop now acc sps = Raise e.
Proof.
  intros Hin Hbad. induction sps as [|sp' sps IH]; intros acc.
  { by apply elem_of_nil in Hin. }
  cbn. destruct (spawn_step now acc sp') as [acc'|e] eqn:Hs;
    [|by exists e].
  cbn. apply elem_of_cons in Hin as [<-|Hin]; [|by apply IH].
  exfalso. unfold spawn_step in Hs. pose proof Hbad as ([d Hd] & _).
  rewrite Hd in Hs.
  destruct (spawn_candidate_unreadable sp d now Hbad) as [e He].
  by rewrite He in Hs.
Qed.

Lemma closest_step_raise (now : datetime) (selected : list string)
    (b : boss) (sts : list spawn) (e : exn) acc :
  id b ∈ selected → spawn_times b = Some sts →
  get_next_spawn_time (name b) sts now = Raise e →
  closest_step now selected acc b = Raise e.
Proof.
  intros Hsel Hsts Hg. unfold closest_step.
  rewrite bool_decide_eq_true_2 by done. rewrite Hsts.
  destruct sts as [|sp sts]; [done|]. by rewrite Hg.
Qed.

Lemma closest_loop_raise (now : datetime) (selected : list string)
    (boss_data : list boss) (b : boss) (sts : list spawn) (e : exn) :
  b ∈ boss_data → id b ∈ selected → spawn_times b = Some sts →
  get_next_spawn_time (name b) sts now = Raise e →
  ∀ acc, ∃ e', fold_result (closest_step now selected) acc boss_data
               = Raise e'.
Proof.
  intros Hin Hsel Hsts Hg.
  induction boss_data as [|b' boss_data IH]; intros acc.
  { by apply elem_of_nil in Hin. }
  cbn. destruct (closest_step now selected acc b') as [acc'|e'] eqn:Hs;
    [|by exists e'].
  cbn. apply elem_of_cons in Hin as [<-|Hin]; [|by apply IH].
  by rewrite (closest_step_raise now selected b sts e acc) in Hs.
Qed.

End BossNotifierRaise.

(** X5.  An entry whose day is in [DAY_MAPPING] and whose time, a text of
    ASCII characters, does not read as an hour in 0..23 and a minute in
    0..59 makes
    [get_next_spawn_time] raise, whatever the other entries are; and when a
    selected boss has such an entry the tick raises in its first pass,
    notifications switched on or not, before anything is sent or recorded,
    and the run ends there. *)
Theorem unreadable_time_ends_the_run
    (boss_data : list BossNotifierApp.boss) (b : BossNotifierApp.boss)
    (spawn_times : list BossNotifierApp.spawn) (sp : BossNotifierApp.spawn)
    (inp : BossNotifierApp.tick_input)
    (later : list BossNotifierApp.tick_input) (w : BossNotifierApp.worker) :
  b ∈ boss_data →
  BossNotifierApp.id b ∈ BossNotifierApp.selected_boss_ids inp →
  BossNotifierApp.spawn_times b = Some spawn_times →
  sp ∈ spawn_times → BossNotifierMore.unreadable_time sp →
  (∃ e, BossNotifierApp.get_next_spawn_time (BossNotifierApp.name b)
          spawn_times (BossNotifierApp.current_time inp) = Raise e)
  ∧ (∃ e, BossNotifierApp.tick boss_data inp w = (w, Raise e))
  ∧ (∃ e, BossNotifierApp.run boss_data (inp :: later) w = (w, Raise e)).
Proof.
  intros Hb Hsel Hsts Hsp Hbad.
  destruct (BossNotifierRaise.spawn_loop_unreadable
              (BossNotifierApp.current_time inp) spawn_times sp Hsp Hbad None)
    as [e He].
  destruct (BossNotifierRaise.closest_loop_raise
              (BossNotifierApp.current_time inp)
              (BossNotifierApp.selected_boss_ids inp) boss_data b spawn_times
              e Hb Hsel Hsts He (None, [])) as [e' He'].
  assert (Htick : BossNotifierApp.tick boss_data inp w = (w, Raise e')).
  { rewrite BossNotifierTick.tick_eq.
    unfold BossNotifierApp.closest_bosses. by rewrite He'. }
  split; [by exists e|]. split; [by exists e'|]. exists e'.
  unfold BossNotifierApp.run. by rewrite for_each_cons, Htick.
Qed.

Lemma unreadable_time_ends_the_run_witness :
  (∃ e, BossNotifierApp.get_next_spawn_time (BossNotifierApp.name garmoth)
          [spawn_wednesday_1400; spawn_monday_2400]
          (BossNotifierApp.current_time garmoth_tick) = Raise e)
  ∧ (∃ e, BossNotifierApp.tick [kzarka; garmoth] garmoth_tick
            worker_after_0800 = (worker_after_0800, Raise e))
  ∧ (∃ e, BossNotifierApp.run [kzarka; garmoth] (garmoth_tick :: three_ticks)
            worker_after_0800 = (worker_after_0800, Raise e)).
Proof.
  apply (unreadable_time_ends_the_run [kzarka; garmoth] garmoth
           [spawn_wednesday_1400; spawn_monday_2400] spawn_monday_2400).
  - apply elem_of_cons. right. apply elem_of_cons. by left.
  - by_decision.
  - reflexivity.
  - apply elem_of_cons. right. apply elem_of_cons. by left.
  - split; [exists 0; by_computation|]. split; [by_decision|].
    intros h m Hp. vm_compute in Hp. injection Hp as <- <-. lia.
Defined.

(** ** One notification for a boss in a tick *)

Module BossNotifierCount.
Import BossNotifierApp BossNotifierAux BossNotifierMore BossNotifierTick
  BossNotifierThresholds.

Lemma for_each_length {S A} (size : S → nat) (l : list A)
    (body : A → stM S unit) :
  (∀ x s, (size (body x s).1 ≤ size s + 1)%nat) →
  ∀ s, (size (for_each l body s).1 ≤ size s + length l)%nat.
Proof.
  intros Hbody. induction l as [|x l IH]; intros s; [cbn; lia|].
  rewrite for_each_cons. pose proof (Hbody x s) as Hx.
  destruct (body x s) as [s' [[]|e]]; cbn in *; [|lia].
  specialize (IH s'). lia.
Qed.

Lemma selected_minutes_options (is_checked : Z → bool) :
  Forall (λ m, m ∈ notification_minutes_options)
         (get_selected_notification_minutes is_checked).
Proof.
  apply Forall_forall. intros m Hm.
  by apply list_elem_of_filter in Hm as [_ ?].
Qed.

(** A loop each of whose iterations sends a part that is in the relation
    [R] with its item sends the parts one after the other, those of the
    items it does not reach being empty. *)
Lemma for_each_parts {A} (R : A → list notification → Prop) (l : list A)
    (body : A → stM worker unit) :
  (∀ x, R x []) →
  (∀ x w, ∃ part, sent (body x w).1 = sent w ++ part ∧ R x part) →
  ∀ w, ∃ parts, sent (for_each l body w).1 = sent w ++ concat parts
                ∧ Forall2 R l parts.
Proof.
  intros Hnil Hbody. induction l as [|x l IH]; intros w.
  { exists []. split; [by rewrite app_nil_r | constructor]. }
  rewrite for_each_cons. destruct (Hbody x w) as (part & Hpart & HR).
  destruct (body x w) as [w' [[]|e]]; cbn in Hpart.
  - destruct (IH w') as (parts & Hparts & HRs).
    exists (part :: parts). split; [|by constructor].
    rewrite Hparts, Hpart. cbn. by rewrite app_assoc.
  - exists (part :: ((λ _, []) <$> l)). split.
    + cbn. rewrite Hpart. f_equal.
      assert (Hc : concat ((λ _ : A, @nil notification) <$> l) = []).
      { clear. by induction l. }
      by rewrite Hc, app_nil_r.
    + constructor; [done|]. clear -Hnil.
      induction l; constructor; auto.
Qed.

Lemma notify_boss_part (now : datetime) (selected : list string)
    (minutes : list Z) (b : boss) (w : worker) :
  Forall (λ m, m ∈ notification_minutes_options) minutes →
  ∃ part, sent (notify_boss now selected minutes b w).1 = sent w ++ part
          ∧ own_part b part.
Proof.
  intros Hmin.
  assert (Hnil : ∃ part, sent w = sent w ++ part ∧ own_part b part).
  { exists []. split; [by rewrite app_nil_r|]. split; [cbn; lia|].
    by intros n ?%elem_of_nil. }
  unfold notify_boss. case_bool_decide; [|done].
  destruct (spawn_times b) as [[|sp sts]|]; [done| |done].
  unfold mbind, stM_bind, lift.
  destruct (get_next_spawn_time (name b) (sp :: sts) now) as [[o|]|];
    [|done|done].
  rewrite thresholds_loop_eq by done.
  destruct (find _ minutes) as [m|]; [|done].
  exists [mk_notification (name b) (id b, o, m)]. split; [done|].
  split; [cbn; lia|]. by intros n ->%list_elem_of_singleton.
Qed.

End BossNotifierCount.



(** * Further properties of [app.py] *)

Module AppRows.
Import App AppAux AppFacts AppMore.

Lemma active_bosses_list_elem (s : app) (b : string) :
  b ∈ active_bosses_list s ↔ active_bosses s !! b = Some true.
Proof.
  unfold active_bosses_list. rewrite list_elem_of_fmap. split.
  - intros ([k v] & -> & [Hv Hkv]%list_elem_of_filter). cbn in *. subst v.
    by apply elem_of_map_to_list in Hkv.
  - intros Hb. exists (b, true). split; [done|].
    apply list_elem_of_filter. split; [done|].
    by apply elem_of_map_to_list.
Qed.

Lemma possible_day_names_elem (w : Z) (n : string) :
  n ∈ possible_day_names w ↔ WEEKDAY_MAP !! n = Some w.
Proof.
  unfold possible_day_names. rewrite list_elem_of_fmap. split.
  - intros ([k v] & -> & [Hv Hkv]%list_elem_of_filter). cbn in *. subst v.
    by apply elem_of_map_to_list in Hkv.
  - intros Hb. exists (n, w). split; [done|].
    apply list_elem_of_filter. split; [done|].
    by apply elem_of_map_to_list.
Qed.

Lemma filtered_df_elem (s : app) (rows : list row) (now : datetime)
    (r : row) :
  r ∈ filtered_df s rows now ↔
  r ∈ rows ∧ WEEKDAY_MAP !! Normalized_Day r = Some (weekday now)
  ∧ active_bosses s !! Boss r = Some true.
Proof.
  unfold filtered_df.
  rewrite list_elem_of_filter, possible_day_names_elem,
    active_bosses_list_elem. tauto.
Qed.

Lemma active_notification_times_elem (settings : list (string * bool))
    (times : list Z) (m : Z) :
  active_notification_times settings = Ok times → m ∈ times →
  ∃ k, (k, true) ∈ settings ∧ NOTIFICATION_TIMES !! k = Some m.
Proof.
  revert times. induction settings as [|[k a] settings IH]; intros times; cbn.
  - intros [= <-] ?%elem_of_nil. done.
  - destruct a.
    + destruct (NOTIFICATION_TIMES !! k) as [m'|] eqn:Hk; [|done].
      destruct (active_notification_times settings) as [tl|]; cbn; [|done].
      intros [= <-] [->|Hm]%elem_of_cons.
      * exists k. split; [by left | done].
      * destruct (IH tl eq_refl Hm) as (k' & Hk' & Hn).
        exists k'. split; [by right | done].
    + intros Ht Hm. destruct (IH times Ht Hm) as (k' & Hk' & Hn).
      exists k'. split; [by right | done].
Qed.

Lemma active_notification_times_raise (settings : list (string * bool)) :
  (∃ k, (k, true) ∈ settings ∧ NOTIFICATION_TIMES !! k = None) →
  active_notification_times settings = Raise KeyError.
Proof.
  intros (k & Hk & Hn). induction settings as [|[k' a] settings IH].
  { by apply elem_of_nil in Hk. }
  cbn. apply elem_of_cons in Hk as [[= <- <-]|Hk].
  - by rewrite Hn.
  - destruct a; [|by apply IH].
    destruct (NOTIFICATION_TIMES !! k'); [|done]. by rewrite IH.
Qed.

(** What the loop over the rows may do: show the toast of a due threshold
    of one of its rows, for one of the thresholds in force. *)
Section rows_invariant.
Variable now : datetime.
Variable today_rows : list row.
Variable times : list Z.
Variable P : app → Prop.
Hypothesis P_status : ∀ st s, P s → P (update_status_label st s).
Hypothesis P_fire : ∀ r e m s,
  r ∈ today_rows → m ∈ times → event_datetime_of now r = Ok e →
  in_window m (e - now) = true →
  notifications_sent_today s !! notification_key r m = None →
  P s → P (fire r e m s).

Lemma row_step_rows (acc : option (string * datetime) * timedelta) (r : row)
    (s : app) :
  r ∈ today_rows → P s → P (row_step now times acc r s).1.
Proof.
  intros Hr Hs. unfold row_step. unfold mbind at 1, stM_bind at 1, lift.
  destruct (event_datetime_of now r) as [e|] eqn:He; [|done].
  unfold mbind, stM_bind. rewrite notify_row_eq.
  destruct (find _ _) as [m|] eqn:Hf; [|done]. cbn.
  apply find_some in Hf as [Hm Hdue]. apply list_elem_of_In in Hm.
  apply (proj1 (sorted_reverse_elem _ _)) in Hm.
  unfold due in Hdue. apply andb_true_iff in Hdue as [Hwin Hfresh].
  apply bool_decide_eq_true in Hfresh. by apply P_fire.
Qed.

Lemma rows_loop_rows (rows : list row) :
  (∀ r, r ∈ rows → r ∈ today_rows) →
  ∀ acc s, P s → P (rows_loop now times acc rows s).1.
Proof.
  induction rows as [|r rows IH]; intros Hsub acc s Hs; [done|].
  cbn [rows_loop]. unfold mbind, stM_bind.
  pose proof (row_step_rows acc r s (Hsub r ltac:(left)) Hs) as Hrs.
  destruct (row_step now times acc r s) as [s' [acc'|err]]; [|done].
  apply IH; [|done]. intros r' Hr'. apply Hsub. by right.
Qed.

End rows_invariant.

Lemma check_body_eq (now : datetime) (rows : list row) (s : app) :
  check_body now rows s =
  match active_bosses_list s with
  | [] => (update_status_label StNoActiveBosses s, Ok tt)
  | _ :: _ =>
      match active_notification_times (notification_settings s) with
      | Raise e => (s, Raise e)
      | Ok times =>
          match rows_loop now times (None, td_days 365)
                  (filtered_df s rows now) s with
          | (s', Ok acc) =>
              (update_status_label
                 match acc.1 with
                 | Some (boss_name, next_time) =>
                     StNextEvent boss_name next_time
                 | None => StNoUpcoming
                 end s', Ok tt)
          | (s', Raise e) => (s', Raise e)
          end
      end
  end.
Proof.
  unfold check_body.
  unfold mbind at 1, stM_bind at 1, gets at 1.
  destruct (active_bosses_list s); [done|].
  unfold mbind at 1, stM_bind at 1, gets at 1.
  unfold mbind at 1, stM_bind at 1, gets at 1.
  unfold mbind at 1, stM_bind at 1, lift.
  destruct (active_notification_times (notification_settings s)); [|done].
  unfold mbind, stM_bind.
  by destruct (rows_loop now a _ _ s) as [s' [[[[b t]|] d]|err]].
Qed.

End AppRows.

Module AppToasts.
Import App AppAux AppFacts AppMore AppRows.

Lemma daily_reset_fields (now : datetime) (s : app) :
  let s1 := (daily_reset now s).1 in
  (daily_reset now s).2 = Ok tt
  ∧ active_bosses s1 = active_bosses s
  ∧ notification_settings s1 = notification_settings s
  ∧ toasts s1 = toasts s
  ∧ notifications_sent_today s1 = ledger_at now s.
Proof.
  rewrite daily_reset_eq. unfold ledger_at. by case_bool_decide.
Qed.

Lemma fire_shown (good : toast → Prop) (s0 s : app) (r : row)
    (e : datetime) (m : Z) :
  notifications_sent_today s !! notification_key r m = None →
  good (toast_of r m e) →
  shown_since good s0 s → shown_since good s0 (fire r e m s).
Proof.
  intros Hfresh Hgood (Hsub & new & Ht & Hnew). split; cbn.
  - apply insert_subseteq_r; [|done]. by eapply lookup_weaken_None.
  - exists (new ++ [toast_of r m e]). split; [by rewrite Ht, app_assoc|].
    apply Forall_app. split; [done|]. by constructor.
Qed.

Lemma check_body_shows (now : datetime) (rows : list row) (s0 s1 : app) :
  Forall (λ r, time_valid (Parsed_Time r)) rows →
  active_bosses s1 = active_bosses s0 →
  notification_settings s1 = notification_settings s0 →
  notifications_sent_today s1 = ledger_at now s0 →
  shown_since (toast_in_check rows now s0) s1 (check_body now rows s1).1.
Proof.
  intros Hvalid Hact Hset Hled. rewrite check_body_eq.
  assert (Hrefl : shown_since (toast_in_check rows now s0) s1 s1).
  { split; [done|]. exists []. by rewrite app_nil_r. }
  destruct (active_bosses_list s1) as [|b bs]; [done|].
  destruct (active_notification_times (notification_settings s1))
    as [times|] eqn:Htimes; [|done].
  pose proof (rows_loop_rows now (filtered_df s1 rows now) times
    (shown_since (toast_in_check rows now s0) s1)) as Hloop.
  assert (Hfire : ∀ r e m s,
    r ∈ filtered_df s1 rows now → m ∈ times →
    event_datetime_of now r = Ok e →
    in_window m (e - now) = true →
    notifications_sent_today s !! notification_key r m = None →
    shown_since (toast_in_check rows now s0) s1 s →
    shown_since (toast_in_check rows now s0) s1 (fire r e m s)).
  { intros r e m s Hr Hm He Hwin Hfresh Hs.
    apply fire_shown; [done| |done].
    apply filtered_df_elem in Hr as (Hrows & Hday & Hboss).
    destruct (active_notification_times_elem _ _ m Htimes Hm)
      as (k & Hk & Hn).
    pose proof (NOTIFICATION_TIMES_range k m Hn) as Hrange.
    rewrite Forall_forall in Hvalid.
    apply event_datetime_of_Ok in He. subst e.
    destruct (in_window_today now (Parsed_Time r) m (Hvalid r Hrows)
                Hrange Hwin) as [Heq _].
    rewrite Heq in Hwin |- *.
    exists r, m, k. split; [done|]. split; [done|].
    split; [by rewrite <- Hact|]. split; [done|].
    split; [by rewrite <- Hset|]. split; [done|]. split.
    - unfold in_window, Spec.arming_window in *. cbn zeta in Hwin.
      apply andb_true_iff in Hwin as [H1%Z.leb_le H2%Z.ltb_lt]. lia.
    - rewrite <- Hled. destruct Hs as [Hsub _].
      by eapply lookup_weaken_None. }
  specialize (Hloop Hfire (filtered_df s1 rows now) (λ r Hr, Hr)
                (None, td_days 365) s1 Hrefl).
  by destruct (rows_loop now times _ _ s1) as [s' [acc|e]].
Qed.

End AppToasts.

(** X7.  Whatever a check of [app.py] shows is the toast of a row of the
    sheet whose boss is active and whose day is a name of today's weekday,
    for the minutes of an enabled setting: it announces today's date at the
    row's time, [now] lies in the 30-second window of that threshold, and
    the key was not in the ledger, the ledger counting as empty when the
    recorded date is not today's.  A check while monitoring is stopped
    shows nothing. *)
Theorem check_shows_only_due_toasts
    (s : App.app) (now : datetime) (rows : list App.row) :
  App.df_schedule s = Some rows →
  Forall (λ r, time_valid (App.Parsed_Time r)) rows →
  ∃ new,
    App.toasts (App.check_for_notifications now s).1 = App.toasts s ++ new
    ∧ Forall (AppMore.toast_in_check rows now s) new
    ∧ (App.is_running s = false → new = []).
Proof.
  intros Hdf Hvalid. rewrite AppFacts.check_for_notifications_eq, Hdf.
  destruct rows as [|r rows].
  { exists []. cbn. by rewrite app_nil_r. }
  destruct (App.is_running s); cbn [negb].
  2:{ exists []. cbn. by rewrite app_nil_r. }
  destruct (AppToasts.daily_reset_fields now s)
    as (Hok & Hact & Hset & Htoasts & Hled).
  destruct (App.daily_reset now s) as [s1 [[]|e]]; [|done]. cbn in *.
  destruct (AppToasts.check_body_shows now (r :: rows) s s1 Hvalid Hact Hset
              Hled) as (_ & new & Hnew & Hgood).
  exists new. rewrite Hnew, Htoasts. done.
Qed.

Lemma check_shows_only_due_toasts_witness :
  ∃ new,
    App.toasts (App.check_for_notifications next_monday_0745 running_app).1
    = App.toasts running_app ++ new
    ∧ Forall (AppMore.toast_in_check [row_monday_0800] next_monday_0745
                running_app) new
    ∧ (App.is_running running_app = false → new = []).
Proof.
  apply check_shows_only_due_toasts; [reflexivity|].
  repeat constructor; cbn; lia.
Defined.

Module AppStatus.
Import App AppAux AppFacts AppMore AppRows.

Lemma resolved_bound (now : datetime) (tm : PyDatetime.time) :
  time_valid tm → resolved now tm - now < td_days 365.
Proof.
  intros Hv. pose proof (time_us_bounds _ Hv). pose proof (date_bounds now).
  unfold resolved, combine, td_weeks, td_days in *. cbn zeta.
  rewrite US_PER_DAY_eq in *. destruct (_ <? _); lia.
Qed.

Lemma next_inv_weaken (now : datetime) (seen : list row) (r : row)
    (acc : option (string * datetime) * timedelta) :
  (∀ e, event_datetime_of now r = Ok e → now < e → acc.2 ≤ e - now) →
  next_inv now seen acc → next_inv now (seen ++ [r]) acc.
Proof.
  intros Hr [Hacc Hmin]. split.
  - destruct acc as [[[b t]|] d]; [|done]. cbn in *.
    destruct Hacc as (Hd & Hlt & r' & Hr' & Hb & He).
    split; [done|]. split; [done|]. exists r'.
    split; [|done]. apply elem_of_app. by left.
  - intros r' e [Hr'|Hr']%elem_of_app; [by apply Hmin|].
    apply list_elem_of_singleton in Hr' as ->. apply Hr.
Qed.

Lemma row_step_acc (now : datetime) (times : list Z) (seen : list row)
    (acc acc' : option (string * datetime) * timedelta) (r : row)
    (s s' : app) :
  row_step now times acc r s = (s', Ok acc') →
  next_inv now seen acc → next_inv now (seen ++ [r]) acc'.
Proof.
  unfold row_step. unfold mbind at 1, stM_bind at 1, lift.
  destruct (event_datetime_of now r) as [e|] eqn:He; [|done].
  unfold mbind, stM_bind. rewrite notify_row_eq.
  intros Hstep Hinv.
  assert (Hacc' : acc' = if (0 <? e - now) && (e - now <? acc.2)
                         then (Some (Boss r, e), e - now) else acc).
  { destruct (find _ _); cbn in Hstep; by injection Hstep as _ <-. }
  subst acc'. clear Hstep.
  destruct (Z.ltb_spec 0 (e - now)) as [Hpos|Hpos]; cbn [andb].
  - destruct (Z.ltb_spec (e - now) acc.2) as [Hlt|Hlt].
    + destruct Hinv as [_ Hmin]. split; cbn.
      * split; [done|]. split; [lia|]. exists r.
        split; [|done]. apply elem_of_app. right. by left.
      * intros r' e' [Hr'|Hr']%elem_of_app He' Hfut.
        -- specialize (Hmin r' e' Hr' He' Hfut). lia.
        -- apply list_elem_of_singleton in Hr' as ->.
           rewrite He in He'. injection He' as <-. lia.
    + apply next_inv_weaken; [|done].
      intros e' He'. rewrite He in He'. injection He' as <-. lia.
  - apply next_inv_weaken; [|done].
    intros e' He'. rewrite He in He'. injection He' as <-. lia.
Qed.

Lemma rows_loop_acc (now : datetime) (times : list Z) (rows : list row) :
  ∀ (seen : list row) (acc acc' : option (string * datetime) * timedelta)
    (s s' : app),
  rows_loop now times acc rows s = (s', Ok acc') →
  next_inv now seen acc → next_inv now (seen ++ rows) acc'.
Proof.
  induction rows as [|r rows IH]; intros seen acc acc' s s'.
  - cbn. intros [= _ <-]. by rewrite app_nil_r.
  - cbn [rows_loop]. unfold mbind, stM_bind.
    destruct (row_step now times acc r s) as [s1 [acc1|err]] eqn:Hstep;
      [|done].
    intros Hloop Hinv.
    replace (seen ++ r :: rows) with ((seen ++ [r]) ++ rows)
      by (by rewrite <- app_assoc).
    eapply IH; [done|]. by eapply row_step_acc.
Qed.

Lemma filtered_df_active (s s1 : app) (rows : list row) (now : datetime) :
  active_bosses s1 = active_bosses s →
  filtered_df s1 rows now = filtered_df s rows now.
Proof.
  intros H. unfold filtered_df, active_bosses_list. by rewrite H.
Qed.

Lemma check_body_status (now : datetime) (rows : list row) (s1 : app) :
  Forall (λ r, time_valid (Parsed_Time r)) rows →
  (check_body now rows s1).2 = Ok tt →
  match active_bosses_list s1 with
  | [] => status_label (check_body now rows s1).1 = StNoActiveBosses
  | _ :: _ =>
      status_in_check (filtered_df s1 rows now) now
        (status_label (check_body now rows s1).1)
  end.
Proof.
  intros Hvalid. rewrite check_body_eq.
  destruct (active_bosses_list s1) as [|b bs]; [done|].
  destruct (active_notification_times (notification_settings s1))
    as [times|]; [|done].
  destruct (rows_loop now times (None, td_days 365)
              (filtered_df s1 rows now) s1) as [s' [acc|err]] eqn:Hloop;
    [|done].
  intros _. cbn.
  apply (rows_loop_acc now times _ []) in Hloop.
  2:{ split; [done|]. by intros r e ?%elem_of_nil. }
  rewrite app_nil_l in Hloop. destruct Hloop as [Hacc Hmin].
  destruct acc as [[[boss_name next_time]|] d]; cbn in *.
  - destruct Hacc as (-> & Hlt & Hr). split; [done|]. split; [done|].
    intros r e Hr' He Hfut. specialize (Hmin r e Hr' He Hfut). lia.
  - subst d. intros r e Hr He.
    destruct (Z.le_gt_cases e now) as [|Hfut]; [done|]. exfalso.
    specialize (Hmin r e Hr He ltac:(lia)).
    apply filtered_df_elem in Hr as (Hrows & _).
    rewrite Forall_forall in Hvalid.
    pose proof (resolved_bound now _ (Hvalid r Hrows)).
    apply event_datetime_of_Ok in He. lia.
Qed.

End AppStatus.



(** X9.  [app.py] looks every enabled setting up in [NOTIFICATION_TIMES]:
    when monitoring runs on a loaded sheet with an active boss and an
    enabled setting has no entry there, the check ends with [KeyError]
    before any row is looked at, and no toast is shown. *)
Theorem unknown_setting_raises_KeyError
    (s : App.app) (now : datetime) (r : App.row) (rows : list App.row)
    (boss setting : string) :
  App.df_schedule s = Some (r :: rows) →
  App.is_running s = true →
  App.active_bosses s !! boss = Some true →
  (setting, true) ∈ App.notification_settings s →
  App.NOTIFICATION_TIMES !! setting = None →
  (App.check_for_notifications now s).2 = Raise KeyError
  ∧ App.toasts (App.check_for_notifications now s).1 = App.toasts s.
Proof.
  intros Hdf Hrun Hboss Hset Hnone.
  rewrite AppFacts.check_for_notifications_eq, Hdf, Hrun. cbn [negb].
  destruct (AppToasts.daily_reset_fields now s)
    as (Hok & Hact & Hsettings & Htoasts & _).
  destruct (App.daily_reset now s) as [s1 [[]|e]]; [|done]. cbn in *.
  rewrite AppRows.check_body_eq.
  assert (Hin : boss ∈ App.active_bosses_list s1).
  { apply AppRows.active_bosses_list_elem. by rewrite Hact. }
  destruct (App.active_bosses_list s1) as [|b bs].
  { by apply elem_of_nil in Hin. }
  rewrite AppRows.active_notification_times_raise; [done|].
  exists setting. by rewrite Hsettings.
Qed.

Lemma unknown_setting_raises_KeyError_witness :
  (App.check_for_notifications monday_0800 mistyped_app).2 = Raise KeyError
  ∧ App.toasts (App.check_for_notifications monday_0800 mistyped_app).1
    = App.toasts mistyped_app.
Proof.
  apply (unknown_setting_raises_KeyError mistyped_app monday_0800
           row_monday_0800 [] "Kzarka" "2_min");
    [reflexivity | reflexivity | by_computation | | by_computation].
  apply elem_of_cons. by left.
Defined.

(** * Further properties: [settings.txt] *)
Module AppSettingsFacts.
Import PyText AppSettings.

Lemma write_text_cons (linesep : list ascii) (c : ascii) (s : list ascii) :
  write_text linesep (c :: s)
  = (if Ascii.eqb c LF then linesep else [c]) ++ write_text linesep s.
Proof. reflexivity. Qed.

Lemma read_back (linesep s : list ascii) :
  linesep = [LF] ∨ linesep = [CR; LF] → CR ∉ s →
  universal_newlines (write_text linesep s) = s.
Proof.
  intros Hsep. induction s as [|c s IH]; [done|].
  intros Hcr. apply not_elem_of_cons in Hcr as [Hc Hs].
  specialize (IH Hs). rewrite write_text_cons.
  destruct (Ascii.eqb_spec c LF) as [->|Hlf].
  - destruct Hsep as [-> | ->]; cbn [app universal_newlines];
      change (Ascii.eqb LF CR) with false; change (Ascii.eqb CR CR) with true;
      change (Ascii.eqb LF LF) with true; cbn iota; by rewrite IH.
  - cbn [app universal_newlines].
    destruct (Ascii.eqb_spec c CR) as [->|_]; [done|]. by rewrite IH.
Qed.

Lemma file_lines_line (l rest : list ascii) :
  LF ∉ l → file_lines (l ++ LF :: rest) = (l ++ [LF]) :: file_lines rest.
Proof.
  induction l as [|c l IH]; [done|].
  intros [Hc Hl]%not_elem_of_cons. cbn.
  destruct (Ascii.eqb_spec c LF) as [->|_]; [done|]. by rewrite IH.
Qed.

Lemma setting_line_body (kv : string * bool) :
  setting_line kv = line_body kv ++ [LF].
Proof.
  unfold setting_line, line_body. cbn [list_ascii_of_string].
  by rewrite <- !app_assoc.
Qed.

Lemma key_ok_spec (k : string) :
  key_ok k = true →
  let l := list_ascii_of_string k in
  ("="%char ∉ l) ∧ (LF ∉ l) ∧ (CR ∉ l)
  ∧ lstrip (l ++ ["="%char]) = l ++ ["="%char].
Proof.
  unfold key_ok. cbn zeta. intros [Hall Hhead]%andb_true_iff.
  rewrite forallb_forall in Hall.
  repeat split.
  1-3: intros Hin%list_elem_of_In%Hall;
       repeat (apply andb_true_iff in Hin as [Hin ?]); done.
  destruct (list_ascii_of_string k) as [|c l]; [done|].
  cbn. by apply negb_true_iff in Hhead as ->.
Qed.

Lemma lstrip_app (l r : list ascii) :
  lstrip l = l → l ≠ [] → lstrip (l ++ r) = l ++ r.
Proof.
  destruct l as [|c l]; [done|]. cbn. intros H _.
  destruct (is_space c); [|done].
  exfalso. assert (Hlen : length (lstrip l) = length (c :: l)) by by rewrite H.
  assert (Hle : ∀ x, (length (lstrip x) ≤ length x)%nat).
  { clear. induction x as [|a x IH]; cbn; [lia|].
    destruct (is_space a); cbn; lia. }
  specialize (Hle l). cbn in Hlen. lia.
Qed.

Lemma strip_line (b : list ascii) (y : ascii) :
  lstrip b = b → b ≠ [] → is_space y = false →
  strip ((b ++ [y]) ++ [LF]) = b ++ [y].
Proof.
  intros Hb Hne Hy. unfold strip.
  rewrite <- app_assoc. rewrite lstrip_app by done.
  rewrite app_assoc, !rev_app_distr. cbn [rev app lstrip].
  change (is_space LF) with true. cbn iota. rewrite Hy.
  cbn [rev]. by rewrite rev_involutive.
Qed.

Lemma strip_setting_line (kv : string * bool) :
  key_ok kv.1 = true → strip (setting_line kv) = line_body kv.
Proof.
  intros (_ & _ & _ & Hhead)%key_ok_spec. cbn zeta in Hhead.
  rewrite setting_line_body. unfold line_body.
  set (l := list_ascii_of_string kv.1) in *.
  assert (Hne : l ++ ["="%char] ≠ []) by by destruct l.
  destruct kv.2.
  - replace (l ++ "="%char :: str_bool true)
      with (((l ++ ["="%char]) ++ list_ascii_of_string "Tru") ++ ["e"%char])
      by (by rewrite <- !app_assoc).
    apply strip_line; [|by destruct l|done].
    by apply lstrip_app.
  - replace (l ++ "="%char :: str_bool false)
      with (((l ++ ["="%char]) ++ list_ascii_of_string "Fals") ++ ["e"%char])
      by (by rewrite <- !app_assoc).
    apply strip_line; [|by destruct l|done].
    by apply lstrip_app.
Qed.

Lemma split_once_first (l r : list ascii) :
  "="%char ∉ l → split_once "=" (l ++ "="%char :: r) = [l; r].
Proof.
  induction l as [|c l IH]; [done|].
  intros [Hc Hl]%not_elem_of_cons. cbn.
  destruct (Ascii.eqb_spec c "=") as [->|_]; [done|]. by rewrite IH.
Qed.

Lemma line_body_not_header (kv : string * bool) :
  startswith "[" (line_body kv) && endswith "]" (line_body kv) = false.
Proof.
  apply andb_false_iff. right. unfold endswith, line_body.
  change (list_ascii_of_string kv.1 ++ "="%char :: str_bool kv.2)
    with (list_ascii_of_string kv.1 ++ ["="%char] ++ str_bool kv.2).
  rewrite !rev_app_distr. by destruct kv.2.
Qed.

Lemma line_body_contains (kv : string * bool) :
  contains "=" (line_body kv) = true.
Proof.
  unfold contains, line_body. rewrite existsb_app. apply orb_true_iff.
  by right.
Qed.

Lemma lower_str_bool (b : bool) :
  bool_decide (lower (str_bool b) = list_ascii_of_string "true") = b.
Proof. by destruct b. Qed.

Lemma load_line_setting (st : loading) (kv : string * bool) :
  key_ok kv.1 = true →
  load_line st (setting_line kv) =
  if bool_decide (current_section st = Some active_bosses_header) then
    mk_loading (current_section st)
      (dict_set kv.1 kv.2 (l_active_bosses st)) (l_notification_settings st)
  else if bool_decide
            (current_section st = Some notification_settings_header) then
    mk_loading (current_section st) (l_active_bosses st)
      (dict_set kv.1 kv.2 (l_notification_settings st))
  else st.
Proof.
  intros Hk. unfold load_line. cbn zeta. rewrite strip_setting_line by done.
  rewrite line_body_not_header, line_body_contains, !andb_true_r.
  unfold line_body at 1 2. destruct (key_ok_spec _ Hk) as (Heq & _).
  rewrite split_once_first by done.
  by rewrite lower_str_bool, string_of_list_ascii_of_string.
Qed.

Lemma load_line_header (st : loading) (h : list ascii) :
  strip (h ++ [LF]) = h → startswith "[" h && endswith "]" h = true →
  load_line st (h ++ [LF]) =
  mk_loading (Some h) (l_active_bosses st) (l_notification_settings st).
Proof. intros Hs Hh. unfold load_line. cbn zeta. by rewrite Hs, Hh. Qed.

Lemma load_lines_bosses (items : list (string * bool)) :
  ∀ st, Forall (λ k, key_ok k = true) items.*1 →
  current_section st = Some active_bosses_header →
  foldl load_line st (setting_line <$> items) =
  mk_loading (current_section st) (assign (l_active_bosses st) items)
    (l_notification_settings st).
Proof.
  induction items as [|kv items IH]; intros st Hk Hsec.
  { by destruct st. }
  apply Forall_cons in Hk as [Hk Hks]. cbn [fmap list_fmap foldl].
  rewrite load_line_setting by done. rewrite Hsec.
  rewrite bool_decide_eq_true_2 by done.
  rewrite IH by done. done.
Qed.

Lemma load_lines_settings (items : list (string * bool)) :
  ∀ st, Forall (λ k, key_ok k = true) items.*1 →
  current_section st = Some notification_settings_header →
  foldl load_line st (setting_line <$> items) =
  mk_loading (current_section st) (l_active_bosses st)
    (assign (l_notification_settings st) items).
Proof.
  induction items as [|kv items IH]; intros st Hk Hsec.
  { by destruct st. }
  apply Forall_cons in Hk as [Hk Hks]. cbn [fmap list_fmap foldl].
  rewrite load_line_setting by done. rewrite Hsec.
  rewrite bool_decide_eq_false_2 by done.
  rewrite bool_decide_eq_true_2 by done.
  rewrite IH by done. done.
Qed.

Lemma line_body_no_break (kv : string * bool) (c : ascii) :
  c = LF ∨ c = CR → key_ok kv.1 = true → c ∉ line_body kv.
Proof.
  intros Hc (_ & Hlf & Hcr & _)%key_ok_spec. cbn zeta in *.
  unfold line_body. apply not_elem_of_app. split.
  - by destruct Hc as [-> | ->].
  - destruct kv.2; destruct Hc as [-> | ->]; by_decision.
Qed.

Lemma file_lines_items (items : list (string * bool)) (rest : list ascii) :
  Forall (λ k, key_ok k = true) items.*1 →
  file_lines (flat_map setting_line items ++ rest)
  = (setting_line <$> items) ++ file_lines rest.
Proof.
  induction items as [|kv items IH]; [done|].
  intros [Hk Hks]%Forall_cons. cbn [flat_map fmap list_fmap].
  rewrite setting_line_body at 1. rewrite <- !app_assoc. cbn [app].
  rewrite file_lines_line by (apply line_body_no_break; auto).
  rewrite IH by done. by rewrite setting_line_body.
Qed.

Lemma save_settings_no_CR (bosses settings : list (string * bool)) :
  Forall (λ k, key_ok k = true) bosses.*1 →
  Forall (λ k, key_ok k = true) settings.*1 →
  CR ∉ save_settings bosses settings.
Proof.
  intros Hb Hs. unfold save_settings.
  assert (Hitems : ∀ items, Forall (λ k, key_ok k = true) items.*1 →
                            CR ∉ flat_map setting_line items).
  { induction items as [|kv items IH]; [by intros _ ?%elem_of_nil|].
    intros [Hk Hks]%Forall_cons. cbn [flat_map].
    rewrite setting_line_body.
    apply not_elem_of_app. split; [apply not_elem_of_app; split|].
    - apply line_body_no_break; auto.
    - by_decision.
    - by apply IH. }
  apply not_elem_of_app. split; [by_decision|].
  apply not_elem_of_app. split; [by apply Hitems|].
  apply not_elem_of_app. split; [by_decision | by apply Hitems].
Qed.

Lemma load_saved (linesep : list ascii)
    (bosses settings b0 s0 : list (string * bool)) :
  linesep = [LF] ∨ linesep = [CR; LF] →
  Forall (λ k, key_ok k = true) bosses.*1 →
  Forall (λ k, key_ok k = true) settings.*1 →
  load_settings (Some (write_text linesep (save_settings bosses settings)))
    b0 s0
  = (assign b0 bosses, assign s0 settings).
Proof.
  intros Hsep Hb Hs. unfold load_settings.
  rewrite read_back by (done || by apply save_settings_no_CR).
  unfold save_settings.
  rewrite <- (app_assoc active_bosses_header). cbn [app].
  rewrite file_lines_line by by_decision.
  rewrite file_lines_items by done.
  rewrite <- (app_assoc notification_settings_header). cbn [app].
  rewrite file_lines_line by by_decision.
  rewrite <- (app_nil_r (flat_map setting_line settings)).
  rewrite file_lines_items by done. cbn [file_lines]. rewrite app_nil_r.
  cbn [foldl]. rewrite load_line_header by by_computation.
  rewrite foldl_app. rewrite load_lines_bosses by done.
  cbn [foldl]. rewrite load_line_header by by_computation.
  rewrite load_lines_settings by done. done.
Qed.

Lemma dict_get_set (k k' : string) (v : bool) (d : list (string * bool)) :
  dict_get k' (dict_set k v d)
  = if String.eqb k' k then Some v else dict_get k' d.
Proof.
  induction d as [|[k0 v0] d IH]; cbn; [done|].
  destruct (String.eqb_spec k k0) as [->|Hk]; cbn.
  - by destruct (String.eqb_spec k' k0).
  - destruct (String.eqb_spec k' k0) as [->|Hk'].
    + by destruct (String.eqb_spec k0 k) as [->|_].
    + done.
Qed.

Lemma dict_get_None (k : string) (d : list (string * bool)) :
  k ∉ d.*1 → dict_get k d = None.
Proof.
  induction d as [|[k0 v0] d IH]; [done|]. cbn.
  intros [Hk Hd]%not_elem_of_cons.
  destruct (String.eqb_spec k k0); [done | by apply IH].
Qed.

Lemma dict_get_assign (k : string) (items : list (string * bool)) :
  NoDup items.*1 →
  ∀ d, dict_get k (assign d items)
       = match dict_get k items with
         | Some v => Some v
         | None => dict_get k d
         end.
Proof.
  induction items as [|[k0 v0] items IH]; [done|].
  cbn [fmap list_fmap fst]. intros [Hk0 Hnd]%NoDup_cons d.
  unfold assign. cbn [foldl fst snd]. fold (assign (dict_set k0 v0 d) items).
  rewrite IH by done. rewrite dict_get_set. cbn [dict_get].
  destruct (String.eqb_spec k k0) as [->|_]; [|done].
  by rewrite dict_get_None.
Qed.

Lemma dict_set_keys (k : string) (v : bool) (d : list (string * bool)) :
  k ∈ d.*1 → (dict_set k v d).*1 = d.*1.
Proof.
  induction d as [|[k0 v0] d IH]; [by intros ?%elem_of_nil|]. cbn.
  destruct (String.eqb_spec k k0) as [->|Hk]; [done|].
  intros [?|Hin]%elem_of_cons; [done|]. cbn. by rewrite IH.
Qed.

Lemma assign_keys (items : list (string * bool)) :
  ∀ d, (∀ k, k ∈ items.*1 → k ∈ d.*1) → (assign d items).*1 = d.*1.
Proof.
  induction items as [|[k0 v0] items IH]; [done|]. intros d Hsub.
  unfold assign. cbn [foldl fst snd]. fold (assign (dict_set k0 v0 d) items).
  assert (Hk0 : k0 ∈ d.*1) by (apply Hsub; by left).
  rewrite IH; rewrite dict_set_keys by done; [done|].
  intros k Hk. apply Hsub. by right.
Qed.

Lemma dict_ext (d1 d2 : list (string * bool)) :
  d1.*1 = d2.*1 → NoDup d1.*1 →
  (∀ k, k ∈ d1.*1 → dict_get k d1 = dict_get k d2) → d1 = d2.
Proof.
  revert d2. induction d1 as [|[k1 v1] d1 IH]; intros [|[k2 v2] d2]; try done.
  cbn [fmap list_fmap fst]. intros [= <- Hkeys] [Hk1 Hnd]%NoDup_cons Hget.
  pose proof (Hget k1 ltac:(left)) as H1. cbn in H1.
  rewrite String.eqb_refl in H1. injection H1 as <-.
  f_equal. apply IH; [done..|].
  intros k Hk. specialize (Hget k ltac:(by right)). cbn in Hget.
  destruct (String.eqb_spec k k1) as [Heq|_]; [by subst | done].
Qed.

Lemma assign_same_keys (d items : list (string * bool)) :
  d.*1 = items.*1 → NoDup items.*1 → assign d items = items.
Proof.
  intros Hkeys Hnd. apply dict_ext.
  - rewrite assign_keys; [done|]. intros k. by rewrite Hkeys.
  - rewrite assign_keys; [by rewrite Hkeys|]. intros k. by rewrite Hkeys.
  - intros k. rewrite assign_keys by (intros k'; by rewrite Hkeys).
    rewrite Hkeys. intros Hk. rewrite dict_get_assign by done.
    destruct (dict_get k items) eqn:Hget; [done|].
    exfalso. clear -Hk Hget.
    induction items as [|[k0 v0] items IH]; [by apply elem_of_nil in Hk|].
    cbn in *. destruct (String.eqb_spec k k0) as [->|Hne]; [done|].
    apply elem_of_cons in Hk as [?|Hk]; [done | by apply IH].
Qed.

End AppSettingsFacts.

(** X10.  What [save_settings] writes, [load_settings] reads back, whether
    line breaks are written as LF or as CR LF: for keys of ASCII
    characters without ["="], line break or white space in front, every
    saved key has its saved flag in the loaded dict, and every other key of
    the dict keeps the flag it had.  Loading into a dict with the same
    keys in the same order, as [__init__] builds for the notification
    settings, gives the saved dict itself. *)
Theorem saved_settings_load_back
    (linesep : list ascii) (bosses settings b0 s0 : list (string * bool)) :
  linesep = [PyText.LF] ∨ linesep = [PyText.CR; PyText.LF] →
  Forall (λ k, AppSettings.key_ok k = true) bosses.*1 →
  Forall (λ k, AppSettings.key_ok k = true) settings.*1 →
  NoDup bosses.*1 → NoDup settings.*1 →
  let loaded :=
    AppSettings.load_settings
      (Some (PyText.write_text linesep
               (AppSettings.save_settings bosses settings))) b0 s0 in
  (∀ k, AppSettings.dict_get k loaded.1
        = match AppSettings.dict_get k bosses with
          | Some v => Some v
          | None => AppSettings.dict_get k b0
          end)
  ∧ (∀ k, AppSettings.dict_get k loaded.2
          = match AppSettings.dict_get k settings with
            | Some v => Some v
            | None => AppSettings.dict_get k s0
            end)
  ∧ (b0.*1 = bosses.*1 → loaded.1 = bosses)
  ∧ (s0.*1 = settings.*1 → loaded.2 = settings).
Proof.
  intros Hsep Hb Hs Hndb Hnds. cbn zeta.
  rewrite AppSettingsFacts.load_saved by done. cbn [fst snd].
  split; [|split; [|split]].
  - intros k. by apply AppSettingsFacts.dict_get_assign.
  - intros k. by apply AppSettingsFacts.dict_get_assign.
  - intros Hkeys. by apply AppSettingsFacts.assign_same_keys.
  - intros Hkeys. by apply AppSettingsFacts.assign_same_keys.
Qed.

Lemma saved_settings_load_back_witness :
  let loaded :=
    AppSettings.load_settings
      (Some (PyText.write_text [PyText.CR; PyText.LF]
               (AppSettings.save_settings saved_bosses saved_settings)))
      fresh_bosses fresh_settings in
  (∀ k, AppSettings.dict_get k loaded.1
        = match AppSettings.dict_get k saved_bosses with
          | Some v => Some v
          | None => AppSettings.dict_get k fresh_bosses
          end)
  ∧ (∀ k, AppSettings.dict_get k loaded.2
          = match AppSettings.dict_get k saved_settings with
            | Some v => Some v
            | None => AppSettings.dict_get k fresh_settings
            end)
  ∧ (fresh_bosses.*1 = saved_bosses.*1 → loaded.1 = saved_bosses)
  ∧ (fresh_settings.*1 = saved_settings.*1 → loaded.2 = saved_settings).
Proof.
  apply saved_settings_load_back; [by right | | | |].
  - repeat constructor.
  - repeat constructor.
  - by_decision.
  - by_decision.
Defined.

(** * Further properties: starting, stopping and selecting *)
Module AppMonitorFacts.
Import PyText AppSettings AppSettingsFacts AppMonitor.

(** A property that every iteration that ends keeps is kept by a loop that
    ends. *)
Lemma for_each_inv_Ok {S A} (P : S → Prop) (l : list A)
    (body : A → stM S unit) :
  (∀ x s, x ∈ l → P s → (body x s).2 = Ok tt → P (body x s).1) →
  ∀ s, P s → (for_each l body s).2 = Ok tt → P (for_each l body s).1.
Proof.
  induction l as [|x l IH]; intros Hbody s Hs; [done|].
  rewrite for_each_cons.
  pose proof (Hbody x s ltac:(left) Hs) as Hx.
  destruct (body x s) as [s' [[]|e]]; [|done].
  apply IH; [|by apply Hx]. intros y s0 Hy. apply Hbody. by right.
Qed.

Lemma step_consistent (linesep : list ascii) (ev : event) (m : monitor) :
  consistent m → consistent (step linesep ev m).1.
Proof.
  intros Hm. destruct ev as [| |b c|k st]; cbn.
  - unfold start_monitoring. destruct (is_running m) eqn:Hrun; [done|].
    destruct (active_selected_bosses m); [done|].
    destruct (App.active_notification_times _) as [[|t ts]|e];
      [done| |done].
    by unfold consistent.
  - unfold stop_monitoring. destruct (is_running m) eqn:Hrun; [|done].
    destruct Hm as (_ & _ & Hr). destruct (Hr Hrun) as (Ht & _).
    unfold consistent. cbn. by rewrite Ht.
  - done.
  - unfold toggle_notification_setting. cbn.
    by destruct (notification_checkboxes m !! k).
Qed.

Lemma init_consistent (boss_buttons : list string)
    (checkboxes : gmap string string) (start_enabled minimize_enabled : bool)
    (file : option (list ascii)) :
  consistent
    (init_monitor boss_buttons checkboxes start_enabled minimize_enabled file).
Proof. done. Qed.

(** Settings. *)
Lemma active_notification_times_known (d : list (string * bool)) :
  settings_known d ↔ ∃ times, App.active_notification_times d = Ok times.
Proof.
  unfold settings_known. induction d as [|[k a] d IH]; cbn.
  { split; [by exists [] | by intros _ k ?%elem_of_nil]. }
  destruct a.
  - destruct (App.NOTIFICATION_TIMES !! k) as [n|] eqn:Hk.
    + split.
      * intros Hall. destruct (proj1 IH) as [ts Hts].
        { intros k' Hk'. apply Hall. by right. }
        exists (n :: ts). by rewrite Hts.
      * intros [ts Hts] k' [[= ->]|Hk']%elem_of_cons; [by rewrite Hk|].
        destruct (App.active_notification_times d) as [tl|]; [|done].
        by apply (proj2 IH (ex_intro _ tl eq_refl)).
    + split; [|by intros [ts Hts]].
      intros Hall. specialize (Hall k ltac:(left)). rewrite Hk in Hall.
      by destruct Hall.
  - rewrite <- IH. split.
    + intros Hall k' Hk'. apply Hall. by right.
    + intros Hall k' [[=]|Hk']%elem_of_cons. by apply Hall.
Qed.

Lemma dict_set_elem (k k' : string) (v b : bool) (d : list (string * bool)) :
  (k', b) ∈ dict_set k v d → (k' = k ∧ b = v) ∨ (k', b) ∈ d.
Proof.
  induction d as [|[k0 v0] d IH]; cbn.
  - intros [[= -> ->]|?%elem_of_nil]%elem_of_cons; [by left | done].
  - destruct (String.eqb_spec k k0) as [->|Hne].
    + intros [[= -> ->]|Hin]%elem_of_cons; [by left|]. right. by right.
    + intros [[= -> ->]|Hin]%elem_of_cons; [right; by left|].
      destruct (IH Hin) as [?|?]; [by left|]. right. by right.
Qed.

Lemma step_running_known (linesep : list ascii) (ev : event) (m : monitor) :
  (∀ k, is_Some (notification_checkboxes m !! k) →
        is_Some (App.NOTIFICATION_TIMES !! k)) →
  running_known m → (step linesep ev m).2 = Ok tt →
  running_known (step linesep ev m).1.
Proof.
  intros Hcb Hm. destruct ev as [| |b c|k st]; cbn.
  - unfold start_monitoring. destruct (is_running m) eqn:Hrun; [done|].
    destruct (active_selected_bosses m); [by unfold running_known; cbn|].
    destruct (App.active_notification_times _) as [[|t ts]|e] eqn:Ht;
      [by unfold running_known; cbn| |done].
    intros _ _. cbn. apply active_notification_times_known. by eexists.
  - unfold stop_monitoring. destruct (is_running m) eqn:Hrun; cbn; [done|].
    unfold running_known. cbn. by rewrite Hrun.
  - done.
  - unfold toggle_notification_setting. cbn.
    destruct (notification_checkboxes m !! k) as [text|] eqn:Hk; [|done].
    intros _ Hrun. cbn in *. intros k' [[-> _]|Hin]%dict_set_elem.
    + apply Hcb. by rewrite Hk.
    + by apply Hm.
Qed.

Lemma step_checkboxes (linesep : list ascii) (ev : event) (m : monitor) :
  notification_checkboxes (step linesep ev m).1 = notification_checkboxes m.
Proof.
  destruct ev as [| |b c|k st]; cbn.
  - unfold start_monitoring. destruct (is_running m); [done|].
    destruct (active_selected_bosses m); [done|].
    by destruct (App.active_notification_times _) as [[|t ts]|e].
  - unfold stop_monitoring. by destruct (is_running m).
  - done.
  - unfold toggle_notification_setting. cbn.
    by destruct (notification_checkboxes m !! k).
Qed.

(** What a check can raise. *)
Lemma row_step_raise (now : datetime) (times : list Z)
    (acc : option (string * datetime) * timedelta) (r : App.row)
    (s : App.app) (e : exn) :
  (App.row_step now times acc r s).2 = Raise e → e = OverflowError.
Proof.
  unfold App.row_step. unfold mbind at 1, stM_bind at 1, lift.
  unfold App.event_datetime_of, dt_sub, dt_add. cbn zeta.
  destruct (representableb (now + _)); cbn.
  - destruct (_ <? _).
    + destruct (representableb _); cbn.
      * unfold mbind, stM_bind. rewrite AppFacts.notify_row_eq.
        by destruct (find _ _).
      * by intros [= <-].
    + unfold mbind, stM_bind. rewrite AppFacts.notify_row_eq.
      by destruct (find _ _).
  - by intros [= <-].
Qed.

Lemma rows_loop_raise (now : datetime) (times : list Z) (rows : list App.row) :
  ∀ acc s e,
  (App.rows_loop now times acc rows s).2 = Raise e → e = OverflowError.
Proof.
  induction rows as [|r rows IH]; intros acc s e; [done|].
  cbn [App.rows_loop]. unfold mbind, stM_bind.
  pose proof (row_step_raise now times acc r s) as Hr.
  destruct (App.row_step now times acc r s) as [s' [acc'|err]].
  - apply IH.
  - cbn. intros [= <-]. by apply Hr.
Qed.

Lemma check_KeyError (now : datetime) (a : App.app) :
  (App.check_for_notifications now a).2 = Raise KeyError →
  App.is_running a = true
  ∧ ¬ settings_known (App.notification_settings a).
Proof.
  rewrite AppFacts.check_for_notifications_eq.
  destruct (App.df_schedule a) as [[|r rows]|]; [done| |done].
  destruct (App.is_running a); [|done]. cbn [negb].
  destruct (AppToasts.daily_reset_fields now a) as (Hok & _ & Hset & _).
  destruct (App.daily_reset now a) as [s1 [[]|e]]; [|done]. cbn in Hset.
  rewrite AppRows.check_body_eq.
  destruct (App.active_bosses_list s1); [done|].
  rewrite Hset.
  destruct (App.active_notification_times (App.notification_settings a))
    as [times|e] eqn:Ht.
  - pose proof (rows_loop_raise now times (App.filtered_df s1 (r :: rows) now)
                  (None, td_days 365) s1) as Hr.
    destruct (App.rows_loop _ _ _ _ _) as [s' [acc|e]]; [done|].
    cbn. intros [= ->]. by specialize (Hr KeyError eq_refl).
  - intros _. split; [done|].
    intros [ts Hts]%active_notification_times_known. by rewrite Ht in Hts.
Qed.

End AppMonitorFacts.

(** X11.  Through a session of [app.py], whatever the user starts, stops
    or selects and whether or not a call raises, the scheduler is paused
    exactly when monitoring is off, the stop button is enabled exactly when
    it is on, and while it is on the thread runs, the start button is
    disabled and the tray button enabled. *)
Theorem session_keeps_scheduler_consistent
    (linesep : list ascii) (boss_buttons : list string)
    (checkboxes : gmap string string) (start_enabled minimize_enabled : bool)
    (file : option (list ascii)) (events : list AppMonitor.event) :
  AppMonitor.consistent
    (AppMonitor.session linesep events
       (AppMonitor.init_monitor boss_buttons checkboxes start_enabled
          minimize_enabled file)).1.
Proof.
  unfold AppMonitor.session. apply for_each_inv.
  - intros ev m _. apply AppMonitorFacts.step_consistent.
  - apply AppMonitorFacts.init_consistent.
Qed.

(** X12.  When every checkbox stands for a key of [NOTIFICATION_TIMES],
    a session in which no call raised leaves monitoring on only with
    enabled settings that all have their minutes there: [start_monitoring]
    raises [KeyError] otherwise and leaves monitoring off.  So a check on
    these settings never raises [KeyError]. *)
Theorem started_session_has_known_settings
    (linesep : list ascii) (boss_buttons : list string)
    (checkboxes : gmap string string) (start_enabled minimize_enabled : bool)
    (file : option (list ascii)) (events : list AppMonitor.event) :
  (∀ k, is_Some (checkboxes !! k) → is_Some (App.NOTIFICATION_TIMES !! k)) →
  (AppMonitor.session linesep events
     (AppMonitor.init_monitor boss_buttons checkboxes start_enabled
        minimize_enabled file)).2 = Ok tt →
  let m :=
    (AppMonitor.session linesep events
       (AppMonitor.init_monitor boss_buttons checkboxes start_enabled
          minimize_enabled file)).1 in
  (AppMonitor.is_running m = true →
   AppMonitor.settings_known (AppMonitor.notification_settings m))
  ∧ ∀ (a : App.app) (now : datetime),
      App.is_running a = AppMonitor.is_running m →
      App.notification_settings a = AppMonitor.notification_settings m →
      (App.check_for_notifications now a).2 ≠ Raise KeyError.
Proof.
  intros Hcb Hok. cbn zeta.
  assert (Hinv :
    (λ m, AppMonitor.notification_checkboxes m = checkboxes
          ∧ AppMonitor.running_known m)
      (AppMonitor.session linesep events
         (AppMonitor.init_monitor boss_buttons checkboxes start_enabled
            minimize_enabled file)).1).
  { unfold AppMonitor.session in *.
    apply AppMonitorFacts.for_each_inv_Ok; [|done|done].
    intros ev m _ [Hc Hk] Hstep. split.
    - by rewrite AppMonitorFacts.step_checkboxes.
    - apply AppMonitorFacts.step_running_known; [by rewrite Hc|done..]. }
  destruct Hinv as [_ Hknown]. split; [done|].
  intros a now Hrun Hset [Ha Hnot]%AppMonitorFacts.check_KeyError.
  apply Hnot. rewrite Hset. apply Hknown. by rewrite <- Hrun.
Qed.

Lemma started_session_has_known_settings_witness :
  let m :=
    (AppMonitor.session [PyText.CR; PyText.LF] a_session
       (AppMonitor.init_monitor ["Kzarka"%string] two_checkboxes true
          false None)).1 in
  (AppMonitor.is_running m = true →
   AppMonitor.settings_known (AppMonitor.notification_settings m))
  ∧ ∀ (a : App.app) (now : datetime),
      App.is_running a = AppMonitor.is_running m →
      App.notification_settings a = AppMonitor.notification_settings m →
      (App.check_for_notifications now a).2 ≠ Raise KeyError.
Proof.
  apply started_session_has_known_settings; [|by_computation].
  intros k [t Hk]. unfold two_checkboxes in Hk.
  apply lookup_insert_Some in Hk as [[<- _]|[_ Hk]]; [by exists 15|].
  apply lookup_singleton_Some in Hk as [<- _]. by exists 5.
Defined.

Module AppRestart.
Import PyText AppSettings AppSettingsFacts AppMonitor AppMonitorFacts.

Lemma step_file (linesep : list ascii) (ev : event) (m : monitor) :
  file_current linesep m ∨ is_toggle ev = true →
  (step linesep ev m).2 = Ok tt →
  file_current linesep (step linesep ev m).1.
Proof.
  destruct ev as [| |b c|k st]; cbn.
  - intros [Hf|?]; [|done]. unfold start_monitoring.
    destruct (is_running m); [done|].
    destruct (active_selected_bosses m); [done|].
    by destruct (App.active_notification_times _) as [[|t ts]|e].
  - intros [Hf|?]; [|done]. unfold stop_monitoring.
    by destruct (is_running m).
  - done.
  - intros _. unfold toggle_notification_setting. cbn.
    by destruct (notification_checkboxes m !! k).
Qed.

Lemma session_file (linesep : list ascii) (events : list event) :
  ∀ m, file_current linesep m ∨ existsb is_toggle events = true →
  (session linesep events m).2 = Ok tt →
  file_current linesep (session linesep events m).1.
Proof.
  unfold session. induction events as [|ev events IH]; intros m.
  { by intros [?|?]. }
  rewrite for_each_cons. cbn [existsb]. intros Hm.
  pose proof (step_file linesep ev m) as Hstep.
  destruct (step linesep ev m) as [m' [[]|e]]; [|done].
  apply IH. rewrite orb_true_iff in Hm.
  destruct Hm as [?|[?|?]]; [left | left | by right];
    (apply Hstep; [tauto | done]).
Qed.

Lemma dict_set_keys_new (k : string) (v : bool) (d : list (string * bool)) :
  k ∉ d.*1 → (dict_set k v d).*1 = d.*1 ++ [k].
Proof.
  induction d as [|[k0 v0] d IH]; [done|]. cbn.
  intros [Hk Hd]%not_elem_of_cons.
  destruct (String.eqb_spec k k0) as [->|_]; [done|]. cbn. by rewrite IH.
Qed.

Lemma dict_set_extends (base d : list (string * bool)) (k : string)
    (v : bool) :
  extends base d → extends base (dict_set k v d).
Proof.
  intros [Hnd Hsub]. destruct (decide (k ∈ d.*1)) as [Hk|Hk].
  - unfold extends. by rewrite dict_set_keys.
  - unfold extends. rewrite dict_set_keys_new by done. split.
    + apply NoDup_app. split; [done|]. split; [|apply NoDup_singleton].
      intros x Hx ->%list_elem_of_singleton. done.
    + intros k' Hk'. apply elem_of_app. left. by apply Hsub.
Qed.

Lemma load_line_extends (bb bs : list (string * bool)) (st : loading)
    (raw : list ascii) :
  extends bb (l_active_bosses st) ∧ extends bs (l_notification_settings st) →
  extends bb (l_active_bosses (load_line st raw))
  ∧ extends bs (l_notification_settings (load_line st raw)).
Proof.
  intros [Hb Hs]. unfold load_line. cbn zeta.
  destruct (startswith _ _ && endswith _ _); [done|].
  destruct (bool_decide _ && contains _ _).
  { destruct (split_once _ _) as [|x [|y [|z l]]]; try done.
    cbn. split; [by apply dict_set_extends | done]. }
  destruct (bool_decide _ && contains _ _); [|done].
  destruct (split_once _ _) as [|x [|y [|z l]]]; try done.
  cbn. split; [done | by apply dict_set_extends].
Qed.

Lemma load_settings_extends (file : option (list ascii))
    (bb bs b0 s0 : list (string * bool)) :
  extends bb b0 → extends bs s0 →
  extends bb (load_settings file b0 s0).1
  ∧ extends bs (load_settings file b0 s0).2.
Proof.
  intros Hb Hs. destruct file as [content|]; [|done]. cbn.
  generalize (file_lines (universal_newlines content)).
  intros lines.
  assert (H : extends bb (l_active_bosses (mk_loading None b0 s0))
              ∧ extends bs (l_notification_settings (mk_loading None b0 s0)))
    by done.
  revert H. generalize (mk_loading None b0 s0).
  induction lines as [|raw lines IH]; intros st Hst; [done|].
  cbn [foldl]. apply IH. by apply load_line_extends.
Qed.

Lemma step_extends (linesep : list ascii) (bb bs : list (string * bool))
    (ev : event) (m : monitor) :
  extends bb (active_bosses m) ∧ extends bs (notification_settings m) →
  extends bb (active_bosses (step linesep ev m).1)
  ∧ extends bs (notification_settings (step linesep ev m).1).
Proof.
  intros [Hb Hs]. destruct ev as [| |b c|k st]; cbn.
  - unfold start_monitoring. destruct (is_running m); [done|].
    destruct (active_selected_bosses m); [done|].
    by destruct (App.active_notification_times _) as [[|t ts]|e].
  - unfold stop_monitoring. by destruct (is_running m).
  - split; [by apply dict_set_extends | done].
  - unfold toggle_notification_setting. cbn.
    destruct (notification_checkboxes m !! k); cbn;
      (split; [done | by apply dict_set_extends]).
Qed.

Lemma buttons_extends (boss_buttons : list string) :
  ∀ d, NoDup d.*1 →
  extends (foldl (λ d boss_name, dict_set boss_name false d) d boss_buttons)
          (foldl (λ d boss_name, dict_set boss_name false d) d boss_buttons).
Proof.
  induction boss_buttons as [|b bs IH]; intros d Hd; [by split|].
  cbn [foldl]. apply IH.
  by apply (dict_set_extends d d b false (conj Hd (λ k Hk, Hk))).
Qed.

Lemma dict_get_in (k : string) (d : list (string * bool)) :
  dict_get k d = None → k ∉ d.*1.
Proof.
  induction d as [|[k0 v0] d IH]; [by intros _ ?%elem_of_nil|]. cbn.
  destruct (String.eqb_spec k k0) as [->|Hne]; [done|].
  intros Hd. apply not_elem_of_cons. split; [done | by apply IH].
Qed.

Lemma load_saved_extends (linesep : list ascii)
    (bosses settings b0 s0 : list (string * bool)) (k : string) :
  linesep = [LF] ∨ linesep = [CR; LF] →
  Forall (λ k, key_ok k = true) bosses.*1 →
  Forall (λ k, key_ok k = true) settings.*1 →
  extends b0 bosses → extends s0 settings →
  let loaded :=
    load_settings (Some (write_text linesep (save_settings bosses settings)))
      b0 s0 in
  dict_get k loaded.1 = dict_get k bosses
  ∧ dict_get k loaded.2 = dict_get k settings.
Proof.
  intros Hsep Hkb Hks [Hndb Hb] [Hnds Hs]. cbn zeta.
  rewrite load_saved by done. cbn [fst snd].
  rewrite !dict_get_assign by done. split.
  - destruct (dict_get k bosses) eqn:Hget; [done|].
    apply dict_get_None. intros Hin. by apply dict_get_in in Hget; auto.
  - destruct (dict_get k settings) eqn:Hget; [done|].
    apply dict_get_None. intros Hin. by apply dict_get_in in Hget; auto.
Qed.

End AppRestart.

(** X13.  Every selection ends in [save_settings], so after a session in
    which the user selected something and no call raised, [settings.txt]
    holds the two dicts as they are, and the next start of the program
    finds every flag as the session left it: the active bosses and the
    notification settings that [__init__] loads from the file give, for
    every key, what the dicts of the session give.  The keys are ASCII
    without ["="], line break or white space in front. *)
Theorem next_session_finds_selection
    (linesep : list ascii) (boss_buttons : list string)
    (checkboxes : gmap string string) (start_enabled minimize_enabled : bool)
    (file : option (list ascii)) (events : list AppMonitor.event) :
  linesep = [PyText.LF] ∨ linesep = [PyText.CR; PyText.LF] →
  (AppMonitor.session linesep events
     (AppMonitor.init_monitor boss_buttons checkboxes start_enabled
        minimize_enabled file)).2 = Ok tt →
  existsb AppMonitor.is_toggle events = true →
  let m :=
    (AppMonitor.session linesep events
       (AppMonitor.init_monitor boss_buttons checkboxes start_enabled
          minimize_enabled file)).1 in
  Forall (λ k, AppSettings.key_ok k = true) (AppMonitor.active_bosses m).*1 →
  Forall (λ k, AppSettings.key_ok k = true)
    (AppMonitor.notification_settings m).*1 →
  let m' :=
    AppMonitor.init_monitor boss_buttons checkboxes start_enabled
      minimize_enabled (AppMonitor.settings_txt m) in
  AppMonitor.file_current linesep m
  ∧ (∀ k, AppSettings.dict_get k (AppMonitor.active_bosses m')
          = AppSettings.dict_get k (AppMonitor.active_bosses m))
  ∧ (∀ k, AppSettings.dict_get k (AppMonitor.notification_settings m')
          = AppSettings.dict_get k (AppMonitor.notification_settings m)).
Proof.
  intros Hsep Hok Htoggle m Hkb Hks m'.
  assert (Hfile : AppMonitor.file_current linesep m).
  { apply AppRestart.session_file; [by right | done]. }
  split; [done|].
  set (bb := foldl (λ d boss_name, AppSettings.dict_set boss_name false d)
               [] boss_buttons).
  set (bs := App.notification_settings App.init_app).
  assert (Hbb : AppSettings.extends bb bb).
  { apply AppRestart.buttons_extends. constructor. }
  assert (Hbs : AppSettings.extends bs bs).
  { split; [by_decision | done]. }
  assert (Hext : AppSettings.extends bb (AppMonitor.active_bosses m)
                 ∧ AppSettings.extends bs (AppMonitor.notification_settings m)).
  { subst m. unfold AppMonitor.session.
    apply (for_each_inv
             (λ m, AppSettings.extends bb (AppMonitor.active_bosses m)
                   ∧ AppSettings.extends bs
                       (AppMonitor.notification_settings m))).
    - intros ev m0 _. apply AppRestart.step_extends.
    - cbn. by apply AppRestart.load_settings_extends. }
  destruct Hext as [Hb Hs].
  subst m'. unfold AppMonitor.init_monitor. cbn [AppMonitor.active_bosses
    AppMonitor.notification_settings]. rewrite Hfile.
  split; intros k;
    by destruct (AppRestart.load_saved_extends linesep
                   (AppMonitor.active_bosses m)
                   (AppMonitor.notification_settings m) bb bs k).
Qed.

Lemma next_session_finds_selection_witness :
  let m :=
    (AppMonitor.session [PyText.CR; PyText.LF] a_session
       (AppMonitor.init_monitor ["Kzarka"%string] two_checkboxes true
          false None)).1 in
  let m' :=
    AppMonitor.init_monitor ["Kzarka"%string] two_checkboxes true
      false (AppMonitor.settings_txt m) in
  AppMonitor.file_current [PyText.CR; PyText.LF] m
  ∧ (∀ k, AppSettings.dict_get k (AppMonitor.active_bosses m')
          = AppSettings.dict_get k (AppMonitor.active_bosses m))
  ∧ (∀ k, AppSettings.dict_get k (AppMonitor.notification_settings m')
          = AppSettings.dict_get k (AppMonitor.notification_settings m)).
Proof.
  apply next_session_finds_selection;
    [by right | by_computation | reflexivity | by_decision | by_decision].
Defined.

(** * The thresholds in a tick and in a check *)

Module BossNotifierDue.
Import BossNotifierApp BossNotifierAux BossNotifierMore BossNotifierGate
  BossNotifierTick BossNotifierThresholds.

(** The loop over the minutes, for a boss whose next spawn is [o]: every
    due threshold fires, in the order of the minutes. *)
Lemma thresholds_loop_due (boss_id boss_name : string) (o now : datetime)
    (ledger : gset notification_key) (minutes : list Z) :
  NoDup minutes →
  ∀ w,
  (∀ m, m ∈ minutes →
        (boss_id, o, m) ∈ notified_spawn_times w ↔ (boss_id, o, m) ∈ ledger) →
  ∃ w',
    for_each minutes (notify_threshold boss_id boss_name o (o - now)) w
    = (w', Ok tt)
    ∧ sent w'
      = sent w
        ++ ((λ m, mk_notification boss_name (boss_id, o, m)) <$>
              filter (λ m, Spec.arming_window o m window_width now
                           ∧ (boss_id, o, m) ∉ ledger) minutes)
    ∧ ∀ k : notification_key,
        k.1.1 ≠ boss_id →
        (k ∈ notified_spawn_times w' ↔ k ∈ notified_spawn_times w).
Proof.
  induction 1 as [|m minutes Hm Hnd IH]; intros w Hagree.
  { exists w. split; [done|]. split; [by rewrite app_nil_r | done]. }
  rewrite for_each_cons, notify_threshold_eq.
  assert (Hkey : (boss_id, o, m) ∉ notified_spawn_times w
                 ↔ (boss_id, o, m) ∉ ledger).
  { by rewrite (Hagree m) by left. }
  destruct (in_window m (o - now)) eqn:Hwin; cbn [andb].
  - apply in_window_spec in Hwin. case_bool_decide as Hfresh.
    + destruct (IH (fire boss_name (boss_id, o, m) w)) as (w' & Hw' & Hs & Hl).
      { intros m' Hm'. cbn. rewrite elem_of_union, elem_of_singleton.
        rewrite <- (Hagree m') by (by right). split; [|by right].
        intros [[= ->]|?]; [done | done]. }
      exists w'. split; [done|]. split.
      * rewrite Hs. cbn [fire sent].
        rewrite filter_cons_True by (split; [done | by apply Hkey]).
        cbn. by rewrite <- app_assoc.
      * intros k Hk. rewrite (Hl k Hk). cbn.
        rewrite elem_of_union, elem_of_singleton. split; [|by right].
        intros [->|?]; [done | done].
    + destruct (IH w) as (w' & Hw' & Hs & Hl).
      { intros m' Hm'. apply Hagree. by right. }
      exists w'. split; [done|]. split; [|done].
      rewrite Hs. rewrite filter_cons_False; [done|].
      intros [_ Hn]. apply Hn. apply (Hagree m); [by left | done].
  - destruct (IH w) as (w' & Hw' & Hs & Hl).
    { intros m' Hm'. apply Hagree. by right. }
    exists w'. split; [done|]. split; [|done].
    rewrite Hs. rewrite filter_cons_False; [done|].
    intros [Hwin' _]. apply in_window_spec in Hwin'. congruence.
Qed.

(** The notification pass over one entry of [boss_data]. *)
Lemma notify_boss_due (now : datetime) (selected : list string)
    (minutes : list Z) (ledger : gset notification_key) (b : boss)
    (w : worker) :
  NoDup minutes →
  (∀ k : notification_key,
     k.1.1 = id b → (k ∈ notified_spawn_times w ↔ k ∈ ledger)) →
  (notify_boss now selected minutes b w).2 = Ok tt →
  sent (notify_boss now selected minutes b w).1
  = sent w ++ due_notifications now selected minutes ledger b
  ∧ ∀ k : notification_key,
      k.1.1 ≠ id b →
      (k ∈ notified_spawn_times (notify_boss now selected minutes b w).1
       ↔ k ∈ notified_spawn_times w).
Proof.
  intros Hnd Hagree. unfold notify_boss, due_notifications, next_spawn_of.
  case_bool_decide as Hsel; [|by rewrite app_nil_r].
  destruct (spawn_times b) as [[|sp sts]|]; [by rewrite app_nil_r|
                                              |by rewrite app_nil_r].
  unfold mbind, stM_bind, lift.
  destruct (get_next_spawn_time (name b) (sp :: sts) now) as [[o|]|];
    [|by rewrite app_nil_r|done].
  intros _.
  destruct (thresholds_loop_due (id b) (name b) o now ledger minutes Hnd w)
    as (w' & Hw' & Hs & Hl).
  { intros m _. by apply Hagree. }
  rewrite Hw'. by split.
Qed.

(** The notification pass over [boss_data]. *)
Lemma notify_loop_due (now : datetime) (selected : list string)
    (minutes : list Z) (ledger : gset notification_key)
    (boss_data : list boss) :
  NoDup minutes → NoDup (id <$> boss_data) →
  ∀ w,
  (∀ b (k : notification_key),
     b ∈ boss_data → k.1.1 = id b →
     (k ∈ notified_spawn_times w ↔ k ∈ ledger)) →
  (for_each boss_data (notify_boss now selected minutes) w).2 = Ok tt →
  sent (for_each boss_data (notify_boss now selected minutes) w).1
  = sent w ++ flat_map (due_notifications now selected minutes ledger)
                boss_data.
Proof.
  intros Hnd. induction boss_data as [|b boss_data IH];
    intros Hids w Hagree; [by rewrite app_nil_r|].
  cbn [fmap list_fmap] in Hids. apply NoDup_cons in Hids as [Hb Hids].
  rewrite for_each_cons.
  pose proof (notify_boss_due now selected minutes ledger b w Hnd
                (λ k, Hagree b k ltac:(left))) as Hstep.
  destruct (notify_boss now selected minutes b w) as [w1 [[]|e]]; [|done].
  destruct (Hstep eq_refl) as [Hs Hl]. cbn in Hs, Hl.
  intros Hok. rewrite IH; [|done| |done].
  - rewrite Hs. cbn [flat_map]. by rewrite <- app_assoc.
  - intros b' k Hb' Hk. rewrite Hl.
    + apply (Hagree b'); [by right | done].
    + rewrite Hk. intros Heq. apply Hb.
      rewrite <- Heq. apply list_elem_of_fmap. by exists b'.
Qed.

Lemma tick_due (boss_data : list boss) (inp : tick_input) (w : worker) :
  is_active inp = true →
  NoDup (selected_minutes inp) → NoDup (id <$> boss_data) →
  (tick boss_data inp w).2 = Ok tt →
  sent (tick boss_data inp w).1
  = sent w
    ++ flat_map (due_notifications (current_time inp) (selected_boss_ids inp)
                   (selected_minutes inp) (notified_spawn_times w))
         boss_data.
Proof.
  intros Hact Hnd Hids. rewrite tick_eq.
  destruct (closest_bosses _ _ _) as [info|]; [|done].
  cbn zeta. rewrite Hact. set (w1 := mk_worker _ _ _).
  pose proof (notify_loop_due (current_time inp) (selected_boss_ids inp)
                (selected_minutes inp) (notified_spawn_times w) boss_data
                Hnd Hids w1 (λ b k _ _, reflexivity _)) as Hloop.
  destruct (for_each boss_data _ w1) as [w2 [[]|e]]; [|done].
  intros _. destruct (prune_sent (current_time inp) w2) as [-> _].
  pose proof (Hloop eq_refl) as Hl. cbn in Hl. by rewrite Hl.
Qed.

(** For minutes among the options, an entry sends at most one
    notification. *)
Lemma due_notifications_at_most_one (now : datetime)
    (selected : list string) (minutes : list Z)
    (ledger : gset notification_key) (b : boss) :
  NoDup minutes →
  Forall (λ m, m ∈ notification_minutes_options) minutes →
  (length (due_notifications now selected minutes ledger b) ≤ 1)%nat.
Proof.
  intros Hnd Hopt. unfold due_notifications.
  destruct (next_spawn_of now selected b) as [[nm o]|]; [|cbn; lia].
  rewrite length_fmap.
  set (P := λ m, Spec.arming_window o m window_width now
                 ∧ (id b, o, m) ∉ ledger).
  assert (Hone : ∀ m1 m2, m1 ∈ filter P minutes → m2 ∈ filter P minutes →
                          m1 = m2).
  { intros m1 m2 [[H1 _] Hm1]%list_elem_of_filter
                 [[H2 _] Hm2]%list_elem_of_filter.
    rewrite Forall_forall in Hopt.
    apply (windows_disjoint m1 m2 (o - now)); auto;
      by apply in_window_spec. }
  pose proof (NoDup_filter P _ Hnd) as Hndf.
  destruct (filter P minutes) as [|m1 [|m2 l]]; [cbn; lia | cbn; lia |].
  exfalso. apply NoDup_cons in Hndf as [Hn _]. apply Hn.
  rewrite (Hone m1 m2); [by left | by left | right; by left].
Qed.

End BossNotifierDue.

Module AppDue.
Import App AppAux AppFacts AppMore AppRows.

Lemma foldr_max_spec (m : Z) (ms : list Z) :
  foldr Z.max m ms ∈ m :: ms ∧ ∀ x, x ∈ m :: ms → x ≤ foldr Z.max m ms.
Proof.
  induction ms as [|y ms [Hin Hmax]]; cbn.
  { split; [by left|]. intros x ->%list_elem_of_singleton. lia. }
  split.
  - destruct (Z.max_spec y (foldr Z.max m ms)) as [[_ ->]|[_ ->]].
    + apply elem_of_cons in Hin as [->|Hin]; [by left|]. right. by right.
    + right. by left.
  - intros x [->|[->|Hx]%elem_of_cons]%elem_of_cons.
    + specialize (Hmax m ltac:(left)). lia.
    + lia.
    + specialize (Hmax x ltac:(by right)). lia.
Qed.

(** The first threshold of the descending list that is due is the largest
    due threshold. *)
Lemma find_largest_due (f : Z → bool) (P : Z → Prop)
    `{∀ m, Decision (P m)} (times : list Z) :
  (∀ m, f m = true ↔ P m) →
  find f (sorted_reverse times) = largest_due P times.
Proof.
  intros HfP. unfold largest_due.
  destruct (find f (sorted_reverse times)) as [M|] eqn:Hf.
  - apply find_sorted_reverse_largest in Hf as (HM & HfM & Hmax).
    assert (HMin : M ∈ filter P times).
    { apply list_elem_of_filter. split; [by apply HfP | done]. }
    destruct (filter P times) as [|x xs] eqn:Hfilter.
    { by apply elem_of_nil in HMin. }
    destruct (foldr_max_spec x xs) as [Hin Hle]. f_equal.
    rewrite <- Hfilter in Hin.
    apply list_elem_of_filter in Hin as [HP Hin].
    specialize (Hmax _ Hin (proj2 (HfP _) HP)).
    specialize (Hle M HMin). lia.
  - rewrite find_none_elem in Hf.
    destruct (filter P times) as [|x xs] eqn:Hfilter; [done|].
    assert (Hx : x ∈ filter P times) by (rewrite Hfilter; by left).
    apply list_elem_of_filter in Hx as [HP Hx].
    apply HfP in HP. rewrite Hf in HP; [done|].
    by apply sorted_reverse_elem.
Qed.

(** Keys.  The key of a row and a threshold ends in the threshold; the
    endings of two thresholds of [NOTIFICATION_TIMES] are not the end of
    one another, so that equal keys belong to rows with equal event ids. *)
Lemma list_ascii_of_string_app (a b : string) :
  list_ascii_of_string (a +:+ b)
  = list_ascii_of_string a ++ list_ascii_of_string b.
Proof.
  induction a as [|c a IH]; [done|].
  change (c :: list_ascii_of_string (a +:+ b)
          = c :: (list_ascii_of_string a ++ list_ascii_of_string b)).
  by rewrite IH.
Qed.

Lemma NOTIFICATION_TIMES_table (k : string) (m : Z) :
  NOTIFICATION_TIMES !! k = Some m → m ∈ table.
Proof.
  assert (H : map_Forall (λ _ v, v ∈ table) NOTIFICATION_TIMES) by by_decision.
  intros Hk. exact (H k m Hk).
Qed.

Lemma key_endings_apart (m m' : Z) :
  m ∈ table → m' ∈ table →
  key_ending m `suffix_of` key_ending m' → m = m'.
Proof.
  assert (H : Forall (λ m, Forall (λ m',
                key_ending m `suffix_of` key_ending m' → m = m') table)
                table) by by_decision.
  rewrite Forall_forall in H. intros Hm Hm'.
  specialize (H m Hm). rewrite Forall_forall in H. by apply H.
Qed.

Lemma notification_key_event_id (r r' : row) (m m' : Z) :
  m ∈ table → m' ∈ table →
  notification_key r m = notification_key r' m' → event_id r = event_id r'.
Proof.
  intros Hm Hm' Hkey. apply (f_equal list_ascii_of_string) in Hkey.
  unfold notification_key in Hkey.
  rewrite !(list_ascii_of_string_app (event_id _)) in Hkey.
  fold (key_ending m) in Hkey. fold (key_ending m') in Hkey.
  assert (Hmm : m = m').
  { destruct (suffix_weak_total (key_ending m) (key_ending m')
                (list_ascii_of_string (event_id r) ++ key_ending m))
      as [Hs|Hs].
    - by eexists.
    - rewrite Hkey. by eexists.
    - by apply key_endings_apart.
    - symmetry. by apply key_endings_apart. }
  subst m'. apply app_inv_tail in Hkey.
  apply (f_equal string_of_list_ascii) in Hkey.
  by rewrite !string_of_list_ascii_of_string in Hkey.
Qed.

Lemma active_notification_times_table (settings : list (string * bool))
    (times : list Z) :
  active_notification_times settings = Ok times →
  Forall (λ m, m ∈ table) times.
Proof.
  intros Ht. apply Forall_forall. intros m Hm.
  destruct (active_notification_times_elem settings times m Ht Hm)
    as (k & _ & Hk).
  by eapply NOTIFICATION_TIMES_table.
Qed.

(** What a row shows depends on the ledger through the keys of the row
    only. *)
Lemma due_toast_ext (now : datetime) (times : list Z)
    (l1 l2 : gmap string bool) (r : row) :
  (∀ m, m ∈ times →
        l1 !! notification_key r m = l2 !! notification_key r m) →
  due_toast now times l1 r = due_toast now times l2 r.
Proof.
  intros Hsame. unfold due_toast, largest_due.
  destruct (event_datetime_of now r) as [e|]; [|done].
  assert (Hf : filter (λ m, Spec.arming_window e m (td_seconds 30) now
                            ∧ l1 !! notification_key r m = None) times
               = filter (λ m, Spec.arming_window e m (td_seconds 30) now
                              ∧ l2 !! notification_key r m = None) times).
  { clear -Hsame. induction times as [|m times IH]; [done|].
    rewrite !filter_cons. rewrite IH by (intros; apply Hsame; by right).
    rewrite (Hsame m) by left.
    by destruct (decide _). }
  by rewrite Hf.
Qed.

(** One row of the loop. *)
Lemma row_step_due (now : datetime) (times : list Z)
    (acc acc' : option (string * datetime) * timedelta) (r : row)
    (s s' : app) :
  row_step now times acc r s = (s', Ok acc') →
  toasts s'
  = toasts s
    ++ option_list (due_toast now times (notifications_sent_today s) r)
  ∧ ∀ k, (∀ m, m ∈ times → k ≠ notification_key r m) →
         notifications_sent_today s' !! k = notifications_sent_today s !! k.
Proof.
  unfold row_step, due_toast. unfold mbind at 1, stM_bind at 1, lift.
  destruct (event_datetime_of now r) as [e|] eqn:He; [|done].
  unfold mbind, stM_bind. rewrite notify_row_eq.
  rewrite (find_largest_due (due r (e - now) s)
             (λ m, Spec.arming_window e m (td_seconds 30) now
                   ∧ notifications_sent_today s !! notification_key r m
                     = None)).
  2:{ intros m. unfold due.
      rewrite andb_true_iff, bool_decide_eq_true.
      unfold in_window, Spec.arming_window. cbn zeta.
      rewrite andb_true_iff, Z.leb_le, Z.ltb_lt.
      split; intros [? ?]; (split; [lia | done]). }
  pose proof (λ x xs,
    foldr_max_spec x xs) as Hspec.
  unfold largest_due.
  destruct (filter _ times) as [|x xs] eqn:Hfilter; cbn.
  - intros [= <- _]. split; [by rewrite app_nil_r | done].
  - intros [= <- _]. cbn. split; [done|].
    intros k Hk. apply lookup_insert_ne. intros Heq.
    apply (Hk (foldr Z.max x xs)); [|done].
    destruct (Hspec x xs) as [Hin _]. rewrite <- Hfilter in Hin.
    by apply list_elem_of_filter in Hin as [_ ?].
Qed.

(** The loop over today's rows. *)
Lemma rows_loop_due (now : datetime) (times : list Z)
    (ledger : gmap string bool) (rows : list row) :
  Forall (λ m, m ∈ table) times →
  NoDup (event_id <$> rows) →
  ∀ acc acc' s s',
  (∀ r m, r ∈ rows → m ∈ times →
          notifications_sent_today s !! notification_key r m
          = ledger !! notification_key r m) →
  rows_loop now times acc rows s = (s', Ok acc') →
  toasts s' = toasts s ++ omap (due_toast now times ledger) rows.
Proof.
  intros Htimes. rewrite Forall_forall in Htimes.
  induction rows as [|r rows IH]; intros Hnd acc acc' s s' Hagree.
  { cbn. intros [= <- _]. by rewrite app_nil_r. }
  cbn [fmap list_fmap] in Hnd. apply NoDup_cons in Hnd as [Hr Hnd].
  cbn [rows_loop]. unfold mbind, stM_bind.
  destruct (row_step now times acc r s) as [s1 [acc1|e]] eqn:Hstep; [|done].
  apply row_step_due in Hstep as [Hs Hl].
  intros Hloop. rewrite (IH Hnd acc1 acc' s1 s'); [| |done].
  - rewrite Hs, <- app_assoc. f_equal. cbn [omap list_omap].
    rewrite (due_toast_ext now times (notifications_sent_today s) ledger r)
      by (intros m Hm; apply Hagree; [by left | done]).
    by destruct (due_toast now times ledger r).
  - intros r' m' Hr' Hm'. rewrite Hl.
    + apply Hagree; [by right | done].
    + intros m Hm Heq. apply Hr.
      apply notification_key_event_id in Heq; [|auto..].
      rewrite <- Heq. apply list_elem_of_fmap. by exists r'.
Qed.

Lemma check_due (now : datetime) (s : app) (rows : list row)
    (times : list Z) :
  df_schedule s = Some rows → is_running s = true →
  active_notification_times (notification_settings s) = Ok times →
  NoDup (event_id <$> filtered_df s rows now) →
  (check_for_notifications now s).2 = Ok tt →
  toasts (check_for_notifications now s).1
  = toasts s
    ++ omap (due_toast now times (ledger_at now s)) (filtered_df s rows now).
Proof.
  intros Hdf Hrun Htimes Hnd. rewrite check_for_notifications_eq, Hdf, Hrun.
  destruct rows as [|r0 rows]; [by rewrite app_nil_r|]. cbn [negb].
  destruct (AppToasts.daily_reset_fields now s)
    as (Hok & Hact & Hset & Htoasts & Hled).
  destruct (daily_reset now s) as [s1 [[]|e]]; [|done]. cbn [fst snd] in *.
  assert (Hal : active_bosses_list s1 = active_bosses_list s)
    by (unfold active_bosses_list; by rewrite Hact).
  rewrite check_body_eq, Hal,
    (AppStatus.filtered_df_active s s1 (r0 :: rows) now Hact).
  destruct (active_bosses_list s) as [|b bs] eqn:Hbs.
  { intros _. cbn [fst update_status_label toasts]. rewrite Htoasts.
    assert (Hnone : filtered_df s (r0 :: rows) now = []).
    { apply elem_of_nil_inv. intros r Hr.
      unfold filtered_df in Hr.
      apply list_elem_of_filter in Hr as [[_ Hb] _].
      rewrite Hbs in Hb. by apply elem_of_nil in Hb. }
    by rewrite Hnone, app_nil_r. }
  rewrite Hset, Htimes.
  destruct (rows_loop now times (None, td_days 365)
              (filtered_df s (r0 :: rows) now) s1) as [s' [acc|e]] eqn:Hloop;
    [|done].
  intros _. cbn [fst update_status_label toasts].
  rewrite (rows_loop_due now times (notifications_sent_today s1) _
             (active_notification_times_table _ _ Htimes) Hnd _ _ _ _
             (λ _ _ _ _, eq_refl) Hloop).
  by rewrite Htoasts, Hled.
Qed.

Lemma largest_due_spec (P : Z → Prop) `{∀ m, Decision (P m)}
    (times : list Z) (M : Z) :
  largest_due P times = Some M
  ↔ M ∈ times ∧ P M ∧ ∀ m, m ∈ times → P m → m ≤ M.
Proof.
  unfold largest_due.
  destruct (filter P times) as [|x xs] eqn:Hfilter.
  - split; [done|]. intros (HM & HP & _).
    assert (Hin : M ∈ filter P times) by by apply list_elem_of_filter.
    rewrite Hfilter in Hin. by apply elem_of_nil in Hin.
  - destruct (foldr_max_spec x xs) as [Hin Hle].
    rewrite <- Hfilter in Hin, Hle.
    apply list_elem_of_filter in Hin as [HP Hin]. split.
    + intros [= <-]. split; [done|]. split; [done|].
      intros m Hm HPm. apply Hle. by apply list_elem_of_filter.
    + intros (HM & HPM & Hmax). f_equal.
      specialize (Hmax _ Hin HP).
      specialize (Hle M ltac:(by apply list_elem_of_filter)). lia.
Qed.

End AppDue.



